(** * Craftella storefront: the client-side fetch / filter / paginate / mutate pattern

    A shallow embedding of the page controllers of the React front end
    (TypeScript sources under [src/]) and of its HTTP facade, with the
    properties the specification states about them.

    Conventions of the embedding.
    - A JavaScript [number] that holds money or a server-reported page is a
      binary64 float ([PrimFloat.float]), with IEEE arithmetic; entity ids and
      the page a controller asks for are integers ([Z]).
    - An [async] function is modelled at its [await] points: the network (and
      the backend behind it) is a state transformer that answers a request,
      and the code after an [await] is a function of the settled promise.
    - [try]/[catch] is a completion that is either normal or a throw.
    - React state is a record; a setter is a record update. *)

From Stdlib Require Import Floats ZArith List Ascii String Bool Lia DecimalString.
Import ListNotations.

Local Open Scope string_scope.
Local Open Scope Z_scope.

Set Implicit Arguments.
Set Warnings "-inexact-float".

(* ================================================================== *)
(** * The JavaScript fragment the pages rely on *)
(* ================================================================== *)

Module Js.

(** What a [catch] clause reads of a thrown value: [error.message]. *)
Record Error := mkError { name : string; message : string }.

(** A settled promise, as [await] sees it. *)
Inductive Promise (A : Type) : Type :=
| Resolved (value : A)
| Rejected (reason : Error).
Arguments Resolved {A} value.
Arguments Rejected {A} reason.

(** The completion of a block of statements. *)
Inductive Completion (A : Type) : Type :=
| Normal (a : A)
| Throw (e : Error).
Arguments Normal {A} a.
Arguments Throw {A} e.

Definition bind {A B} (c : Completion A) (k : A -> Completion B) : Completion B :=
  match c with
  | Normal a => k a
  | Throw e => Throw e
  end.

(** [await p]: a rejection is thrown at the [await]. *)
Definition await {A} (p : Promise A) : Completion A :=
  match p with
  | Resolved v => Normal v
  | Rejected e => Throw e
  end.

(** [try { body } catch (error) { handler }] *)
Definition try_catch {A} (body : Completion A) (handler : Error -> A) : A :=
  match body with
  | Normal a => a
  | Throw e => handler e
  end.

(** ToBoolean on a string: only the empty string is falsy. *)
Definition truthy_string (s : string) : bool := negb (s =? "")%string.

(** [a || b] on strings. *)
Definition or_string (a b : string) : string := if truthy_string a then a else b.

(** [v || b] where [v] is a string or [null]/[undefined]. *)
Definition or_default (v : option string) (b : string) : string :=
  match v with
  | Some a => or_string a b
  | None => b
  end.

(** ToBoolean on a number: [+0], [-0] and [NaN] are falsy. *)
Definition truthy_number (x : float) : bool :=
  negb (PrimFloat.eqb x 0%float || PrimFloat.is_nan x).

(** ToBoolean on a number that may be missing ([undefined]). *)
Definition truthy_field (v : option float) : bool :=
  match v with
  | Some x => truthy_number x
  | None => false
  end.

(** [n.toString()] and template interpolation of an integer. *)
Definition toString (n : Z) : string := NilZero.string_of_int (Z.to_int n).

(** [for (const x of xs) { await step(x); }] in a world that [step]
    changes: the first rejection leaves the loop, and the rest of [xs] is
    not visited. *)
Fixpoint for_await {X World A} (step : X -> World -> World * Promise A)
    (xs : list X) (w : World) : World * Completion unit :=
  match xs with
  | [] => (w, Normal tt)
  | x :: rest =>
      let (w1, r) := step x w in
      match await r with
      | Throw e => (w1, Throw e)
      | Normal _ => for_await step rest w1
      end
  end.

(** The banner a page shows: [{ type: 'success' | 'error'; text }]. *)
Inductive MessageType : Type := msg_success | msg_error.
Record Message := mkMessage { message_type : MessageType; text : string }.

End Js.

Import Js.

Declare Scope js_scope.
Notation "x <- c ;; k" := (Js.bind c (fun x => k))
  (at level 61, c at next level, right associativity) : js_scope.
Local Open Scope js_scope.

(* ================================================================== *)
(** * The HTTP facade ([lib/api.ts]) and the [useApi] hook *)
(* ================================================================== *)

Module Api.

Definition API_BASE : string := "http://localhost:8000/api".

Section Facade.

(** Parsed JSON values, the state of the world behind [fetch] (network
    and backend), and the token in [localStorage]. *)
Variable Json : Type.
Variable World : Type.

Record Request := mkRequest {
  url : string;
  method : string;
  headers : list (string * string);
  body : option Json          (* the value handed to JSON.stringify *)
}.

(** A [Response]: its status line and what [res.json()] settles to. *)
Record Response := mkResponse {
  status : Z;
  statusText : string;
  json : Promise Json
}.

(** [response.ok] *)
Definition ok (res : Response) : bool :=
  (200 <=? status res) && (status res <=? 299).

(** [fetch] rejects only when no reply arrives. *)
Inductive FetchResult : Type :=
| NoReply (e : Error)
| Replied (res : Response).

Definition Fetch : Type := Request -> World -> World * FetchResult.

Variable fetch : Fetch.
Variable auth_token : option string.

Definition getAuthHeader : list (string * string) :=
  match auth_token with
  | Some token =>
      if truthy_string token then [("Authorization", "Bearer " ++ token)] else []
  | None => []
  end.

(** [.then(res => res.json())] *)
Definition then_json (r : FetchResult) : Promise Json :=
  match r with
  | NoReply e => Rejected e
  | Replied res => json res
  end.

Definition call (req : Request) (w : World) : World * Promise Json :=
  let (w', r) := fetch req w in (w', then_json r).

Definition json_headers : list (string * string) :=
  (getAuthHeader ++ [("Content-Type", "application/json")])%list.

Definition get (u : string) : World -> World * Promise Json :=
  call (mkRequest (API_BASE ++ u) "GET" getAuthHeader None).

Definition post (u : string) (data : Json) : World -> World * Promise Json :=
  call (mkRequest (API_BASE ++ u) "POST" json_headers (Some data)).

Definition put (u : string) (data : Json) : World -> World * Promise Json :=
  call (mkRequest (API_BASE ++ u) "PUT" json_headers (Some data)).

Definition patch (u : string) (data : Json) : World -> World * Promise Json :=
  call (mkRequest (API_BASE ++ u) "PATCH" json_headers (Some data)).

Definition del (u : string) : World -> World * Promise Json :=
  call (mkRequest (API_BASE ++ u) "DELETE" getAuthHeader None).

(** ** [useApi]: the hook's [fetchData] *)

Record ApiError := mkApiError {
  err_message : string;
  err_status : option Z
}.

Record HookState := mkHookState {
  data : option Json;
  loading : bool;
  error : option ApiError
}.

Definition setData (v : Json) (st : HookState) : HookState :=
  mkHookState (Some v) (loading st) (error st).
Definition setLoading (b : bool) (st : HookState) : HookState :=
  mkHookState (data st) b (error st).
Definition setError (e : ApiError) (st : HookState) : HookState :=
  mkHookState (data st) (loading st) (Some e).

(** [options?.method || 'GET'] and [options?.body]: an absent or falsy
    body is sent as [undefined]. *)
Definition hook_request (u : string) (options : option (string * option Json)) : Request :=
  mkRequest (API_BASE ++ u)
    (match options with Some (m, _) => or_string m "GET" | None => "GET" end)
    ([("Content-Type", "application/json")] ++ getAuthHeader)%list
    (match options with Some (_, b) => b | None => None end).

Definition fetchData (u : string) (options : option (string * option Json))
    (st : HookState) (w : World) : World * HookState :=
  let st := setLoading true st in
  let (w', r) := fetch (hook_request u options) w in
  let body : Completion HookState :=
    response <- (match r with NoReply e => Throw e | Replied res => Normal res end) ;;
    _ <- (if negb (ok response)
          then Throw (mkError "Error"
                 ("HTTP " ++ toString (status response) ++ ": " ++ statusText response))
          else Normal tt) ;;
    result <- await (json response) ;;
    Normal (setData result st) in
  let st' := try_catch body (fun err =>
    (* a thrown Error, TypeError or SyntaxError has no [status] property *)
    setError (mkApiError (or_string (message err) "An error occurred") None) st) in
  (w', setLoading false st').

End Facade.

Arguments NoReply {Json} e.

(** [fetch] with a log of the requests it was handed, in order: the
    observer of a test, not part of the client. *)
Definition recording {Json World} (fetch : Fetch Json World)
    : Fetch Json (World * list (Request Json)) :=
  fun req wl =>
    let (w', r) := fetch req (fst wl) in ((w', (snd wl ++ [req])%list), r).

(** A network that answers every request with the same reply. *)
Definition always_replies {Json} (res : Response Json) : Fetch Json unit :=
  fun _ w => (w, Replied res).

End Api.

(* ================================================================== *)
(** * Response shapes of the backend *)
(* ================================================================== *)

Module Shape.

(** A single resource comes bare or wrapped as [{data: ...}]; JSON [null]
    is a value a body can parse to as well. *)
Inductive Item (A : Type) : Type :=
| INull
| IBare (a : A)
| IWrapped (a : A).
Arguments INull {A}.
Arguments IBare {A} a.
Arguments IWrapped {A} a.

(** [response.data || response] *)
Definition unwrap {A} (response : Item A) : Completion A :=
  match response with
  | INull => Throw (mkError "TypeError" "Cannot read properties of null (reading 'data')")
  | IBare a => Normal a
  | IWrapped a => Normal a
  end.

(** Pagination data of an enveloped list. *)
Record Meta := mkMeta { current_page : float; last_page : float }.

(** A list endpoint answers a bare array, or an object that may carry a
    [data] array and a [meta] object (an error body is an object with
    neither), or [null]. *)
Inductive Listing (A : Type) : Type :=
| LNull
| LArray (items : list A)
| LObject (data : option (list A)) (meta : option Meta).
Arguments LNull {A}.
Arguments LArray {A} items.
Arguments LObject {A} data meta.

Definition null_data : Error :=
  mkError "TypeError" "Cannot read properties of null (reading 'data')".

(** [Array.isArray(response) ? response : response.data || []]
    (an array, even an empty one, is truthy). *)
Definition items_of {A} (response : Listing A) : Completion (list A) :=
  match response with
  | LArray items => Normal items
  | LObject (Some items) _ => Normal items
  | LObject None _ => Normal []
  | LNull => Throw null_data
  end.

(** [response.meta] ([undefined] on an array). *)
Definition meta_of {A} (response : Listing A) : Completion (option Meta) :=
  match response with
  | LArray _ => Normal None
  | LObject _ m => Normal m
  | LNull => Throw (mkError "TypeError" "Cannot read properties of null (reading 'meta')")
  end.

(** The admin lists also take a paginator inside an envelope: the [data]
    of the reply is an array, or an object with a [data] array of its
    own. *)
Inductive Inner (A : Type) : Type :=
| InArray (items : list A)
| InObject (data : option (list A)).
Arguments InArray {A} items.
Arguments InObject {A} data.

Inductive Paginated (A : Type) : Type :=
| PNull
| PArray (items : list A)
| PObject (data : option (Inner A)) (meta : option Meta).
Arguments PNull {A}.
Arguments PArray {A} items.
Arguments PObject {A} data meta.

(** [const data = response.data || response;
    Array.isArray(data) ? data : data.data || []] *)
Definition items_of_unwrapped {A} (response : Paginated A) : Completion (list A) :=
  match response with
  | PNull => Throw null_data
  | PArray items => Normal items    (* an array has no [data]: data = response *)
  | PObject None _ => Normal []     (* data = response, and response.data || [] *)
  | PObject (Some (InArray items)) _ => Normal items
  | PObject (Some (InObject (Some items))) _ => Normal items    (* data.data *)
  | PObject (Some (InObject None)) _ => Normal []               (* data.data || [] *)
  end.

(** [response.meta?.last_page] reads the outer object. *)
Definition outer_meta {A} (response : Paginated A) : Completion (option Meta) :=
  match response with
  | PNull => Throw (mkError "TypeError" "Cannot read properties of null (reading 'meta')")
  | PArray _ => Normal None
  | PObject _ m => Normal m
  end.

(** [response.meta?.last_page || 1] *)
Definition last_page_or_1 (m : option Meta) : float :=
  match m with
  | Some m => if truthy_number (last_page m) then last_page m else 1%float
  | None => 1%float
  end.

End Shape.

Import Shape.

(* ================================================================== *)
(** * The cart page ([pages/customer/Cart.tsx]) *)
(* ================================================================== *)

Module Cart.

Record Itemable := mkItemable {
  itemable_id : Z;
  itemable_name : string;
  price : float;
  image_url : string;
  type : string
}.

Record CartItem := mkCartItem {
  id : Z;
  quantity : Z;
  unit_price : float;
  total : float;
  itemable : Itemable;
  customization : option (option string)    (* customization?.engraving_text *)
}.

(** The cart as the server sends it and as the page keeps it: the three
    computed amounts may be missing, and so may the items (an error body
    has neither). *)
Record Cart := mkCart {
  items : option (list CartItem);
  subtotal : option float;
  tax : option float;
  cart_total : option float
}.

(** The state [fetchCart] writes (the promo-code fields are left out). *)
Record State := mkState {
  cart : option Cart;
  loading : bool
}.

Definition initial : State := mkState None true.

Definition setCart (c : Cart) (st : State) : State := mkState (Some c) (loading st).
Definition setLoading (b : bool) (st : State) : State := mkState (cart st) b.

(** [cartData.items.reduce((sum, item) => sum + item.total, 0)] *)
Definition sum_totals (l : list CartItem) : float :=
  fold_left (fun sum item => (sum + total item)%float) l 0%float.

(** [cartData.items.reduce]: reading [reduce] of [undefined] throws. *)
Definition reduce_target (items : option (list CartItem)) : Completion (list CartItem) :=
  match items with
  | Some l => Normal l
  | None => Throw (mkError "TypeError"
                     "Cannot read properties of undefined (reading 'reduce')")
  end.

(** The part of [fetchCart] after [await api.get('/cart')]. *)
Definition fetchCart_then (result : Promise (Item Cart)) (st : State) : State :=
  let body : Completion State :=
    response <- await result ;;
    cartData <- unwrap response ;;
    if negb (truthy_field (subtotal cartData)) then
      items <- reduce_target (items cartData) ;;
      let subtotal := sum_totals items in
      let tax := (subtotal * 0.08)%float in
      let total := (subtotal + tax)%float in
      Normal (setCart (mkCart (Some items) (Some subtotal) (Some tax) (Some total)) st)
    else
      Normal (setCart cartData st) in
  let st' := try_catch body (fun error =>
    setCart (mkCart (Some []) (Some 0%float) (Some 0%float) (Some 0%float)) st) in
  setLoading false st'.

Section WithNetwork.
Variable World : Type.
Variable fetch : Api.Fetch (Item Cart) World.
Variable auth_token : option string.

Definition fetchCart (st : State) (w : World) : World * State :=
  let (w', result) := Api.get fetch auth_token "/cart" w in
  (w', fetchCart_then result st).
End WithNetwork.

End Cart.

(* ================================================================== *)
(** * [URLSearchParams] *)
(* ================================================================== *)

Module URLSearchParams.

(** The list of name-value pairs, in order. *)
Definition t : Type := list (string * string).

Definition empty : t := [].

Definition append (name value : string) (p : t) : t := (p ++ [(name, value)])%list.

Fixpoint get (name : string) (p : t) : option string :=
  match p with
  | [] => None
  | (k, v) :: rest => if (k =? name)%string then Some v else get name rest
  end.

Definition delete (name : string) (p : t) : t :=
  filter (fun kv => negb (fst kv =? name)%string) p.

(** [set]: the first pair of that name takes the value and the others go;
    a new pair is appended when there is none. *)
Fixpoint set (name value : string) (p : t) : t :=
  match p with
  | [] => [(name, value)]
  | (k, v) :: rest =>
      if (k =? name)%string then (name, value) :: delete name rest
      else (k, v) :: set name value rest
  end.

(** The application/x-www-form-urlencoded serializer, on the bytes of the
    UTF-8 text. *)
Definition hex_digit (n : N) : Ascii.ascii :=
  Ascii.ascii_of_N (if (n <? 10)%N then 48 + n else 55 + n)%N.

Definition unreserved (n : N) : bool :=
  ((n =? 42) || (n =? 45) || (n =? 46) || (n =? 95)
   || ((48 <=? n) && (n <=? 57))
   || ((65 <=? n) && (n <=? 90))
   || ((97 <=? n) && (n <=? 122)))%N.

Fixpoint encode (s : string) : string :=
  match s with
  | EmptyString => EmptyString
  | String c rest =>
      let n := Ascii.N_of_ascii c in
      if unreserved n then String c (encode rest)
      else if (n =? 32)%N then String "+"%char (encode rest)
      else String "%"%char (String (hex_digit (n / 16)) (String (hex_digit (n mod 16)) (encode rest)))
  end.

Fixpoint toString (p : t) : string :=
  match p with
  | [] => ""
  | [(k, v)] => encode k ++ "=" ++ encode v
  | (k, v) :: rest => encode k ++ "=" ++ encode v ++ "&" ++ toString rest
  end.

(** [if (b) params.append(...)] and [if (b) params.set(...)] *)
Definition when (b : bool) (f : t -> t) (p : t) : t := if b then f p else p.

End URLSearchParams.

(* ================================================================== *)
(** * The catalog page ([pages/customer/Products.tsx]) *)
(* ================================================================== *)

Module Products.

Record Product := mkProduct {
  id : Z;
  name : string;
  price : float;
  image_url : string;
  product_category : string;
  is_featured : bool
}.

Record FilterOptions := mkFilters {
  category : string;
  minPrice : string;
  maxPrice : string;
  featuredOnly : bool;
  sortBy : string
}.

Record State := mkState {
  products : list Product;
  loading : bool;
  hasMore : bool;
  searchParams : URLSearchParams.t;
  filters : FilterOptions;
  isFilterOpen : bool
}.

Definition setProducts v st :=
  mkState v (loading st) (hasMore st) (searchParams st) (filters st) (isFilterOpen st).
Definition setLoading v st :=
  mkState (products st) v (hasMore st) (searchParams st) (filters st) (isFilterOpen st).
Definition setHasMore v st :=
  mkState (products st) (loading st) v (searchParams st) (filters st) (isFilterOpen st).
Definition setSearchParams v st :=
  mkState (products st) (loading st) (hasMore st) v (filters st) (isFilterOpen st).
Definition setFilters v st :=
  mkState (products st) (loading st) (hasMore st) (searchParams st) v (isFilterOpen st).
Definition setIsFilterOpen v st :=
  mkState (products st) (loading st) (hasMore st) (searchParams st) (filters st) v.

(** Filters read from the URL, or their defaults. *)
Definition initialFilters (searchParams : URLSearchParams.t) : FilterOptions :=
  mkFilters
    (or_default (URLSearchParams.get "category" searchParams) "")
    (or_default (URLSearchParams.get "minPrice" searchParams) "")
    (or_default (URLSearchParams.get "maxPrice" searchParams) "")
    (match URLSearchParams.get "featuredOnly" searchParams with
     | Some v => (v =? "true")%string
     | None => false
     end)
    (or_default (URLSearchParams.get "sortBy" searchParams) "created_at_desc").

(** The state of a freshly loaded page. *)
Definition initial (searchParams : URLSearchParams.t) : State :=
  mkState [] true true searchParams (initialFilters searchParams) false.

(** [s.split('_')] *)
Fixpoint split_underscore (s : string) : list string :=
  match s with
  | EmptyString => [""]
  | String c rest =>
      if Ascii.eqb c "_"%char then "" :: split_underscore rest
      else match split_underscore rest with
           | h :: t => String c h :: t
           | [] => [String c ""]
           end
  end.

(** A missing array element is [undefined], which [append] turns into text. *)
Definition or_undefined (v : option string) : string :=
  match v with Some s => s | None => "undefined" end.

(** The query of [fetchProducts(page)]. *)
Definition query_params (filters : FilterOptions) (page : Z) : URLSearchParams.t :=
  let params := URLSearchParams.empty in
  let params := URLSearchParams.when (truthy_string (category filters))
                  (URLSearchParams.append "category" (category filters)) params in
  let params := URLSearchParams.when (truthy_string (minPrice filters))
                  (URLSearchParams.append "min_price" (minPrice filters)) params in
  let params := URLSearchParams.when (truthy_string (maxPrice filters))
                  (URLSearchParams.append "max_price" (maxPrice filters)) params in
  let params := URLSearchParams.when (featuredOnly filters)
                  (URLSearchParams.append "featured" "1") params in
  let parts := split_underscore (sortBy filters) in
  let field := nth_error parts 0 in
  let direction := nth_error parts 1 in
  let params := URLSearchParams.append "sort_field" (or_undefined field) params in
  let params := URLSearchParams.append "sort_direction" (or_undefined direction) params in
  let params := URLSearchParams.append "page" (toString page) params in
  URLSearchParams.append "per_page" "12" params.

Definition products_url (filters : FilterOptions) (page : Z) : string :=
  let queryString := URLSearchParams.toString (query_params filters page) in
  "/products" ++ (if truthy_string queryString then "?" ++ queryString else "").

Definition default_meta : Meta := mkMeta 1%float 1%float.

(** [fetchProducts(page)] after [await api.get(...)]. *)
Definition fetchProducts_then (page : Z) (result : Promise (Listing Product))
    (st : State) : State :=
  let body : Completion State :=
    response <- await result ;;
    data <- items_of response ;;
    m <- meta_of response ;;
    let meta := match m with Some m => m | None => default_meta end in
    let st1 := if page =? 1 then setProducts data st
               else setProducts (products st ++ data)%list st in
    Normal (setHasMore (current_page meta <? last_page meta)%float st1) in
  let st' := try_catch body (fun error =>
    if page =? 1 then setProducts [] st else st) in
  setLoading false st'.

(** The URL parameters [applyFilters] writes: defaults are left out. *)
Definition applyFilters_params (filters : FilterOptions) : URLSearchParams.t :=
  let newParams := URLSearchParams.empty in
  let newParams := URLSearchParams.when (truthy_string (category filters))
                     (URLSearchParams.set "category" (category filters)) newParams in
  let newParams := URLSearchParams.when (truthy_string (minPrice filters))
                     (URLSearchParams.set "minPrice" (minPrice filters)) newParams in
  let newParams := URLSearchParams.when (truthy_string (maxPrice filters))
                     (URLSearchParams.set "maxPrice" (maxPrice filters)) newParams in
  let newParams := URLSearchParams.when (featuredOnly filters)
                     (URLSearchParams.set "featuredOnly" "true") newParams in
  URLSearchParams.when (negb (sortBy filters =? "created_at_desc")%string)
    (URLSearchParams.set "sortBy" (sortBy filters)) newParams.

(** [applyFilters] up to the [await] inside [fetchProducts(1)]: the state it
    leaves and the URL it asks for. [filters] is the value its closure holds. *)
Definition applyFilters_start (filters : FilterOptions) (st : State) : State * string :=
  let st := setLoading true st in
  let st := setSearchParams (applyFilters_params filters) st in
  (setIsFilterOpen false st, products_url filters 1).

Definition resetFilters_value : FilterOptions :=
  mkFilters "" "" "" false "created_at_desc".

(** The edits of the filter drawer and of the sort select:
    [setFilters(prev => ({ ...prev, field: value }))]. *)
Definition with_category (v : string) (prev : FilterOptions) : FilterOptions :=
  mkFilters v (minPrice prev) (maxPrice prev) (featuredOnly prev) (sortBy prev).
Definition with_minPrice (v : string) (prev : FilterOptions) : FilterOptions :=
  mkFilters (category prev) v (maxPrice prev) (featuredOnly prev) (sortBy prev).
Definition with_maxPrice (v : string) (prev : FilterOptions) : FilterOptions :=
  mkFilters (category prev) (minPrice prev) v (featuredOnly prev) (sortBy prev).
Definition with_featuredOnly (v : bool) (prev : FilterOptions) : FilterOptions :=
  mkFilters (category prev) (minPrice prev) (maxPrice prev) v (sortBy prev).
Definition handleSortChange (v : string) (prev : FilterOptions) : FilterOptions :=
  mkFilters (category prev) (minPrice prev) (maxPrice prev) (featuredOnly prev) v.

(** The values of the sort select's options. *)
Definition sort_options : list string :=
  ["created_at_desc"; "price_asc"; "price_desc"; "name_asc"].

(** ** Infinite scroll *)

(** The page an intersection of the last card asks for, when the effect has
    installed an observer on it. *)
Definition intersection_request (st : State) : option Z :=
  if negb (hasMore st) || loading st then None
  else match products st with
       | [] => None                                  (* no last card to observe *)
       | _ => Some (Z.of_nat (List.length (products st)) / 12 + 1)
       end.

(** ** The debounce effect *)

(** The dependencies of the effect. *)
Definition deps (f : FilterOptions) : string * string * string * bool :=
  (category f, minPrice f, maxPrice f, featuredOnly f).

Definition deps_eqb (f g : FilterOptions) : bool :=
  (category f =? category g)%string && (minPrice f =? minPrice g)%string
  && (maxPrice f =? maxPrice g)%string && Bool.eqb (featuredOnly f) (featuredOnly g).

(** A pending [setTimeout]: when it is due and the render whose values its
    handler closes over. *)
Record Timer := mkTimer { due : Z; seen : State }.

(** The page with its pending timer and the requests it has sent (URLs, in
    order). *)
Record Page := mkPage {
  state : State;
  timer : option Timer;
  requests : list string
}.

(** The handler: [if (loading) return; applyFilters();] *)
Definition fire (tm : Timer) (p : Page) : Page :=
  if loading (seen tm) then mkPage (state p) None (requests p)
  else
    let (st', u) := applyFilters_start (filters (seen tm)) (state p) in
    mkPage st' None (requests p ++ [u])%list.

(** Time passes until [t]: a timer that is due runs. *)
Definition run_timers (t : Z) (p : Page) : Page :=
  match timer p with
  | Some tm => if due tm <=? t then fire tm p else p
  | None => p
  end.

(** After a render: when a dependency changed, the cleanup clears the
    pending timer and the effect sets a new one, 300 ms ahead. *)
Definition debounce_effect (t : Z) (old new : State) (pending : option Timer)
    : option Timer :=
  if deps_eqb (filters old) (filters new) then pending
  else Some (mkTimer (t + 300) new).

(** A filter field is edited at time [t]: [setFilters(prev => upd prev)]. *)
Definition edit (t : Z) (upd : FilterOptions -> FilterOptions) (p : Page) : Page :=
  let p := run_timers t p in
  let old := state p in
  let new := setFilters (upd (filters old)) old in
  mkPage new (debounce_effect t old new (timer p)) (requests p).

(** The reply to [fetchProducts(page)] arrives at time [t]. *)
Definition respond (t : Z) (page : Z) (result : Promise (Listing Product))
    (p : Page) : Page :=
  let p := run_timers t p in
  mkPage (fetchProducts_then page result (state p)) (timer p) (requests p).

(** The page at time 0: the mount effects ask for page 1 and set the first
    timer. *)
Definition mount (searchParams : URLSearchParams.t) : Page :=
  let st := initial searchParams in
  mkPage st (Some (mkTimer 300 st)) [products_url (filters st) 1].

Section WithNetwork.
Variable World : Type.
Variable fetch : Api.Fetch (Listing Product) World.
Variable auth_token : option string.

Definition fetchProducts (page : Z) (st : State) (w : World) : World * State :=
  let (w', result) := Api.get fetch auth_token (products_url (filters st) page) w in
  (w', fetchProducts_then page result st).

Definition applyFilters (st : State) (w : World) : World * State :=
  let st := setLoading true st in
  let st := setSearchParams (applyFilters_params (filters st)) st in
  let (w', st) := fetchProducts 1 st w in
  (w', setIsFilterOpen false st).
End WithNetwork.

End Products.

(* ================================================================== *)
(** * The admin user list ([pages/admin/Users.tsx]) *)
(* ================================================================== *)

Module Users.

Record User := mkUser {
  id : Z;
  name : string;
  email : string;
  phone : option string;
  created_at : string;
  is_suspended : bool;
  orders_count : float;
  total_spent : float
}.

(** The state [fetchUsers] reads and writes (the profile dialog is left
    out). *)
Record State := mkState {
  users : list User;
  loading : bool;
  searchTerm : string;
  statusFilter : string;              (* 'all' | 'active' | 'suspended' *)
  dateRange : string * string;        (* start, end *)
  currentPage : Z;
  totalPages : float
}.

Definition setUsers v st :=
  mkState v (loading st) (searchTerm st) (statusFilter st) (dateRange st)
    (currentPage st) (totalPages st).
Definition setLoading v st :=
  mkState (users st) v (searchTerm st) (statusFilter st) (dateRange st)
    (currentPage st) (totalPages st).
Definition setCurrentPage v st :=
  mkState (users st) (loading st) (searchTerm st) (statusFilter st) (dateRange st)
    v (totalPages st).
Definition setTotalPages v st :=
  mkState (users st) (loading st) (searchTerm st) (statusFilter st) (dateRange st)
    (currentPage st) v.

Definition initial : State := mkState [] true "" "all" ("", "") 1 1%float.

Definition query_params (st : State) (page : Z) : URLSearchParams.t :=
  let params := URLSearchParams.empty in
  let params := URLSearchParams.append "page" (toString page) params in
  let params := URLSearchParams.append "per_page" "10" params in
  let params := URLSearchParams.when (truthy_string (searchTerm st))
                  (URLSearchParams.append "search" (searchTerm st)) params in
  let params := URLSearchParams.when (negb (statusFilter st =? "all")%string)
                  (URLSearchParams.append "status" (statusFilter st)) params in
  let params := URLSearchParams.when (truthy_string (fst (dateRange st)))
                  (URLSearchParams.append "start_date" (fst (dateRange st))) params in
  URLSearchParams.when (truthy_string (snd (dateRange st)))
    (URLSearchParams.append "end_date" (snd (dateRange st))) params.

Definition users_url (st : State) (page : Z) : string :=
  "/admin/users?" ++ URLSearchParams.toString (query_params st page).

(** [fetchUsers(page)] after [await api.get(...)]; [setLoading(true)] ran
    before the request. *)
Definition fetchUsers_then (page : Z) (result : Promise (Paginated User))
    (st : State) : State :=
  let body : Completion State :=
    response <- await result ;;
    data <- items_of_unwrapped response ;;
    m <- outer_meta response ;;
    Normal (setCurrentPage page (setTotalPages (last_page_or_1 m) (setUsers data st))) in
  let st' := try_catch body (fun error => setTotalPages 1%float (setUsers [] st)) in
  setLoading false st'.

Section WithNetwork.
Variable World : Type.
Variable fetch : Api.Fetch (Paginated User) World.
Variable auth_token : option string.

Definition fetchUsers (page : Z) (st : State) (w : World) : World * State :=
  let st := setLoading true st in
  let (w', result) := Api.get fetch auth_token (users_url st page) w in
  (w', fetchUsers_then page result st).
End WithNetwork.

End Users.

(* ================================================================== *)
(** * The admin product list ([pages/admin/ProductsAdmin.tsx]) *)
(* ================================================================== *)

Module ProductsAdmin.

Record Product := mkProduct {
  id : Z;
  name : string;
  description : string;
  price : float;
  category : string;
  type : string;
  image_url : string;
  is_featured : bool;
  has3d : bool;
  created_at : string
}.

(** The state the list and the bulk actions read and write (the edit form
    is left out). *)
Record State := mkState {
  products : list Product;
  loading : bool;
  searchTerm : string;
  categoryFilter : string;     (* 'all' | 'product' | 'souvenir' | 'event_package' *)
  featuredFilter : string;     (* 'all' | 'featured' | 'not_featured' *)
  currentPage : Z;
  totalPages : float;
  selectedProducts : list Z;
  message : option Message
}.

Definition setProducts v st :=
  mkState v (loading st) (searchTerm st) (categoryFilter st) (featuredFilter st)
    (currentPage st) (totalPages st) (selectedProducts st) (message st).
Definition setLoading v st :=
  mkState (products st) v (searchTerm st) (categoryFilter st) (featuredFilter st)
    (currentPage st) (totalPages st) (selectedProducts st) (message st).
Definition setCurrentPage v st :=
  mkState (products st) (loading st) (searchTerm st) (categoryFilter st) (featuredFilter st)
    v (totalPages st) (selectedProducts st) (message st).
Definition setTotalPages v st :=
  mkState (products st) (loading st) (searchTerm st) (categoryFilter st) (featuredFilter st)
    (currentPage st) v (selectedProducts st) (message st).
Definition setSelectedProducts v st :=
  mkState (products st) (loading st) (searchTerm st) (categoryFilter st) (featuredFilter st)
    (currentPage st) (totalPages st) v (message st).
Definition setMessage v st :=
  mkState (products st) (loading st) (searchTerm st) (categoryFilter st) (featuredFilter st)
    (currentPage st) (totalPages st) (selectedProducts st) v.

Definition query_params (st : State) (page : Z) : URLSearchParams.t :=
  let params := URLSearchParams.empty in
  let params := URLSearchParams.append "page" (toString page) params in
  let params := URLSearchParams.append "per_page" "10" params in
  let params := URLSearchParams.when (truthy_string (searchTerm st))
                  (URLSearchParams.append "search" (searchTerm st)) params in
  let params := URLSearchParams.when (negb (categoryFilter st =? "all")%string)
                  (URLSearchParams.append "category" (categoryFilter st)) params in
  let params := URLSearchParams.when (featuredFilter st =? "featured")%string
                  (URLSearchParams.append "featured" "1") params in
  URLSearchParams.when (featuredFilter st =? "not_featured")%string
    (URLSearchParams.append "featured" "0") params.

Definition products_url (st : State) (page : Z) : string :=
  "/admin/products?" ++ URLSearchParams.toString (query_params st page).

Definition fetchProducts_then (page : Z) (result : Promise (Paginated Product))
    (st : State) : State :=
  let body : Completion State :=
    response <- await result ;;
    data <- items_of_unwrapped response ;;
    m <- outer_meta response ;;
    Normal (setSelectedProducts []
             (setCurrentPage page (setTotalPages (last_page_or_1 m) (setProducts data st)))) in
  let st' := try_catch body (fun error => setTotalPages 1%float (setProducts [] st)) in
  setLoading false st'.

(** [toggleProductSelection]: the selection keeps the order of the clicks. *)
Definition toggleProductSelection (productId : Z) (st : State) : State :=
  let prev := selectedProducts st in
  setSelectedProducts
    (if existsb (Z.eqb productId) prev
     then filter (fun id => negb (id =? productId)) prev
     else (prev ++ [productId])%list) st.

Definition toggleSelectAll (st : State) : State :=
  if (List.length (selectedProducts st) =? List.length (products st))%nat
  then setSelectedProducts [] st
  else setSelectedProducts (map id (products st)) st.

Definition delete_url (id : Z) : string := "/admin/products/" ++ toString id.

(** The request [api.del(delete_url id)] sends. *)
Definition delete_request (auth_token : option string) (id : Z)
    : Api.Request (Paginated Product) :=
  Api.mkRequest (Api.API_BASE ++ delete_url id) "DELETE"
    (Api.getAuthHeader auth_token) None.
Definition toggle_url (id : Z) : string :=
  "/admin/products/" ++ toString id ++ "/toggle-featured".

Section WithNetwork.
Variable World : Type.
Variable fetch : Api.Fetch (Paginated Product) World.
Variable auth_token : option string.

Definition fetchProducts (page : Z) (st : State) (w : World) : World * State :=
  let st := setLoading true st in
  let (w', result) := Api.get fetch auth_token (products_url st page) w in
  (w', fetchProducts_then page result st).

(** [confirmed] is what the [confirm] dialog answers. The refresh is not
    awaited; its reply is applied here before the banner is set, which
    touches other fields of the state. *)
Definition handleBulkDelete (confirmed : bool) (st : State) (w : World)
    : World * State :=
  if (List.length (selectedProducts st) =? 0)%nat then (w, st)
  else if negb confirmed then (w, st)
  else
    let (w1, c) :=
      for_await (fun id => Api.del fetch auth_token (delete_url id))
        (selectedProducts st) w in
    match c with
    | Normal _ =>
        let (w2, st2) := fetchProducts (currentPage st) st w1 in
        (w2, setMessage (Some (mkMessage msg_success "Products deleted successfully!")) st2)
    | Throw error =>
        (w1, setMessage (Some (mkMessage msg_error
               (or_string (Js.message error) "Failed to delete products"))) st)
    end.

Definition handleBulkFeaturedToggle (st : State) (w : World) : World * State :=
  if (List.length (selectedProducts st) =? 0)%nat then (w, st)
  else
    let (w1, c) :=
      for_await (fun id => Api.patch fetch auth_token (toggle_url id) (PObject None None))
        (selectedProducts st) w in
    match c with
    | Normal _ =>
        let (w2, st2) := fetchProducts (currentPage st) st w1 in
        (w2, setMessage (Some (mkMessage msg_success "Featured status updated!")) st2)
    | Throw error =>
        (w1, setMessage (Some (mkMessage msg_error
               (or_string (Js.message error) "Failed to update featured status"))) st)
    end.
End WithNetwork.

End ProductsAdmin.

(* ================================================================== *)
(** * The admin notification list ([pages/admin/NotificationsAdmin.tsx]) *)
(* ================================================================== *)

Module NotificationsAdmin.

Record NotificationData := mkData {
  data_message : string;
  data_type : string;
  action_url : option string
}.

Record Notification := mkNotification {
  id : string;
  data : NotificationData;
  recipient : string;
  priority : string;              (* 'low' | 'medium' | 'high' *)
  created_at : string;
  read_at : option string
}.

Record State := mkState {
  notifications : list Notification;
  loading : bool;
  priorityFilter : string;        (* 'all' | 'low' | 'medium' | 'high' *)
  readFilter : string;            (* 'all' | 'unread' | 'read' *)
  selectedNotifications : list string;
  autoRefresh : bool;
  message : option Message
}.

Definition setNotifications v st :=
  mkState v (loading st) (priorityFilter st) (readFilter st)
    (selectedNotifications st) (autoRefresh st) (message st).
Definition setLoading v st :=
  mkState (notifications st) v (priorityFilter st) (readFilter st)
    (selectedNotifications st) (autoRefresh st) (message st).
Definition setSelectedNotifications v st :=
  mkState (notifications st) (loading st) (priorityFilter st) (readFilter st)
    v (autoRefresh st) (message st).
Definition setMessage v st :=
  mkState (notifications st) (loading st) (priorityFilter st) (readFilter st)
    (selectedNotifications st) (autoRefresh st) v.

Definition query_params (st : State) : URLSearchParams.t :=
  let params := URLSearchParams.empty in
  let params := URLSearchParams.when (negb (priorityFilter st =? "all")%string)
                  (URLSearchParams.append "priority" (priorityFilter st)) params in
  let params := URLSearchParams.when (readFilter st =? "unread")%string
                  (URLSearchParams.append "unread" "1") params in
  URLSearchParams.when (readFilter st =? "read")%string
    (URLSearchParams.append "read" "1") params.

Definition notifications_url (st : State) : string :=
  "/admin/notifications?" ++ URLSearchParams.toString (query_params st).

Definition fetchNotifications_then (result : Promise (Listing Notification))
    (st : State) : State :=
  let body : Completion State :=
    response <- await result ;;
    data <- items_of response ;;
    Normal (setSelectedNotifications [] (setNotifications data st)) in
  let st' := try_catch body (fun error => setNotifications [] st) in
  setLoading false st'.

Definition delete_url (id : string) : string := "/admin/notifications/" ++ id.

Definition delete_request (auth_token : option string) (id : string)
    : Api.Request (Listing Notification) :=
  Api.mkRequest (Api.API_BASE ++ delete_url id) "DELETE"
    (Api.getAuthHeader auth_token) None.

Section WithNetwork.
Variable World : Type.
Variable fetch : Api.Fetch (Listing Notification) World.
Variable auth_token : option string.

Definition fetchNotifications (st : State) (w : World) : World * State :=
  let (w', result) := Api.get fetch auth_token (notifications_url st) w in
  (w', fetchNotifications_then result st).

Definition handleBulkDelete (confirmed : bool) (st : State) (w : World)
    : World * State :=
  if (List.length (selectedNotifications st) =? 0)%nat then (w, st)
  else if negb confirmed then (w, st)
  else
    let (w1, c) :=
      for_await (fun id => Api.del fetch auth_token (delete_url id))
        (selectedNotifications st) w in
    match c with
    | Normal _ =>
        let (w2, st2) := fetchNotifications st w1 in
        (w2, setMessage (Some (mkMessage msg_success "Notifications deleted successfully!")) st2)
    | Throw error =>
        (w1, setMessage (Some (mkMessage msg_error
               (or_string (Js.message error) "Failed to delete notifications"))) st)
    end.
End WithNetwork.

End NotificationsAdmin.

(* ================================================================== *)
(** * The profile page ([pages/customer/Profile.tsx]): addresses *)
(* ================================================================== *)

Module Profile.

Record Address := mkAddress {
  id : Z;
  street : string;
  city : string;
  state : string;
  postal_code : string;
  country : string;
  is_default : bool
}.

(** The state the address actions read and write. *)
Record State := mkState {
  addresses : list Address;
  saving : bool;
  message : option Message
}.

Definition setAddresses v st := mkState v (saving st) (message st).
Definition setSaving v st := mkState (addresses st) v (message st).
Definition setMessage v st := mkState (addresses st) (saving st) v.

(** [addresses.map(addr => ({ ...addr, is_default: addr.id === id }))] *)
Definition mark_default (target : Z) (addresses : list Address) : list Address :=
  map (fun addr =>
         mkAddress (id addr) (street addr) (city addr) (state addr)
           (postal_code addr) (country addr) (id addr =? target))
      addresses.

(** [handleSetDefault(id)] after [await api.post(...)]. [addresses] is the
    list the handler's closure holds. *)
Definition handleSetDefault_then {Json} (target : Z) (addresses : list Address)
    (result : Promise Json) (st : State) : State :=
  let body : Completion State :=
    _ <- await result ;;
    Normal (setMessage (Some (mkMessage msg_success "Default address updated!"))
             (setAddresses (mark_default target addresses) st)) in
  let st' := try_catch body (fun error =>
    setMessage (Some (mkMessage msg_error
      (or_string (Js.message error) "Failed to set default address"))) st) in
  setSaving false st'.

Definition set_default_url (id : Z) : string :=
  "/profile/addresses/" ++ toString id ++ "/set-default".

Section WithNetwork.
Variable Json : Type.
Variable World : Type.
Variable fetch : Api.Fetch Json World.
Variable auth_token : option string.
Variable empty_object : Json.            (* the [{}] sent as the body *)

Definition handleSetDefault (confirmed : bool) (target : Z) (st : State) (w : World)
    : World * State :=
  if negb confirmed then (w, st)
  else
    let addresses := addresses st in
    let st := setMessage None (setSaving true st) in
    let (w', result) := Api.post fetch auth_token (set_default_url target) empty_object w in
    (w', handleSetDefault_then target addresses result st).
End WithNetwork.

(** The number of default addresses of a list. *)
Definition defaults (l : list Address) : nat :=
  List.length (filter is_default l).

End Profile.

(* ================================================================== *)
(** * Statements of the specification, and sample data *)
(* ================================================================== *)

Module Spec.

(** The fallback pricing as the specification words it: the subtotal is
    the sum of the items' totals, the tax 8% of it, the total their sum. *)
Definition fallback_pricing (c : Cart.Cart) : Cart.Cart :=
  let items := match Cart.items c with Some l => l | None => [] end in
  let s := Cart.sum_totals items in
  Cart.mkCart (Some items) (Some s) (Some (s * 0.08)%float) (Some (s + s * 0.08)%float).

(** The filter states the catalog page can be in: read from a URL, then
    edited through the drawer and the sort select, or reset. *)
Inductive reachable : Products.FilterOptions -> Prop :=
| reach_initial (sp : URLSearchParams.t) : reachable (Products.initialFilters sp)
| reach_reset : reachable Products.resetFilters_value
| reach_category v f : reachable f -> reachable (Products.with_category v f)
| reach_minPrice v f : reachable f -> reachable (Products.with_minPrice v f)
| reach_maxPrice v f : reachable f -> reachable (Products.with_maxPrice v f)
| reach_featuredOnly v f : reachable f -> reachable (Products.with_featuredOnly v f)
| reach_sort v f :
    In v Products.sort_options -> reachable f -> reachable (Products.handleSortChange v f).

(** Three edits at times [t1 <= t2 <= t3], each less than 300 ms after the
    one before; then time runs on to [T], past the last delay. *)
Definition three_edits (p : Products.Page) (t1 t2 t3 T : Z)
    (u1 u2 u3 : Products.FilterOptions -> Products.FilterOptions) : Products.Page :=
  Products.run_timers T (Products.edit t3 u3 (Products.edit t2 u2 (Products.edit t1 u1 p))).

(** No timer of the page runs at or before [t]. *)
Definition no_timer_due (t : Z) (p : Products.Page) : Prop :=
  match Products.timer p with
  | Some tm => t < Products.due tm
  | None => True
  end.

Definition edits_change_deps (f : Products.FilterOptions)
    (u1 u2 u3 : Products.FilterOptions -> Products.FilterOptions) : Prop :=
  Products.deps_eqb f (u1 f) = false /\
  Products.deps_eqb (u1 f) (u2 (u1 f)) = false /\
  Products.deps_eqb (u2 (u1 f)) (u3 (u2 (u1 f))) = false.

Definition within_300ms (t1 t2 t3 T : Z) : Prop :=
  t1 <= t2 < t1 + 300 /\ t2 <= t3 < t2 + 300 /\ t3 + 300 <= T.

(** The debounce property as the specification states it: exactly one
    request more. *)
Definition debounce_claim : Prop :=
  forall p t1 t2 t3 T u1 u2 u3,
    no_timer_due t1 p ->
    edits_change_deps (Products.filters (Products.state p)) u1 u2 u3 ->
    within_300ms t1 t2 t3 T ->
    List.length (Products.requests (three_edits p t1 t2 t3 T u1 u2 u3)) =
    S (List.length (Products.requests p)).

End Spec.

Module Sample.

Definition itemable : Cart.Itemable :=
  Cart.mkItemable 7 "Clay mug" 10%float "/img/mug.png" "product".

Definition item (id : Z) (total : float) : Cart.CartItem :=
  Cart.mkCartItem id 1 total total itemable None.

(** Two items with totals 10.00 and 20.00; the server sent no amounts. *)
Definition cart_10_20 : Cart.Cart :=
  Cart.mkCart (Some [item 1 10%float; item 2 20%float]) None None None.

(** The same items with a subtotal of 0 and amounts of the server's own. *)
Definition cart_zero_subtotal : Cart.Cart :=
  Cart.mkCart (Some [item 1 10%float; item 2 20%float])
    (Some 0%float) (Some 5%float) (Some 5%float).

(** A cart the server priced itself. *)
Definition cart_priced : Cart.Cart :=
  Cart.mkCart (Some [item 1 10%float; item 2 20%float])
    (Some 30%float) (Some 3%float) (Some 33%float).

(** An error body, [{"message": "Unauthenticated."}], read as a cart: it has
    no items and no amounts. *)
Definition cart_error_body : Cart.Cart := Cart.mkCart None None None None.

(** A server that answers every request with status 200 and this body. *)
Definition replies_200 {Json} (v : Json) : Api.Fetch Json unit :=
  Api.always_replies (Api.mkResponse 200 "OK" (Resolved v)).

(** A "404 Not Found" reply with a JSON body. *)
Definition not_found {Json} (v : Json) : Api.Response Json :=
  Api.mkResponse 404 "Not Found" (Resolved v).

Definition product (id : Z) : Products.Product :=
  Products.mkProduct id "Clay mug" 10%float "/img/mug.png" "product" false.

Definition user (id : Z) : Users.User :=
  Users.mkUser id "Ada" "ada@example.org" None "2024-01-01" false 0%float 0%float.

(** The filters of the specification's example. *)
Definition souvenir_featured : Products.FilterOptions :=
  Products.mkFilters "souvenir" "" "" true "created_at_desc".

(** A filter state with an empty sort key. *)
Definition empty_sort : Products.FilterOptions :=
  Products.mkFilters "souvenir" "" "" true "".

(** A "500" reply that carries a list all the same. *)
Definition server_error {Json} (v : Json) : Api.Response Json :=
  Api.mkResponse 500 "Internal Server Error" (Resolved v).

(** The last page of two, as an enveloped reply. *)
Definition last_page_reply : Listing Products.Product :=
  LObject (Some [product 13]) (Some (mkMeta 2%float 2%float)).

Definition admin_product (id : Z) : ProductsAdmin.Product :=
  ProductsAdmin.mkProduct id "Clay mug" "" 10%float "product" "standard" "" false false
    "2024-01-01".

(** A backend with the products 1, 2 and 3 (present or not), behind a
    network that loses every request about product 2. A delete that arrives
    removes the product and is answered "200 OK" with [{}]; a list request
    is answered with the products present. *)
Definition Shop : Type := bool * bool * bool.

Definition in_shop (w : Shop) (i : Z) : bool :=
  let '(b1, b2, b3) := w in
  if i =? 1 then b1 else if i =? 2 then b2 else if i =? 3 then b3 else false.

Definition shop_list (w : Shop) : list ProductsAdmin.Product :=
  let '(b1, b2, b3) := w in
  ((if b1 then [admin_product 1] else []) ++ (if b2 then [admin_product 2] else [])
   ++ (if b3 then [admin_product 3] else []))%list.

Definition shop_ok (w : Shop) (v : Paginated ProductsAdmin.Product)
    : Shop * Api.FetchResult (Paginated ProductsAdmin.Product) :=
  (w, Api.Replied (Api.mkResponse 200 "OK" (Resolved v))).

Definition shop : Api.Fetch (Paginated ProductsAdmin.Product) Shop :=
  fun req w =>
    let '(b1, b2, b3) := w in
    let u := Api.url req in
    if (Api.method req =? "DELETE")%string then
      if (u =? Api.API_BASE ++ ProductsAdmin.delete_url 2)%string
      then (w, Api.NoReply (mkError "TypeError" "Failed to fetch"))
      else if (u =? Api.API_BASE ++ ProductsAdmin.delete_url 1)%string
      then shop_ok (false, b2, b3) (PObject None None)
      else if (u =? Api.API_BASE ++ ProductsAdmin.delete_url 3)%string
      then shop_ok (b1, b2, false) (PObject None None)
      else shop_ok w (PObject None None)
    else shop_ok w (PArray (shop_list w)).

(** The admin page with the products 1, 2 and 3 listed and selected, in
    that order. *)
Definition admin_page : ProductsAdmin.State :=
  ProductsAdmin.mkState [admin_product 1; admin_product 2; admin_product 3]
    false "" "all" "all" 1 1%float [1; 2; 3] None.

Definition address (id : Z) (is_default : bool) : Profile.Address :=
  Profile.mkAddress id "1 Main St" "Springfield" "IL" "62701" "US" is_default.

(** Three addresses, the first one the default. *)
Definition profile_page : Profile.State :=
  Profile.mkState [address 1 true; address 2 false; address 3 false] false None.

(** The catalog page 300 ms after the mount, its first request still
    unanswered: the timer of the mount has run, and done nothing. *)
Definition slow_page : Products.Page :=
  Products.run_timers 300 (Products.mount []).

(** The catalog page once its first request has been answered, 100 ms
    after the mount. *)
Definition loaded_page : Products.Page :=
  Products.respond 100 1 (Resolved (LArray [product 1; product 2])) (Products.mount []).

End Sample.

From Stdlib Require Import Permutation.

(* ================================================================== *)
(** * More of the JavaScript fragment *)
(* ================================================================== *)

Module JsMore.

(** [p.then(f)] on a settled promise, for an [f] that does not throw. *)
Definition then_ {A B} (f : A -> B) (p : Promise A) : Promise B :=
  match p with
  | Resolved v => Resolved (f v)
  | Rejected e => Rejected e
  end.


Definition all3 {A B C} (p : Promise A) (q : Promise B) (r : Promise C)
    : Completion (A * B * C) :=
  a <- await p ;; b <- await q ;; c <- await r ;; Normal (a, b, c).

(** [l.sort(compare)]: the sort is stable; [after a b] says that
    [compare(a, b) > 0], so that [a] goes behind [b]. For a comparator that
    orders the elements consistently (the case for numbers other than [NaN])
    this is the order every engine returns. *)
Fixpoint insert {A} (after : A -> A -> bool) (x : A) (l : list A) : list A :=
  match l with
  | [] => [x]
  | y :: rest => if after x y then y :: insert after x rest else x :: y :: rest
  end.

Fixpoint sort {A} (after : A -> A -> bool) (l : list A) : list A :=
  match l with
  | [] => []
  | x :: rest => insert after x (sort after rest)
  end.

(** [s.includes(term)] *)
Definition includes (s term : string) : bool :=
  match String.index 0 term s with
  | Some _ => true
  | None => false
  end.

(** [b ? 1 : 0] *)
Definition one_or_zero (b : bool) : Z := if b then 1 else 0.

(** The [timeout] argument of [setTimeout] is a 32-bit signed integer (a
    Web IDL [long]): an integral number of milliseconds is taken modulo
    2^32 into [-2^31, 2^31). *)
Definition to_long (x : Z) : Z :=
  let m := x mod 4294967296 in
  if 2147483648 <=? m then m - 4294967296 else m.

(** [setTimeout(handler, d)] runs its handler this many milliseconds
    later: the delay as a [long], and 0 when that is negative. *)
Definition timer_delay (d : Z) : Z := Z.max 0 (to_long d).

End JsMore.

Import JsMore.

(* ================================================================== *)
(** * The toast provider ([contexts/ToastContext.tsx]) *)
(* ================================================================== *)

Module Toasts.

Inductive ToastType : Type := toast_success | toast_error | toast_info.

Record Toast := mkToast {
  message : string;
  description : string;
  type : ToastType;
  duration : Z
}.

(** The toast on screen and the time at which the pending timer of the
    effect runs. *)
Record Provider := mkProvider {
  toast : option Toast;
  timer : option Z
}.

Definition initial : Provider := mkProvider None None.

(** Time passes until [t]: a timer that is due runs [setToast(null)]; the
    effect then finds no toast and sets no timer. *)
Definition run_timers (t : Z) (p : Provider) : Provider :=
  match timer p with
  | Some due => if due <=? t then mkProvider None None else p
  | None => p
  end.

(** [showToast(message, description, type, duration = 3000)] at time [t]:
    the new object makes the effect run again, which clears the pending
    timer and calls [setTimeout(..., toast.duration)] for the new toast. *)
Definition showToast (t : Z) (message description : string) (type : ToastType)
    (duration : option Z) (p : Provider) : Provider :=
  let p := run_timers t p in
  let d := match duration with Some d => d | None => 3000 end in
  mkProvider (Some (mkToast message description type d)) (Some (t + timer_delay d)).

(** What is on screen at time [t]. *)
Definition visible (t : Z) (p : Provider) : option Toast := toast (run_timers t p).

End Toasts.

(* ================================================================== *)
(** * The cart page, the rest ([pages/customer/Cart.tsx],
      [components/customer/CartItem.tsx]) *)
(* ================================================================== *)

Module CartPage.

(** The bodies that travel between the page and the backend. *)
Inductive Body : Type :=
| CartReply (response : Item Cart.Cart)
| QuantityUpdate (quantity : Z)                   (* { quantity } *)
| PromoCode (code : string)                       (* { code } *)
| PromoReply (valid : bool) (discount_amount : string) (message : option string).

(** A body read as the reply to [GET /cart]: an object that is no cart has
    no [data], no [subtotal] and no [items]. *)
Definition cart_view (b : Body) : Item Cart.Cart :=
  match b with
  | CartReply response => response
  | _ => IBare (Cart.mkCart None None None None)
  end.


(** A call of [showToast]. *)
Record ToastCall := mkToastCall {
  title : string;
  description : string;
  kind : Toasts.ToastType
}.

Record State := mkState {
  page : Cart.State;                 (* cart, loading *)
  promoCode : string;
  promoApplied : bool;
  promoError : string;
  promoSuccess : string;
  toasts : list ToastCall            (* the toasts shown, in order *)
}.

Definition initial : State := mkState Cart.initial "" false "" "" [].

Definition setPage v st :=
  mkState v (promoCode st) (promoApplied st) (promoError st) (promoSuccess st) (toasts st).
Definition showToast (title description : string) (kind : Toasts.ToastType) st :=
  mkState (page st) (promoCode st) (promoApplied st) (promoError st) (promoSuccess st)
    (toasts st ++ [mkToastCall title description kind])%list.

(** The request [api.get('/cart')] sends. *)
Definition get_cart (auth_token : option string) : Api.Request Body :=
  Api.mkRequest (Api.API_BASE ++ "/cart") "GET" (Api.getAuthHeader auth_token) None.

(** What the render shows of the cart, and what it reads on the way:
    [cart.items.length], and for a cart with items
    [cart.subtotal.toFixed(2)], [cart.tax.toFixed(2)] and
    [cart.total.toFixed(2)]. Reading a property of [undefined] throws. *)
Inductive View : Type :=
| Skeleton
| EmptyCart
| Summary (count : nat) (subtotal tax total : float).

Definition read {A} (field : option A) (property : string) : Completion A :=
  match field with
  | Some v => Normal v
  | None => Throw (mkError "TypeError"
              ("Cannot read properties of undefined (reading '" ++ property ++ "')"))
  end.

Definition render (st : Cart.State) : Completion View :=
  if Cart.loading st then Normal Skeleton
  else match Cart.cart st with
       | None => Normal EmptyCart
       | Some cart =>
           items <- read (Cart.items cart) "length" ;;
           if (List.length items =? 0)%nat then Normal EmptyCart
           else
             subtotal <- read (Cart.subtotal cart) "toFixed" ;;
             tax <- read (Cart.tax cart) "toFixed" ;;
             total <- read (Cart.cart_total cart) "toFixed" ;;
             Normal (Summary (List.length items) subtotal tax total)
       end.

Section WithNetwork.
Variable World : Type.
Variable fetch : Api.Fetch Body World.
Variable auth_token : option string.

Definition fetchCart (st : State) (w : World) : World * State :=
  let (w', result) := Api.get fetch auth_token "/cart" w in
  (w', setPage (Cart.fetchCart_then (then_ cart_view result) (page st)) st).

(** The refresh inside the handlers below is not awaited; its reply is
    applied here before the toast, which touches another field. *)
Definition updateQuantity (itemId newQuantity : Z) (st : State) (w : World)
    : World * State :=
  if newQuantity <? 1 then (w, st)
  else
    let (w1, r) := Api.put fetch auth_token ("/cart/" ++ toString itemId)
                     (QuantityUpdate newQuantity) w in
    match await r with
    | Normal _ =>
        let (w2, st2) := fetchCart st w1 in
        (w2, showToast "Item Quantity Updated"
               ("Quantity updated to " ++ toString newQuantity) Toasts.toast_success st2)
    | Throw error =>
        (w1, showToast "Update Failed" "Could not update quantity" Toasts.toast_error st)
    end.

Definition removeItem (itemId : Z) (st : State) (w : World) : World * State :=
  let (w1, r) := Api.del fetch auth_token ("/cart/" ++ toString itemId) w in
  match await r with
  | Normal _ =>
      let (w2, st2) := fetchCart st w1 in
      (w2, showToast "Item Removed" "Item removed from cart" Toasts.toast_success st2)
  | Throw error =>
      (w1, showToast "Removal Failed" "Could not remove item" Toasts.toast_error st)
  end.


(** [CartItem]: [handleQuantityChange] passes a quantity on only when it is
    at least 1; the two buttons ask for one less and one more. *)
Definition handleQuantityChange (item : Cart.CartItem) (newQuantity : Z)
    (st : State) (w : World) : World * State :=
  if 1 <=? newQuantity then updateQuantity (Cart.id item) newQuantity st w
  else (w, st).

Definition decrease (item : Cart.CartItem) : State -> World -> World * State :=
  handleQuantityChange item (Cart.quantity item - 1).

Definition increase (item : Cart.CartItem) : State -> World -> World * State :=
  handleQuantityChange item (Cart.quantity item + 1).

Definition handleRemove (item : Cart.CartItem) : State -> World -> World * State :=
  removeItem (Cart.id item).
End WithNetwork.

End CartPage.

(* ================================================================== *)
(** * The checkout page ([pages/customer/Checkout.tsx]) *)
(* ================================================================== *)

Module Checkout.

(** The form of a new address. *)
Record NewAddress := mkNewAddress {
  street : string;
  city : string;
  state : string;
  postal_code : string;
  country : string
}.

Definition emptyAddress : NewAddress := mkNewAddress "" "" "" "" "US".

(** The page has the [Address] and [Cart] interfaces of the profile and the
    cart page. *)
Record State := mkState {
  cart : option Cart.Cart;
  loading : bool;
  isProcessing : bool;
  orderPlaced : bool;
  addresses : list Profile.Address;
  selectedAddress : option Z;
  newAddress : NewAddress;
  useNewAddress : bool;
  paymentMethod : string;
  cardErrors : string;
  navigations : list string;        (* the calls of [navigate], in order *)
  redirect : option Z               (* when the timer of the redirect is due *)
}.

Definition initial : State :=
  mkState None true false false [] None emptyAddress false "card" "" [] None.

Definition setCart v st :=
  mkState (Some v) (loading st) (isProcessing st) (orderPlaced st) (addresses st)
    (selectedAddress st) (newAddress st) (useNewAddress st) (paymentMethod st)
    (cardErrors st) (navigations st) (redirect st).
Definition setLoading v st :=
  mkState (cart st) v (isProcessing st) (orderPlaced st) (addresses st)
    (selectedAddress st) (newAddress st) (useNewAddress st) (paymentMethod st)
    (cardErrors st) (navigations st) (redirect st).
Definition setIsProcessing v st :=
  mkState (cart st) (loading st) v (orderPlaced st) (addresses st)
    (selectedAddress st) (newAddress st) (useNewAddress st) (paymentMethod st)
    (cardErrors st) (navigations st) (redirect st).
Definition setOrderPlaced v st :=
  mkState (cart st) (loading st) (isProcessing st) v (addresses st)
    (selectedAddress st) (newAddress st) (useNewAddress st) (paymentMethod st)
    (cardErrors st) (navigations st) (redirect st).
Definition setAddresses v st :=
  mkState (cart st) (loading st) (isProcessing st) (orderPlaced st) v
    (selectedAddress st) (newAddress st) (useNewAddress st) (paymentMethod st)
    (cardErrors st) (navigations st) (redirect st).
Definition setCardErrors v st :=
  mkState (cart st) (loading st) (isProcessing st) (orderPlaced st) (addresses st)
    (selectedAddress st) (newAddress st) (useNewAddress st) (paymentMethod st)
    v (navigations st) (redirect st).
Definition navigate (to : string) st :=
  mkState (cart st) (loading st) (isProcessing st) (orderPlaced st) (addresses st)
    (selectedAddress st) (newAddress st) (useNewAddress st) (paymentMethod st)
    (cardErrors st) (navigations st ++ [to])%list (redirect st).
Definition setTimeout (due : Z) st :=
  mkState (cart st) (loading st) (isProcessing st) (orderPlaced st) (addresses st)
    (selectedAddress st) (newAddress st) (useNewAddress st) (paymentMethod st)
    (cardErrors st) (navigations st) (Some due).


(** What an order says about an address: the form, or a saved address. *)
Inductive AddressData : Type :=
| FromForm (a : NewAddress)
| Saved (a : Profile.Address).

(** The body of [POST /checkout]; a field that is [undefined] or deleted is
    not sent. *)
Record OrderData := mkOrderData {
  billing_address : option AddressData;
  shipping_address : option AddressData;
  payment_method : string;
  billing_address_id : option Z;
  shipping_address_id : option Z
}.

(** [addresses.find(a => a.id === selectedAddress)] *)
Definition find_selected (addresses : list Profile.Address) (selectedAddress : option Z)
    : option Profile.Address :=
  match selectedAddress with
  | Some id => List.find (fun a => Profile.id a =? id) addresses
  | None => None
  end.

(** [selectedAddress] as a condition: [null] and [0] are falsy. *)
Definition truthy_id (id : option Z) : bool :=
  match id with
  | Some id => negb (id =? 0)
  | None => false
  end.

Definition orderData (st : State) : OrderData :=
  let address :=
    if useNewAddress st then Some (FromForm (newAddress st))
    else option_map Saved (find_selected (addresses st) (selectedAddress st)) in
  let orderData := mkOrderData address address (paymentMethod st) None None in
  if negb (useNewAddress st) && truthy_id (selectedAddress st) then
    mkOrderData None None (payment_method orderData)
      (selectedAddress st) (selectedAddress st)
  else orderData.

(** [handlePlaceOrder] up to the [await]: nothing without a cart; otherwise
    the body it posts and the state it leaves. *)
Definition handlePlaceOrder_start (st : State) : option (OrderData * State) :=
  match cart st with
  | None => None
  | Some _ => Some (orderData st, setIsProcessing true st)
  end.

(** The reply to the order: [null], or an object that may have an [id]. *)
Inductive OrderReply : Type :=
| ONull
| OObject (id : option Z).

Definition order_id (response : OrderReply) : Completion (option Z) :=
  match response with
  | ONull => Throw (mkError "TypeError" "Cannot read properties of null (reading 'id')")
  | OObject id => Normal id
  end.

(** [handlePlaceOrder] after [await api.post('/checkout', orderData)], at
    time [t]. *)
Definition handlePlaceOrder_then (t : Z) (result : Promise OrderReply) (st : State)
    : State :=
  let body : Completion State :=
    response <- await result ;;
    id <- order_id response ;;
    if truthy_id id then Normal (setTimeout (t + 3000) (setOrderPlaced true st))
    else Normal st in
  let st' := try_catch body (fun error =>
    setCardErrors (or_string (Js.message error)
                     "Failed to process payment. Please try again.") st) in
  setIsProcessing false st'.

(** The [Continue] button of the shipping step is enabled. *)
Definition can_continue (st : State) : bool :=
  negb (negb (truthy_id (selectedAddress st)) && negb (useNewAddress st)).

End Checkout.

(* ================================================================== *)
(** * The cart badge of the header ([components/layout/Header.tsx]) *)
(* ================================================================== *)

Module Header.

(** [cart.items?.length || 0] *)
Definition items_length (c : Cart.Cart) : Z :=
  match Cart.items c with
  | Some l => Z.of_nat (List.length l)
  | None => 0
  end.

(** The effect on [user], after [await api.get('/cart')]: the reply itself
    is read as the cart, so an envelope has no [items]. *)
Definition fetchCart_then (result : Promise (Item Cart.Cart)) (cartCount : Z) : Z :=
  let body : Completion Z :=
    cart <- await result ;;
    match cart with
    | INull => Throw (mkError "TypeError"
                        "Cannot read properties of null (reading 'items')")
    | IBare c => Normal (items_length c)
    | IWrapped _ => Normal 0
    end in
  try_catch body (fun error => 0).

Section WithNetwork.
Variable World : Type.
Variable fetch : Api.Fetch (Item Cart.Cart) World.
Variable auth_token : option string.

(** [user] says whether somebody is logged in. *)
Definition fetchCart (user : bool) (cartCount : Z) (w : World) : World * Z :=
  if user then
    let (w', result) := Api.get fetch auth_token "/cart" w in
    (w', fetchCart_then result cartCount)
  else (w, cartCount).
End WithNetwork.

End Header.

(* ================================================================== *)
(** * The souvenir page ([Souvenirs] in [pages/customer/Products.tsx]) *)
(* ================================================================== *)

Module Souvenirs.

Record Souvenir := mkSouvenir {
  id : Z;
  name : string;
  description : string;
  price : float;
  original_price : option float;
  image_url : string;
  category : string;
  is_customizable : bool;
  is_featured : bool;
  is_seasonal : bool;
  seasonal_tag : option string;
  bulk_discount : float
}.

Record FilterOptions := mkFilters {
  filter_category : string;
  isCustomizable : bool;
  isSeasonal : bool;
  sortBy : string
}.

Record State := mkState {
  souvenirs : list Souvenir;
  filteredSouvenirs : list Souvenir;
  loading : bool;
  cartCount : Z;
  searchTerm : string;
  filters : FilterOptions
}.

Definition initial : State :=
  mkState [] [] true 0 "" (mkFilters "" false false "featured").

Definition setSouvenirs v st :=
  mkState v (filteredSouvenirs st) (loading st) (cartCount st) (searchTerm st) (filters st).
Definition setFilteredSouvenirs v st :=
  mkState (souvenirs st) v (loading st) (cartCount st) (searchTerm st) (filters st).
Definition setLoading v st :=
  mkState (souvenirs st) (filteredSouvenirs st) v (cartCount st) (searchTerm st) (filters st).
Definition setCartCount v st :=
  mkState (souvenirs st) (filteredSouvenirs st) (loading st) v (searchTerm st) (filters st).
Definition setSearchTerm v st :=
  mkState (souvenirs st) (filteredSouvenirs st) (loading st) (cartCount st) v (filters st).
Definition setFilters v st :=
  mkState (souvenirs st) (filteredSouvenirs st) (loading st) (cartCount st) (searchTerm st) v.

(** [fetchCartCount] after [await api.get('/cart')]. *)
Definition fetchCartCount_then (result : Promise (Item Cart.Cart)) (st : State) : State :=
  let body : Completion State :=
    response <- await result ;;
    cart <- unwrap response ;;
    Normal (setCartCount (Header.items_length cart) st) in
  try_catch body (fun error => setCartCount 0 st).

Section Text.
(** [String.prototype.toLowerCase] and [localeCompare] depend on Unicode
    data and on the locale of the browser. *)
Variable toLowerCase : string -> string.
Variable localeCompare : string -> string -> Z.

(** The four filters, each applied only when it is set. *)
Definition in_category (filters : FilterOptions) (item : Souvenir) : bool :=
  if truthy_string (filter_category filters)
  then (category item =? filter_category filters)%string else true.
Definition customizable_ok (filters : FilterOptions) (item : Souvenir) : bool :=
  if isCustomizable filters then is_customizable item else true.
Definition seasonal_ok (filters : FilterOptions) (item : Souvenir) : bool :=
  if isSeasonal filters then is_seasonal item else true.
Definition found (searchTerm : string) (item : Souvenir) : bool :=
  if truthy_string searchTerm then
    let term := toLowerCase searchTerm in
    includes (toLowerCase (name item)) term
    || includes (toLowerCase (description item)) term
  else true.

(** The comparators of the four orders, as [compare(a, b) > 0]. *)
Definition featured_after (a b : Souvenir) : bool :=
  0 <? one_or_zero (is_featured b) - one_or_zero (is_featured a).

Definition after (sortBy : string) (a b : Souvenir) : bool :=
  if (sortBy =? "price_asc")%string then (0 <? price a - price b)%float
  else if (sortBy =? "price_desc")%string then (0 <? price b - price a)%float
  else if (sortBy =? "name_asc")%string then 0 <? localeCompare (name a) (name b)
  else featured_after a b.

(** [applyFilters(items)], the list it hands to [setFilteredSouvenirs];
    [filters] and [searchTerm] are the values of its closure. *)
Definition applyFilters (filters : FilterOptions) (searchTerm : string)
    (items : list Souvenir) : list Souvenir :=
  let filtered := items in
  let filtered := filter (in_category filters) filtered in
  let filtered := filter (customizable_ok filters) filtered in
  let filtered := filter (seasonal_ok filters) filtered in
  let filtered := filter (found searchTerm) filtered in
  sort (after (sortBy filters)) filtered.

(** The effect on [filters, searchTerm, souvenirs]. *)
Definition filter_effect (st : State) : State :=
  setFilteredSouvenirs (applyFilters (filters st) (searchTerm st) (souvenirs st)) st.

(** [fetchSouvenirs] after [await api.get(...)]: its closure is the one of
    the first render; a change of [souvenirs] then runs the effect with the
    values of the new render. *)
Definition fetchSouvenirs_then (result : Promise (Listing Souvenir)) (st : State) : State :=
  let body : Completion State :=
    response <- await result ;;
    data <- items_of response ;;
    let st1 := setSouvenirs data st in
    Normal (setFilteredSouvenirs
              (applyFilters (filters initial) (searchTerm initial) data) st1) in
  let st' := try_catch body (fun error => setSouvenirs [] st) in
  filter_effect (setLoading false st').

(** The handlers of the filter bar, each followed by the effect. *)
Definition handleCategoryChange (category : string) (st : State) : State :=
  let prev := filters st in
  filter_effect
    (setFilters (mkFilters category (isCustomizable prev) (isSeasonal prev) (sortBy prev)) st).
Definition handleCustomizableChange (st : State) : State :=
  let prev := filters st in
  filter_effect
    (setFilters (mkFilters (filter_category prev) (negb (isCustomizable prev))
                   (isSeasonal prev) (sortBy prev)) st).
Definition handleSeasonalChange (st : State) : State :=
  let prev := filters st in
  filter_effect
    (setFilters (mkFilters (filter_category prev) (isCustomizable prev)
                   (negb (isSeasonal prev)) (sortBy prev)) st).
Definition handleSortChange (value : string) (st : State) : State :=
  let prev := filters st in
  filter_effect
    (setFilters (mkFilters (filter_category prev) (isCustomizable prev)
                   (isSeasonal prev) value) st).
(** The search box: [onChange={(e) => setSearchTerm(e.target.value)}]. *)
Definition search (value : string) (st : State) : State :=
  filter_effect (setSearchTerm value st).
End Text.

End Souvenirs.

(* ================================================================== *)
(** * The catalog page: [resetFilters] *)
(* ================================================================== *)

Module Catalog.

Import Products.

(** [resetFilters] at time [t]. The call [fetchProducts(1)] inside it is the
    one of the render it was made in, so its query is built from the filters
    of that render; the new render then runs the debounce effect. *)
Definition resetFilters (t : Z) (p : Page) : Page :=
  let p := run_timers t p in
  let old := state p in
  let new := setFilters resetFilters_value old in
  let new := setSearchParams URLSearchParams.empty new in
  let new := setLoading true new in
  let new := setIsFilterOpen false new in
  mkPage new (debounce_effect t old new (timer p))
    (requests p ++ [products_url (filters old) 1])%list.

(** ** Infinite scroll: the observer of the last card *)

(** The dependencies of the scroll effect: [hasMore], [loading] and
    [products.length]. *)
Definition scroll_deps_eqb (old new : State) : bool :=
  Bool.eqb (hasMore old) (hasMore new) && Bool.eqb (loading old) (loading new)
  && (List.length (products old) =? List.length (products new))%nat.

(** The page together with its observer: the state of the render that
    installed it. The callback of the observer is a closure of that
    render, so the [products.length] and the [fetchProducts] it uses (and
    with it the filters of the query) are the ones of that render. *)
Record Watched := mkWatched {
  catalog : Page;
  observer : option State
}.

(** After a render: when a dependency changed, the cleanup disconnects
    the observer, and the effect installs a new one unless nothing more
    is expected, the page is loading, or there is no last card to
    observe. *)
Definition scroll_effect (old new : State) (installed : option State) : option State :=
  if scroll_deps_eqb old new then installed
  else if negb (hasMore new) || loading new then None
  else match products new with
       | [] => None
       | _ => Some new
       end.

(** A step of the page, followed by the scroll effect. *)
Definition rendered (step : Page -> Page) (w : Watched) : Watched :=
  let p := step (catalog w) in
  mkWatched p (scroll_effect (state (catalog w)) (state p) (observer w)).

(** The page at time 0: it is loading, so no observer is installed. *)
Definition mounted (searchParams : URLSearchParams.t) : Watched :=
  mkWatched (mount searchParams) None.

(** Time passes until [t]; a reply arrives; a filter field is edited;
    the filters are reset. *)
Definition passed (t : Z) (w : Watched) : Watched := rendered (run_timers t) w.

Definition responded (t : Z) (page : Z) (result : Promise (Listing Product))
    (w : Watched) : Watched :=
  rendered (respond t page result) (passed t w).

Definition edited (t : Z) (upd : FilterOptions -> FilterOptions) (w : Watched) : Watched :=
  rendered (edit t upd) (passed t w).

Definition reset (t : Z) (w : Watched) : Watched :=
  rendered (resetFilters t) (passed t w).

(** The last card comes into view at time [t]: the callback of the
    observer, if one is installed, calls the [fetchProducts] of its own
    render for the page after the products that render had. The request
    changes no state until its reply arrives. *)
Definition intersect (t : Z) (w : Watched) : Watched :=
  let w := passed t w in
  match observer w with
  | Some seen =>
      let page := Z.of_nat (List.length (products seen)) / 12 + 1 in
      mkWatched
        (mkPage (state (catalog w)) (timer (catalog w))
           (requests (catalog w) ++ [products_url (filters seen) page])%list)
        (observer w)
  | None => w
  end.

End Catalog.

(* ================================================================== *)
(** * The admin user list, the rest ([pages/admin/Users.tsx]) *)
(* ================================================================== *)

Module UsersActions.

Import Users.

Definition setSearchTerm v st :=
  mkState (users st) (loading st) v (statusFilter st) (dateRange st)
    (currentPage st) (totalPages st).
Definition setStatusFilter v st :=
  mkState (users st) (loading st) (searchTerm st) v (dateRange st)
    (currentPage st) (totalPages st).
Definition setDateRange v st :=
  mkState (users st) (loading st) (searchTerm st) (statusFilter st) v
    (currentPage st) (totalPages st).

Definition activate_url (userId : Z) : string :=
  "/admin/users/" ++ toString userId ++ "/activate".
Definition suspend_url (userId : Z) : string :=
  "/admin/users/" ++ toString userId ++ "/suspend".

Section WithNetwork.
Variable World : Type.
Variable fetch : Api.Fetch (Paginated User) World.
Variable auth_token : option string.

(** [fetchUsers(page)] called from the render [closure], while the state is
    [st]: the query reads the filters of the closure. *)
Definition fetchUsers_from (closure : State) (page : Z) (st : State) (w : World)
    : World * State :=
  let st := setLoading true st in
  let (w', result) := Api.get fetch auth_token (users_url closure page) w in
  (w', fetchUsers_then page result st).

Definition applyFilters (st : State) (w : World) : World * State :=
  fetchUsers_from st 1 st w.

Definition resetFilters (st : State) (w : World) : World * State :=
  let closure := st in
  let st := setSearchTerm "" st in
  let st := setStatusFilter "all" st in
  let st := setDateRange ("", "") st in
  fetchUsers_from closure 1 st w.

(** [currentStatus] is the user's [is_suspended]. The refresh is not
    awaited; nothing follows it. *)
Definition handleSuspendUser (userId : Z) (currentStatus : bool) (st : State) (w : World)
    : World * State :=
  let (w1, r) :=
    if currentStatus
    then Api.patch fetch auth_token (activate_url userId) (PObject None None) w
    else Api.patch fetch auth_token (suspend_url userId) (PObject None None) w in
  match await r with
  | Normal _ => fetchUsers_from st (currentPage st) st w1
  | Throw error => (w1, st)
  end.
End WithNetwork.

End UsersActions.

(* ================================================================== *)
(** * The admin product list, the rest ([pages/admin/ProductsAdmin.tsx]) *)
(* ================================================================== *)

Module ProductsAdminActions.

Import ProductsAdmin.

Definition setSearchTerm v st :=
  mkState (products st) (loading st) v (categoryFilter st) (featuredFilter st)
    (currentPage st) (totalPages st) (selectedProducts st) (message st).
Definition setCategoryFilter v st :=
  mkState (products st) (loading st) (searchTerm st) v (featuredFilter st)
    (currentPage st) (totalPages st) (selectedProducts st) (message st).
Definition setFeaturedFilter v st :=
  mkState (products st) (loading st) (searchTerm st) (categoryFilter st) v
    (currentPage st) (totalPages st) (selectedProducts st) (message st).

(** The request [api.patch(toggle_url id, {})] sends. *)
Definition toggle_request (auth_token : option string) (id : Z)
    : Api.Request (Paginated Product) :=
  Api.mkRequest (Api.API_BASE ++ toggle_url id) "PATCH"
    (Api.json_headers auth_token) (Some (PObject None None)).

Section WithNetwork.
Variable World : Type.
Variable fetch : Api.Fetch (Paginated Product) World.
Variable auth_token : option string.

Definition fetchProducts_from (closure : State) (page : Z) (st : State) (w : World)
    : World * State :=
  let st := setLoading true st in
  let (w', result) := Api.get fetch auth_token (products_url closure page) w in
  (w', fetchProducts_then page result st).

Definition resetFilters (st : State) (w : World) : World * State :=
  let closure := st in
  let st := setSearchTerm "" st in
  let st := setCategoryFilter "all" st in
  let st := setFeaturedFilter "all" st in
  fetchProducts_from closure 1 st w.

(** [confirmed] is what the [confirm] dialog answers. *)
Definition handleDeleteProduct (confirmed : bool) (productId : Z) (st : State) (w : World)
    : World * State :=
  if negb confirmed then (w, st)
  else
    let (w1, r) := Api.del fetch auth_token (delete_url productId) w in
    match await r with
    | Normal _ =>
        let (w2, st2) := fetchProducts fetch auth_token (currentPage st) st w1 in
        (w2, setMessage (Some (mkMessage msg_success "Product deleted successfully!")) st2)
    | Throw error =>
        (w1, setMessage (Some (mkMessage msg_error
               (or_string (Js.message error) "Failed to delete product"))) st)
    end.
End WithNetwork.

End ProductsAdminActions.

(* ================================================================== *)
(** * The profile page, the rest ([pages/customer/Profile.tsx]) *)
(* ================================================================== *)

Module ProfileActions.

Import Profile.

Record Password := mkPassword {
  current : string;
  new : string;
  confirm : string
}.

Record User := mkUser {
  user_id : Z;
  name : string;
  email : string;
  bio : option string;
  phone : option string;
  location : option string
}.

Record OrderItem := mkOrderItem {
  itemable_name : string;               (* itemable.name *)
  quantity : Z
}.

Record Order := mkOrder {
  order_id : Z;
  status : string;
  order_total : float;
  created_at : string;
  items : list OrderItem
}.

(** The page: the address part of [Profile] and the rest of its state. *)
Record Page := mkPage {
  base : State;                      (* addresses, saving, message *)
  user : option User;
  editingUser : option User;
  orders : list Order;
  password : Password;
  loading : bool
}.

Definition initial : Page :=
  mkPage (mkState [] false None) None None [] (mkPassword "" "" "") true.

Definition setBase v p :=
  mkPage v (user p) (editingUser p) (orders p) (password p) (loading p).
Definition setUser v p :=
  mkPage (base p) (Some v) (editingUser p) (orders p) (password p) (loading p).
Definition setEditingUser v p :=
  mkPage (base p) (user p) (Some v) (orders p) (password p) (loading p).
Definition setOrders v p :=
  mkPage (base p) (user p) (editingUser p) v (password p) (loading p).
Definition setPassword v p :=
  mkPage (base p) (user p) (editingUser p) (orders p) v (loading p).
Definition setLoading v p :=
  mkPage (base p) (user p) (editingUser p) (orders p) (password p) v.

(** [fetchProfileData] after [await Promise.all([...])]. *)
Definition fetchProfileData_then (userResult : Promise (Item User))
    (addressResult : Promise (Listing Address)) (orderResult : Promise (Listing Order))
    (p : Page) : Page :=
  let body : Completion Page :=
    responses <- all3 userResult addressResult orderResult ;;
    let '(userResponse, addressResponse, orderResponse) := (responses : _ * _ * _) in
    userData <- unwrap userResponse ;;
    addressData <- items_of addressResponse ;;
    orderData <- items_of orderResponse ;;
    let p := setUser userData p in
    let p := setEditingUser userData p in
    let p := setBase (setAddresses addressData (base p)) p in
    Normal (setOrders orderData p) in
  let p' := try_catch body (fun error =>
    setBase (setMessage (Some (mkMessage msg_error "Failed to load profile data"))
               (base p)) p) in
  setLoading false p'.

(** The body of the password change. *)
Record PasswordChange := mkPasswordChange {
  current_password : string;
  new_password : string;                (* [password] *)
  password_confirmation : string
}.

(** [handleChangePassword] up to the [await]: the state it leaves and the
    body it posts, if any. *)
Definition handleChangePassword_start (p : Page) : Page * option PasswordChange :=
  if negb (new (password p) =? confirm (password p))%string then
    (setBase (setMessage (Some (mkMessage msg_error "New passwords do not match"))
                (base p)) p, None)
  else
    (setBase (setMessage None (setSaving true (base p))) p,
     Some (mkPasswordChange (current (password p)) (new (password p))
             (confirm (password p)))).

(** [handleChangePassword] after [await api.post(...)]. *)
Definition handleChangePassword_then {Json} (result : Promise Json) (p : Page) : Page :=
  let body : Completion Page :=
    _ <- await result ;;
    let p := setPassword (mkPassword "" "" "") p in
    Normal (setBase (setMessage (Some (mkMessage msg_success
                       "Password changed successfully!")) (base p)) p) in
  let p' := try_catch body (fun error =>
    setBase (setMessage (Some (mkMessage msg_error
               (or_string (Js.message error) "Failed to change password"))) (base p)) p) in
  setBase (setSaving false (base p')) p'.

(** [handleDeleteAddress(id)] after [await api.del(...)]. [addresses] is the
    list the handler's closure holds. *)
Definition handleDeleteAddress_then {Json} (target : Z) (addresses : list Address)
    (result : Promise Json) (st : State) : State :=
  let body : Completion State :=
    _ <- await result ;;
    Normal (setMessage (Some (mkMessage msg_success "Address deleted successfully!"))
             (setAddresses (filter (fun addr => negb (id addr =? target)) addresses) st)) in
  let st' := try_catch body (fun error =>
    setMessage (Some (mkMessage msg_error
      (or_string (Js.message error) "Failed to delete address"))) st) in
  setSaving false st'.

Definition address_url (id : Z) : string := "/profile/addresses/" ++ toString id.

Section WithNetwork.
Variable Json : Type.
Variable World : Type.
Variable fetch : Api.Fetch Json World.
Variable auth_token : option string.

Definition handleDeleteAddress (confirmed : bool) (target : Z) (st : State) (w : World)
    : World * State :=
  if negb confirmed then (w, st)
  else
    let addresses := addresses st in
    let st := setMessage None (setSaving true st) in
    let (w', result) := Api.del fetch auth_token (address_url target) w in
    (w', handleDeleteAddress_then target addresses result st).
End WithNetwork.

End ProfileActions.

(* ================================================================== *)
(** * The product page: the wishlist button
      ([pages/customer/ProductDetail.tsx]) *)
(* ================================================================== *)

Module ProductDetail.

Inductive ProductType : Type := standard | customizable | bulk.

Record Product := mkProduct {
  id : Z;
  name : string;
  description : string;
  price : float;
  image_url : string;
  category : string;
  type : ProductType;
  is_featured : bool;
  has3d : bool
}.

Record State := mkState {
  product : option Product;
  isInWishlist : bool;
  toasts : list CartPage.ToastCall;      (* the toasts shown, in order *)
  alerts : list string;
  navigations : list string
}.

Definition setIsInWishlist v st :=
  mkState (product st) v (toasts st) (alerts st) (navigations st).
Definition showToast (title description : string) (kind : Toasts.ToastType) st :=
  mkState (product st) (isInWishlist st)
    (toasts st ++ [CartPage.mkToastCall title description kind])%list
    (alerts st) (navigations st).
Definition alert (text : string) st :=
  mkState (product st) (isInWishlist st) (toasts st) (alerts st ++ [text])%list
    (navigations st).
Definition navigate (to : string) st :=
  mkState (product st) (isInWishlist st) (toasts st) (alerts st)
    (navigations st ++ [to])%list.

(** The bodies the page posts. *)
Inductive Body : Type :=
| WishlistName (name : string)              (* { name } *)
| Other.

Section WithNetwork.
Variable World : Type.
Variable fetch : Api.Fetch Body World.
Variable auth_token : option string.

(** [user] says whether somebody is logged in, [confirmed] what the
    [confirm] dialog answers. *)
Definition handleToggleWishlist (user confirmed : bool) (st : State) (w : World)
    : World * State :=
  if negb user then
    (w, if confirmed then navigate "/login" st else st)
  else
    match product st with
    | None => (w, st)
    | Some product =>
        if isInWishlist st then
          let (w1, r) := Api.post fetch auth_token "/wishlists"
                           (WishlistName "My Wishlist") w in
          match await r with
          | Normal _ =>
              (w1, setIsInWishlist true
                     (showToast "Added to Wishlist"
                        (name product ++ " has been added to your wishlist")
                        Toasts.toast_success st))
          | Throw error =>
              (w1, showToast "Wishlist Update Failed" "Could not update wishlist"
                     Toasts.toast_error st)
          end
        else
          (w, setIsInWishlist false (alert "Removed from wishlist" st))
    end.
End WithNetwork.

End ProductDetail.

(* ================================================================== *)
(** * Observing a controller through the recording network *)
(* ================================================================== *)

Module Observed.

(** [method] hands [fetch] the one request [req], whatever comes back, and
    settles as the reply to it does. *)
Definition sends_only {Json World}
    (method : forall W, Api.Fetch Json W -> W -> W * Promise Json)
    (fetch : Api.Fetch Json World) (req : Api.Request Json) : Prop :=
  forall (w : World) (log : list (Api.Request Json)),
    method _ (Api.recording fetch) (w, log)
      = ((fst (method _ fetch w), (log ++ [req])%list), snd (method _ fetch w)).

(** An item passes the four filters of the souvenir page. *)
Definition souvenir_matches (toLowerCase : string -> string)
    (filters : Souvenirs.FilterOptions) (searchTerm : string) (item : Souvenirs.Souvenir)
    : bool :=
  Souvenirs.in_category filters item && Souvenirs.customizable_ok filters item
  && Souvenirs.seasonal_ok filters item && Souvenirs.found toLowerCase searchTerm item.

End Observed.

(* ================================================================== *)
(** * More sample data *)
(* ================================================================== *)

Module Samples.

Definition souvenir (id : Z) (name : string) (price : float) (is_featured : bool)
    : Souvenirs.Souvenir :=
  Souvenirs.mkSouvenir id name "A gift from the workshop" price None "/img/s.png"
    "souvenir" false is_featured false None 0%float.

(** Four souvenirs as the server lists them; the second and the fourth are
    featured. *)
Definition shelf : list Souvenirs.Souvenir :=
  [souvenir 1 "Magnet" 4%float false; souvenir 2 "Clay mug" 10%float true;
   souvenir 3 "Postcard" 2%float false; souvenir 4 "Tea towel" 8%float true].

(** A browser whose texts are all lower case already and whose collation
    tells nothing apart. *)
Definition toLowerCase (s : string) : string := s.
Definition localeCompare (a b : string) : Z := 0.

(** The catalog page after the customer has typed a category and the
    debounce delay has passed. *)
Definition filtered_page : Products.Page :=
  Products.edit 400 (Products.with_category "mug") Sample.loaded_page.

(** The catalog page with the first page of three on it, twelve products,
    after the timer of the mount has run. *)
Definition first_dozen : Products.Page :=
  Products.run_timers 300
    (Products.respond 100 1
       (Resolved (LObject (Some (map Sample.product [1; 2; 3; 4; 5; 6; 7; 8; 9; 10; 11; 12]))
                    (Some (mkMeta 1%float 3%float))))
       (Products.mount [])).

(** A backend that remembers which of the products 1, 2 and 3 are featured,
    behind a network that loses every request about product 2. A toggle
    that arrives flips the flag and is answered "200 OK" with [{}]. *)
Definition Featured : Type := bool * bool * bool.

Definition featured_in (w : Featured) (i : Z) : bool :=
  let '(b1, b2, b3) := w in
  if i =? 1 then b1 else if i =? 2 then b2 else if i =? 3 then b3 else false.

Definition featured_shop : Api.Fetch (Paginated ProductsAdmin.Product) Featured :=
  fun req w =>
    let '(b1, b2, b3) := w in
    let u := Api.url req in
    let ok w := (w, Api.Replied (Api.mkResponse 200 "OK" (Resolved (PObject None None)))) in
    if (u =? Api.API_BASE ++ ProductsAdmin.toggle_url 2)%string
    then (w, Api.NoReply (mkError "TypeError" "Failed to fetch"))
    else if (u =? Api.API_BASE ++ ProductsAdmin.toggle_url 1)%string
    then ok (negb b1, b2, b3)
    else if (u =? Api.API_BASE ++ ProductsAdmin.toggle_url 3)%string
    then ok (b1, b2, negb b3)
    else ok w.

(** The same page with its observer: installed when the first reply
    arrived. *)
Definition watched_dozen : Catalog.Watched :=
  Catalog.passed 300
    (Catalog.responded 100 1
       (Resolved (LObject (Some (map Sample.product [1; 2; 3; 4; 5; 6; 7; 8; 9; 10; 11; 12]))
                    (Some (mkMeta 1%float 3%float))))
       (Catalog.mounted [])).

(** The admin backend of [Sample.shop] behind a network that loses
    nothing, but where product 2 cannot be deleted: its delete is
    answered with the given status and an error object as its JSON body,
    and removes nothing. *)
Definition refusing_shop (status : Z) (statusText : string)
    : Api.Fetch (Paginated ProductsAdmin.Product) Sample.Shop :=
  fun req w =>
    let '(b1, b2, b3) := w in
    let u := Api.url req in
    if (Api.method req =? "DELETE")%string then
      if (u =? Api.API_BASE ++ ProductsAdmin.delete_url 2)%string
      then (w, Api.Replied (Api.mkResponse status statusText (Resolved (PObject None None))))
      else if (u =? Api.API_BASE ++ ProductsAdmin.delete_url 1)%string
      then Sample.shop_ok (false, b2, b3) (PObject None None)
      else if (u =? Api.API_BASE ++ ProductsAdmin.delete_url 3)%string
      then Sample.shop_ok (b1, b2, false) (PObject None None)
      else Sample.shop_ok w (PObject None None)
    else Sample.shop_ok w (PArray (Sample.shop_list w)).

End Samples.

(* ================================================================== *)
(** * Properties of the HTTP facade *)
(* ================================================================== *)

Unset Implicit Arguments.

Module ApiFacts.

Section Facade.
Variable Json : Type.
Variable World : Type.
Variable fetch : Api.Fetch Json World.
Variable auth_token : option string.

(** Every method hands the request to [fetch] once and reads the reply
    with [res.json()]. *)
Lemma call_replied (req : Api.Request Json) (w w' : World) (res : Api.Response Json) :
  fetch req w = (w', Api.Replied res) ->
  Api.call fetch req w = (w', Api.json res).
Proof. intros H. unfold Api.call. rewrite H. reflexivity. Qed.

Lemma call_no_reply (req : Api.Request Json) (w w' : World) (e : Error) :
  fetch req w = (w', Api.NoReply e) ->
  Api.call fetch req w = (w', Rejected e).
Proof. intros H. unfold Api.call. rewrite H. reflexivity. Qed.

(** A call rejects only when no reply arrived or the body did not parse:
    the status is never looked at. *)
Lemma call_rejects_iff (req : Api.Request Json) (w : World) (e : Error) :
  snd (Api.call fetch req w) = Rejected e <->
  snd (fetch req w) = Api.NoReply e \/
  exists res, snd (fetch req w) = Api.Replied res /\ Api.json res = Rejected e.
Proof.
  unfold Api.call. destruct (fetch req w) as [w' [e'|res]]; simpl; split.
  - intros H. left. congruence.
  - intros [H|[res [H _]]]; congruence.
  - intros H. right. exists res. split; [reflexivity|exact H].
  - intros [H|[res' [H1 H2]]]; [discriminate|]. congruence.
Qed.

(** The second half of the contract: a 2xx reply whose body parses gives
    the parsed value. *)
Lemma get_2xx_returns_json (u : string) (w w' : World) (res : Api.Response Json) (v : Json) :
  fetch (Api.mkRequest (Api.API_BASE ++ u) "GET" (Api.getAuthHeader auth_token) None) w
    = (w', Api.Replied res) ->
  Api.ok res = true -> Api.json res = Resolved v ->
  Api.get fetch auth_token u w = (w', Resolved v).
Proof.
  intros H _ Hj. unfold Api.get. rewrite (call_replied _ _ _ _ H). now rewrite Hj.
Qed.

(** [useApi] does test [response.ok]: a reply outside 2xx ends in the
    hook's [error] state, with the status in the message text only. *)
Lemma fetchData_non_2xx (u : string) options (st : Api.HookState Json) (w w' : World)
    (res : Api.Response Json) :
  fetch (Api.hook_request auth_token u options) w = (w', Api.Replied res) ->
  Api.ok res = false ->
  Api.fetchData fetch auth_token u options st w =
    (w', Api.mkHookState (Api.data st) false
           (Some (Api.mkApiError
              ("HTTP " ++ toString (Api.status res) ++ ": " ++ Api.statusText res) None))).
Proof.
  intros H Hok. unfold Api.fetchData. rewrite H. simpl. rewrite Hok. simpl.
  reflexivity.
Qed.
End Facade.

(** C2 (the facade raises an error tagged with the HTTP status on a reply
    outside 2xx): evaluated at a "404 Not Found" reply whose body is the
    JSON value [v]. [response.ok] is false, yet each of get, post, put,
    patch and del resolves with [v]: no error is raised. *)
Theorem api_resolves_on_404 :
  forall (Json : Type) (v data : Json) (auth_token : option string) (u : string),
    let net := Api.always_replies (Sample.not_found v) in
    Api.ok (Sample.not_found v) = false /\
    Api.get net auth_token u tt = (tt, Resolved v) /\
    Api.post net auth_token u data tt = (tt, Resolved v) /\
    Api.put net auth_token u data tt = (tt, Resolved v) /\
    Api.patch net auth_token u data tt = (tt, Resolved v) /\
    Api.del net auth_token u tt = (tt, Resolved v).
Proof. intros. repeat split. Qed.

(** On the same reply the hook reports "HTTP 404: Not Found". *)
Example fetchData_on_404 :
  forall (Json : Type) (v : Json) st,
    snd (Api.fetchData (Api.always_replies (Sample.not_found v)) None "/cart" None st tt) =
      Api.mkHookState (Api.data st) false
        (Some (Api.mkApiError "HTTP 404: Not Found" None)).
Proof. intros. reflexivity. Qed.

End ApiFacts.

(* ================================================================== *)
(** * Properties of the cart page *)
(* ================================================================== *)

Module CartFacts.

Import Cart.

(** Nothing sums to [0], whose tax is [0]: the cart of the [catch] clause
    is the fallback pricing of no items. *)
Lemma fallback_pricing_no_items (c : Cart) :
  items c = None ->
  Spec.fallback_pricing c = mkCart (Some []) (Some 0%float) (Some 0%float) (Some 0%float).
Proof. intros H. unfold Spec.fallback_pricing. rewrite H. reflexivity. Qed.

Lemma fetchCart_then_resolved (response : Item Cart) (cartData : Cart) (st : State) :
  unwrap response = Normal cartData ->
  fetchCart_then (Resolved response) st =
    mkState (Some (if truthy_field (subtotal cartData) then cartData
                   else Spec.fallback_pricing cartData)) false.
Proof.
  intros H. unfold fetchCart_then. simpl. rewrite H. simpl.
  destruct (truthy_field (subtotal cartData)); [reflexivity|].
  destruct (items cartData) as [l|] eqn:E; simpl.
  - unfold Spec.fallback_pricing. now rewrite E.
  - now rewrite (fallback_pricing_no_items cartData E).
Qed.

(** A failed request or a [null] body leaves the empty cart. *)
Lemma fetchCart_then_failed (result : Promise (Item Cart)) (st : State) :
  (forall response, result = Resolved response -> response = INull) ->
  fetchCart_then result st =
    mkState (Some (mkCart (Some []) (Some 0%float) (Some 0%float) (Some 0%float))) false.
Proof.
  intros H. destruct result as [response|e]; [|reflexivity].
  rewrite (H response eq_refl). reflexivity.
Qed.

Lemma sum_totals_two (a b : CartItem) :
  sum_totals [a; b] = (0 + total a + total b)%float.
Proof. reflexivity. Qed.

(** C1. For every reply to [GET /cart] that carries a cart with items and
    without a subtotal, [fetchCart] stores the cart with subtotal = the sum
    of the items' [total] fields, tax = subtotal * 0.08 and total =
    subtotal + tax; when the items' totals are [10.00; 20.00] these are
    30.00, 2.40 and 32.40. *)
Theorem fetchCart_fallback_pricing :
  forall (World : Type) (fetch : Api.Fetch (Item Cart) World) (auth_token : option string)
         (w w' : World) (response : Item Cart) (cartData : Cart)
         (its : list CartItem) (st : State),
    Api.get fetch auth_token "/cart" w = (w', Resolved response) ->
    unwrap response = Normal cartData ->
    items cartData = Some its ->
    subtotal cartData = None ->
    let s := sum_totals its in
    cart (snd (fetchCart fetch auth_token st w)) =
      Some (mkCart (Some its) (Some s) (Some (s * 0.08)%float)
              (Some (s + s * 0.08)%float))
    /\ (map total its = [10%float; 20%float] ->
        s = 30%float /\ (s * 0.08)%float = 2.4%float
        /\ (s + s * 0.08)%float = 32.4%float).
Proof.
  intros World fetch auth_token w w' response cartData its st Hget Hun Hits Hsub s.
  split.
  - unfold fetchCart. rewrite Hget. cbn [snd].
    rewrite (fetchCart_then_resolved _ _ st Hun), Hsub.
    unfold Spec.fallback_pricing. rewrite Hits. reflexivity.
  - intros Hmap. subst s.
    destruct its as [|a [|b [|c l]]]; try discriminate.
    simpl in Hmap. injection Hmap as Ha Hb.
    rewrite sum_totals_two, Ha, Hb. repeat split.
Qed.

Lemma fetchCart_fallback_pricing_witness :
  cart (snd (fetchCart (Sample.replies_200 (IBare Sample.cart_10_20)) None initial tt)) =
    Some (mkCart (items Sample.cart_10_20)
            (Some 30%float) (Some 2.4%float) (Some 32.4%float)).
Proof.
  exact (proj1 (fetchCart_fallback_pricing unit
           (Sample.replies_200 (IBare Sample.cart_10_20)) None tt tt
           (IBare Sample.cart_10_20) Sample.cart_10_20
           [Sample.item 1 10%float; Sample.item 2 20%float] initial
           eq_refl eq_refl eq_refl eq_refl)).
Defined.

(** C10. Whatever else the reply carries, a falsy subtotal (missing, [0],
    [-0] or [NaN]) makes [fetchCart] replace subtotal, tax and total by the
    fallback amounts, and a truthy one makes it keep the server's cart as it
    is; a subtotal equal to 0 is a falsy one. *)
Theorem fetchCart_falsy_subtotal_recomputes :
  forall (World : Type) (fetch : Api.Fetch (Item Cart) World) (auth_token : option string)
         (w w' : World) (response : Item Cart) (cartData : Cart) (st : State),
    Api.get fetch auth_token "/cart" w = (w', Resolved response) ->
    unwrap response = Normal cartData ->
    (truthy_field (subtotal cartData) = false ->
       cart (snd (fetchCart fetch auth_token st w)) = Some (Spec.fallback_pricing cartData))
    /\ (truthy_field (subtotal cartData) = true ->
       cart (snd (fetchCart fetch auth_token st w)) = Some cartData)
    /\ (subtotal cartData = Some 0%float ->
       cart (snd (fetchCart fetch auth_token st w)) = Some (Spec.fallback_pricing cartData)).
Proof.
  intros World fetch auth_token w w' response cartData st Hget Hun.
  assert (E : cart (snd (fetchCart fetch auth_token st w)) =
              Some (if truthy_field (subtotal cartData) then cartData
                    else Spec.fallback_pricing cartData)).
  { unfold fetchCart. rewrite Hget. cbn [snd].
    now rewrite (fetchCart_then_resolved _ _ st Hun). }
  repeat split.
  - intros H. now rewrite E, H.
  - intros H. now rewrite E, H.
  - intros H. rewrite E, H. reflexivity.
Qed.

Lemma fetchCart_falsy_subtotal_recomputes_witness :
  cart (snd (fetchCart (Sample.replies_200 (IWrapped Sample.cart_zero_subtotal))
               None initial tt)) =
    Some (mkCart (items Sample.cart_zero_subtotal)
            (Some 30%float) (Some 2.4%float) (Some 32.4%float)).
Proof.
  exact (proj2 (proj2 (fetchCart_falsy_subtotal_recomputes unit
           (Sample.replies_200 (IWrapped Sample.cart_zero_subtotal)) None tt tt
           (IWrapped Sample.cart_zero_subtotal) Sample.cart_zero_subtotal initial
           eq_refl eq_refl)) eq_refl).
Defined.

(** The falsy numbers. *)
Example falsy_numbers :
  truthy_field None = false /\ truthy_field (Some 0%float) = false
  /\ truthy_field (Some (-0)%float) = false
  /\ truthy_field (Some PrimFloat.nan) = false
  /\ truthy_field (Some 0.01%float) = true.
Proof. repeat split. Qed.

(** The server's own amounts are kept, right or wrong. *)
Example fetchCart_keeps_server_totals :
  cart (snd (fetchCart (Sample.replies_200 (IBare Sample.cart_priced)) None initial tt)) =
    Some Sample.cart_priced.
Proof. reflexivity. Qed.

(** An error body that the facade hands over as a reply has no subtotal
    and no items: the [reduce] throws and the page shows the empty cart. *)
Example fetchCart_error_body :
  cart (snd (fetchCart (Api.always_replies (Sample.not_found (IBare Sample.cart_error_body)))
               None initial tt)) =
    Some (mkCart (Some []) (Some 0%float) (Some 0%float) (Some 0%float)).
Proof. reflexivity. Qed.

End CartFacts.

(* ================================================================== *)
(** * Comparison of binary64 numbers *)
(* ================================================================== *)

Module FloatFacts.

Lemma SFcompare_eq_not_lt (x y : SpecFloat.spec_float) :
  SpecFloat.SFeqb x y = true -> SpecFloat.SFltb x y = false.
Proof.
  unfold SpecFloat.SFeqb, SpecFloat.SFltb.
  destruct (SpecFloat.SFcompare x y) as [[| |]|]; congruence.
Qed.

(** [a == b] excludes [a < b]. *)
Lemma ltb_false_of_eqb (a b : float) :
  (a =? b)%float = true -> (a <? b)%float = false.
Proof.
  rewrite FloatAxioms.eqb_spec, FloatAxioms.ltb_spec. apply SFcompare_eq_not_lt.
Qed.

Lemma SFcompare_refl_not_lt (x : SpecFloat.spec_float) :
  SpecFloat.SFltb x x = false.
Proof.
  unfold SpecFloat.SFltb.
  destruct x as [s|s| |s m e]; simpl; try reflexivity.
  - destruct s; reflexivity.
  - destruct s; rewrite Z.compare_refl; simpl; rewrite ?Pos.compare_refl; simpl;
      rewrite ?Pos.compare_refl; reflexivity.
Qed.

(** Nothing is below itself, [NaN] included. *)
Lemma ltb_irrefl (a : float) : (a <? a)%float = false.
Proof. rewrite FloatAxioms.ltb_spec. apply SFcompare_refl_not_lt. Qed.

End FloatFacts.

(* ================================================================== *)
(** * Properties of the catalog page *)
(* ================================================================== *)

Module ProductsFacts.

Import Products.

(** ** Reading a reply *)

Lemma fetchProducts_unfold (World : Type) (fetch : Api.Fetch (Listing Product) World)
    auth_token page st w :
  fetchProducts fetch auth_token page st w =
    (fst (Api.get fetch auth_token (products_url (filters st) page) w),
     fetchProducts_then page
       (snd (Api.get fetch auth_token (products_url (filters st) page) w)) st).
Proof.
  unfold fetchProducts.
  destruct (Api.get fetch auth_token (products_url (filters st) page) w). reflexivity.
Qed.

Lemma hasMore_of_meta page data (m : Meta) st :
  hasMore (fetchProducts_then page (Resolved (LObject data (Some m))) st)
    = (current_page m <? last_page m)%float.
Proof.
  unfold fetchProducts_then. destruct data; simpl; destruct (page =? 1); reflexivity.
Qed.

Lemma intersection_request_no_more st :
  hasMore st = false -> intersection_request st = None.
Proof. intros H. unfold intersection_request. now rewrite H. Qed.

(** C3. When the reply carries [meta], [fetchProducts] sets the "has more"
    flag to [current_page < last_page]; when the two pages are equal the
    flag is false and the infinite-scroll effect installs no observer, so no
    intersection can ask for a further page. *)
Theorem hasMore_false_on_last_page :
  forall (World : Type) (fetch : Api.Fetch (Listing Product) World)
         (auth_token : option string) (w w' : World) (page : Z)
         (response : Listing Product) (m : Meta) (st : State),
    Api.get fetch auth_token (products_url (filters st) page) w = (w', Resolved response) ->
    meta_of response = Normal (Some m) ->
    let st' := snd (fetchProducts fetch auth_token page st w) in
    hasMore st' = (current_page m <? last_page m)%float
    /\ ((current_page m =? last_page m)%float = true ->
        hasMore st' = false /\ intersection_request st' = None).
Proof.
  intros World fetch auth_token w w' page response m st Hget Hmeta st'.
  assert (E : hasMore st' = (current_page m <? last_page m)%float).
  { subst st'. rewrite fetchProducts_unfold, Hget. cbn [snd].
    destruct response as [|items|data m']; try discriminate.
    simpl in Hmeta. injection Hmeta as ->. apply hasMore_of_meta. }
  split; [exact E|].
  intros Heq. rewrite E, (FloatFacts.ltb_false_of_eqb _ _ Heq).
  split; [reflexivity|].
  apply intersection_request_no_more. now rewrite E, (FloatFacts.ltb_false_of_eqb _ _ Heq).
Qed.

Lemma hasMore_false_on_last_page_witness :
  hasMore (snd (fetchProducts (Sample.replies_200 Sample.last_page_reply) None 2
                  (initial []) tt)) = false
  /\ intersection_request
       (snd (fetchProducts (Sample.replies_200 Sample.last_page_reply) None 2
               (initial []) tt)) = None.
Proof.
  exact (proj2 (hasMore_false_on_last_page unit
                  (Sample.replies_200 Sample.last_page_reply) None tt tt 2
                  Sample.last_page_reply (mkMeta 2%float 2%float) (initial [])
                  eq_refl eq_refl) eq_refl).
Defined.

(** A reply without [meta] (a bare array among them) counts as the only
    page. *)
Lemma hasMore_without_meta page (response : Listing Product) st :
  meta_of response = Normal None ->
  hasMore (fetchProducts_then page (Resolved response) st) = false.
Proof.
  destruct response as [|items|[data|] [m|]]; simpl; try discriminate; intros _;
    unfold fetchProducts_then; simpl; destruct (page =? 1); reflexivity.
Qed.

End ProductsFacts.

Module FilterFacts.

Import Products.

Lemma or_string_nonempty (a b : string) : a <> "" -> or_string a b = a.
Proof.
  intros H. unfold or_string, truthy_string.
  now rewrite (proj2 (String.eqb_neq a "") H).
Qed.

Lemma or_string_empty_default (a : string) : or_string a "" = a.
Proof.
  unfold or_string, truthy_string.
  destruct (String.eqb_spec a ""); simpl; congruence.
Qed.

Lemma truthy_string_false (a : string) : truthy_string a = false -> a = "".
Proof.
  unfold truthy_string. destruct (String.eqb_spec a ""); simpl; congruence.
Qed.

Lemma truthy_string_true (a : string) : truthy_string a = true -> a <> "".
Proof.
  unfold truthy_string. destruct (String.eqb_spec a ""); simpl; congruence.
Qed.

(** What [initialFilters] reads back of each field that [applyFilters]
    wrote. *)
Lemma read_back (f : FilterOptions) :
  initialFilters (applyFilters_params f) =
    mkFilters (category f) (minPrice f) (maxPrice f) (featuredOnly f)
      (or_string (sortBy f) "created_at_desc").
Proof.
  destruct f as [c mn mx fo sb].
  unfold applyFilters_params, initialFilters, URLSearchParams.when; cbn [category minPrice maxPrice featuredOnly sortBy].
  destruct (truthy_string c) eqn:Hc, (truthy_string mn) eqn:Hmn,
           (truthy_string mx) eqn:Hmx, fo,
           (String.eqb_spec sb "created_at_desc") as [Hsb|Hsb];
    cbn;
    repeat match goal with
    | H : truthy_string _ = false |- _ => apply truthy_string_false in H; subst
    | H : truthy_string ?a = true |- _ =>
        rewrite (or_string_nonempty a "" (truthy_string_true a H)); clear H
    end;
    subst; try reflexivity.
Qed.

Lemma read_back_nonempty_sort (f : FilterOptions) :
  sortBy f <> "" -> initialFilters (applyFilters_params f) = f.
Proof.
  intros H. rewrite read_back, (or_string_nonempty _ _ H).
  destruct f; reflexivity.
Qed.

(** The page never holds an empty sort key: the URL reader defaults it
    and the select offers none. *)
Lemma reachable_sortBy (f : FilterOptions) : Spec.reachable f -> sortBy f <> "".
Proof.
  induction 1 as [sp | |v f _ IH|v f _ IH|v f _ IH|v f _ IH|v f Hin _ _]; simpl; trivial.
  - unfold or_default. destruct (URLSearchParams.get "sortBy" sp) as [s|]; [|discriminate].
    unfold or_string. destruct (truthy_string s) eqn:E; [|discriminate].
    now apply truthy_string_true.
  - discriminate.
  - simpl in Hin. intros ->.
    destruct Hin as [H|[H|[H|[H|[]]]]]; discriminate.
Qed.

(** C7. For every filter state the page can hold (read from any URL,
    then edited through the drawer and the sort select, or reset), the URL
    parameters [applyFilters] writes (defaults left out) are read back by
    [initialFilters] as that very state, so a page loaded from the URL
    starts with the filters that were applied. *)
Theorem filters_round_trip :
  forall (f : FilterOptions) (st : State),
    Spec.reachable f ->
    initialFilters (applyFilters_params f) = f
    /\ filters (initial (searchParams (fst (applyFilters_start f st)))) = f.
Proof.
  intros f st H. apply reachable_sortBy in H.
  split; [|simpl]; now apply read_back_nonempty_sort.
Qed.

Lemma filters_round_trip_witness :
  initialFilters (applyFilters_params Sample.souvenir_featured) = Sample.souvenir_featured
  /\ filters (initial (searchParams
                (fst (applyFilters_start Sample.souvenir_featured (initial [])))))
     = Sample.souvenir_featured.
Proof.
  apply (filters_round_trip Sample.souvenir_featured (initial [])).
  exact (Spec.reach_featuredOnly true (Spec.reach_category "souvenir" Spec.reach_reset)).
Defined.

(** A record with an empty sort key, which the page never holds, would
    not come back: the empty [sortBy] is written to the URL and read back
    as the default. *)
Example empty_sort_is_read_as_default :
  applyFilters_params Sample.empty_sort =
    [("category", "souvenir"); ("featuredOnly", "true"); ("sortBy", "")]
  /\ initialFilters (applyFilters_params Sample.empty_sort) = Sample.souvenir_featured.
Proof. repeat split. Qed.

(** The query string of a request. *)
Example toString_sample :
  URLSearchParams.toString [("category", "event package"); ("q", "a&b=c")] =
    "category=event+package&q=a%26b%3Dc".
Proof. reflexivity. Qed.

(** The example of the specification, and the URL it goes through. *)
Example souvenir_featured_params :
  applyFilters_params Sample.souvenir_featured =
    [("category", "souvenir"); ("featuredOnly", "true")].
Proof. reflexivity. Qed.

End FilterFacts.

Module DebounceFacts.

Import Products.

Lemma loading_setFilters (v : FilterOptions) (st : State) :
  loading (setFilters v st) = loading st.
Proof. reflexivity. Qed.

Lemma filters_setFilters (v : FilterOptions) (st : State) :
  filters (setFilters v st) = v.
Proof. reflexivity. Qed.

Lemma run_timers_not_due (t : Z) (p : Page) :
  Spec.no_timer_due t p -> run_timers t p = p.
Proof.
  unfold Spec.no_timer_due, run_timers. destruct (timer p) as [tm|]; [|reflexivity].
  intros H. destruct (Z.leb_spec (due tm) t); [lia|reflexivity].
Qed.

(** An edit that changes a dependency, made while no timer is due: the
    pending timer (if any) is replaced by one 300 ms ahead that closes over
    the new render; nothing is requested. *)
Lemma edit_rearms (t : Z) (upd : FilterOptions -> FilterOptions) (p : Page) :
  Spec.no_timer_due t p ->
  deps_eqb (filters (state p)) (upd (filters (state p))) = false ->
  edit t upd p =
    mkPage (setFilters (upd (filters (state p))) (state p))
           (Some (mkTimer (t + 300) (setFilters (upd (filters (state p))) (state p))))
           (requests p).
Proof.
  intros Hq Hd. unfold edit. rewrite (run_timers_not_due t p Hq).
  unfold debounce_effect. cbn [filters setFilters]. now rewrite Hd.
Qed.

(** An edit that leaves the dependencies as they are (the sort key, or a
    field set to the value it has) does not touch the timer. *)
Lemma edit_same_deps (t : Z) (upd : FilterOptions -> FilterOptions) (p : Page) :
  Spec.no_timer_due t p ->
  deps_eqb (filters (state p)) (upd (filters (state p))) = true ->
  timer (edit t upd p) = timer p /\ requests (edit t upd p) = requests p.
Proof.
  intros Hq Hd. unfold edit. rewrite (run_timers_not_due t p Hq).
  unfold debounce_effect. cbn [filters setFilters timer requests]. now rewrite Hd.
Qed.

(** [deps_eqb] compares the dependency tuples. *)
Lemma deps_eqb_spec (f g : FilterOptions) : deps_eqb f g = true <-> deps f = deps g.
Proof.
  unfold deps_eqb, deps. rewrite !andb_true_iff, !String.eqb_eq, Bool.eqb_true_iff.
  split.
  - intros [[[-> ->] ->] ->]. reflexivity.
  - intros H. injection H as -> -> -> ->. repeat split.
Qed.

Lemma deps_eqb_sort (v : string) (f : FilterOptions) :
  deps_eqb f (handleSortChange v f) = true.
Proof.
  unfold deps_eqb. simpl. now rewrite !String.eqb_refl, Bool.eqb_reflx.
Qed.

(** C8, as amended. Three edits, each changing a dependency of the effect
    and each less than 300 ms after the one before, made while no earlier
    timer is due: once the last delay has passed the page has sent no
    request more if it was loading, and exactly one more, for page 1 with
    the filters of the third edit, if it was not. *)
Theorem debounce_at_most_one_refetch :
  forall (p : Page) (t1 t2 t3 T : Z) (u1 u2 u3 : FilterOptions -> FilterOptions),
    Spec.no_timer_due t1 p ->
    Spec.edits_change_deps (filters (state p)) u1 u2 u3 ->
    Spec.within_300ms t1 t2 t3 T ->
    requests (Spec.three_edits p t1 t2 t3 T u1 u2 u3) =
      (requests p ++
         (if loading (state p) then []
          else [products_url (u3 (u2 (u1 (filters (state p))))) 1]))%list.
Proof.
  intros p t1 t2 t3 T u1 u2 u3 Hq (H1 & H2 & H3) (Ht1 & Ht2 & HT).
  unfold Spec.three_edits.
  rewrite (edit_rearms t1 u1 p Hq H1).
  rewrite (edit_rearms t2 u2); cbn [state filters setFilters timer requests];
    [ | unfold Spec.no_timer_due; simpl; lia | exact H2 ].
  rewrite (edit_rearms t3 u3); cbn [state filters setFilters timer requests];
    [ | unfold Spec.no_timer_due; simpl; lia | exact H3 ].
  unfold run_timers. cbn [timer due].
  destruct (Z.leb_spec (t3 + 300) T) as [_|]; [|lia].
  unfold fire. cbn [seen state requests].
  rewrite !loading_setFilters, filters_setFilters.
  destruct (loading (state p)); cbn [requests applyFilters_start].
  - now rewrite app_nil_r.
  - reflexivity.
Qed.

Lemma debounce_at_most_one_refetch_witness :
  requests (Spec.three_edits Sample.loaded_page 150 200 250 550
              (with_category "product") (with_category "souvenir")
              (with_featuredOnly true)) =
    ["/products?sort_field=created&sort_direction=at&page=1&per_page=12";
     "/products?category=souvenir&featured=1&sort_field=created&sort_direction=at&page=1&per_page=12"].
Proof.
  apply (debounce_at_most_one_refetch Sample.loaded_page 150 200 250 550
           (with_category "product") (with_category "souvenir")
           (with_featuredOnly true)).
  - unfold Spec.no_timer_due. simpl. lia.
  - repeat split.
  - unfold Spec.within_300ms. lia.
Defined.

(** C8, as stated, fails on a page that is still loading: three edits made
    100 ms apart while the first request is unanswered satisfy every premise,
    and the page sends no request beyond the one of the mount. *)
Lemma debounce_none_while_loading :
  Spec.no_timer_due 1000 Sample.slow_page
  /\ Spec.edits_change_deps (filters (state Sample.slow_page))
       (with_category "product") (with_category "souvenir") (with_featuredOnly true)
  /\ Spec.within_300ms 1000 1100 1200 1500
  /\ requests (Spec.three_edits Sample.slow_page 1000 1100 1200 1500
                 (with_category "product") (with_category "souvenir")
                 (with_featuredOnly true))
     = requests Sample.slow_page
  /\ ~ Spec.debounce_claim.
Proof.
  assert (Hq : Spec.no_timer_due 1000 Sample.slow_page) by exact I.
  assert (Hd : Spec.edits_change_deps (filters (state Sample.slow_page))
                 (with_category "product") (with_category "souvenir")
                 (with_featuredOnly true)) by (repeat split).
  assert (Ht : Spec.within_300ms 1000 1100 1200 1500) by (unfold Spec.within_300ms; lia).
  repeat split; try assumption; try apply Hd; try apply Ht.
  intros H. specialize (H _ _ _ _ _ _ _ _ Hq Hd Ht). discriminate H.
Qed.

(** The page that is loading in this example, and the one request it has
    sent. *)
Example slow_page_is_loading :
  loading (state Sample.slow_page) = true
  /\ timer Sample.slow_page = None
  /\ requests Sample.slow_page =
       ["/products?sort_field=created&sort_direction=at&page=1&per_page=12"].
Proof. repeat split. Qed.

End DebounceFacts.

(* ================================================================== *)
(** * Bare and enveloped replies; failed reads *)
(* ================================================================== *)

Module ListFacts.

(** Both idioms read a bare array and its envelope alike. *)
Lemma items_of_envelope {A} (l : list A) (m : option Meta) :
  items_of (LObject (Some l) m) = items_of (LArray l).
Proof. reflexivity. Qed.

Lemma items_of_unwrapped_envelope {A} (l : list A) (m : option Meta) :
  items_of_unwrapped (PObject (Some (InArray l)) m) = items_of_unwrapped (PArray l).
Proof. reflexivity. Qed.

(** The admin idiom reads a paginator inside an envelope as well. *)
Lemma items_of_unwrapped_nested {A} (l : list A) (m : option Meta) :
  items_of_unwrapped (PObject (Some (InObject (Some l))) m) = items_of_unwrapped (PArray l).
Proof. reflexivity. Qed.

(** C4. For every list of items, a reply that is the bare array and a reply
    that is the envelope [{data: [...]}] of the same items leave the same
    state, in the catalog (first and later pages), the admin user list, the
    admin product list and the notification list; an envelope that also
    carries [meta] still leaves the same list. *)
Theorem bare_and_enveloped_agree :
  (forall (l : list Products.Product) page st,
      Products.fetchProducts_then page (Resolved (LObject (Some l) None)) st =
      Products.fetchProducts_then page (Resolved (LArray l)) st)
  /\ (forall (l : list Products.Product) m page st,
      Products.products
        (Products.fetchProducts_then page (Resolved (LObject (Some l) m)) st) =
      Products.products (Products.fetchProducts_then page (Resolved (LArray l)) st))
  /\ (forall (l : list Users.User) page st,
      Users.fetchUsers_then page (Resolved (PObject (Some (InArray l)) None)) st =
      Users.fetchUsers_then page (Resolved (PArray l)) st)
  /\ (forall (l : list Users.User) m page st,
      Users.users (Users.fetchUsers_then page (Resolved (PObject (Some (InArray l)) m)) st) =
      Users.users (Users.fetchUsers_then page (Resolved (PArray l)) st))
  /\ (forall (l : list ProductsAdmin.Product) page st,
      ProductsAdmin.fetchProducts_then page (Resolved (PObject (Some (InArray l)) None)) st =
      ProductsAdmin.fetchProducts_then page (Resolved (PArray l)) st)
  /\ (forall (l : list NotificationsAdmin.Notification) m st,
      NotificationsAdmin.fetchNotifications_then (Resolved (LObject (Some l) m)) st =
      NotificationsAdmin.fetchNotifications_then (Resolved (LArray l)) st).
Proof.
  repeat split; intros; reflexivity.
Qed.

(** The same through the network: two servers that send the two shapes. *)
Lemma catalog_same_state_either_shape (l : list Products.Product) page st :
  Products.fetchProducts (Sample.replies_200 (LObject (Some l) None)) None page st tt =
  Products.fetchProducts (Sample.replies_200 (LArray l)) None page st tt.
Proof. reflexivity. Qed.

(** ** Reads that fail *)

(** A rejected request (no reply, or a body that is not JSON) empties the
    first page of the catalog and leaves a later page's list alone; the
    function returns a state: nothing is thrown further. *)
Lemma fetchProducts_rejected (e : Error) page st :
  Products.fetchProducts_then page (Rejected e) st =
    Products.setLoading false
      (if page =? 1 then Products.setProducts [] st else st).
Proof. reflexivity. Qed.

Lemma fetchProducts_rejected_first_page (e : Error) st :
  Products.products (Products.fetchProducts_then 1 (Rejected e) st) = []
  /\ Products.loading (Products.fetchProducts_then 1 (Rejected e) st) = false.
Proof. split; reflexivity. Qed.

(** A [null] body throws inside the [try] and ends the same way. *)
Lemma fetchProducts_null page st :
  Products.fetchProducts_then page (Resolved LNull) st =
  Products.fetchProducts_then page (Rejected null_data) st.
Proof. reflexivity. Qed.

(** An object without [data] (an error body) reads as the empty list. *)
Lemma fetchProducts_error_body m st :
  Products.products (Products.fetchProducts_then 1 (Resolved (LObject None m)) st) = [].
Proof. reflexivity. Qed.

Lemma fetchUsers_rejected (e : Error) page st :
  Users.fetchUsers_then page (Rejected e) st =
    Users.setLoading false (Users.setTotalPages 1%float (Users.setUsers [] st)).
Proof. reflexivity. Qed.

Lemma fetchUsers_error_body m page st :
  Users.users (Users.fetchUsers_then page (Resolved (PObject None m)) st) = [].
Proof. reflexivity. Qed.

(** Through the facade: no reply at all. *)
Lemma fetchProducts_no_reply (World : Type) (fetch : Api.Fetch (Listing Products.Product) World)
    auth_token st w w' e :
  fetch (Api.mkRequest (Api.API_BASE ++ Products.products_url (Products.filters st) 1)
           "GET" (Api.getAuthHeader auth_token) None) w = (w', Api.NoReply e) ->
  Products.products (snd (Products.fetchProducts fetch auth_token 1 st w)) = [].
Proof.
  intros H. rewrite ProductsFacts.fetchProducts_unfold.
  unfold Api.get. rewrite (ApiFacts.call_no_reply _ _ _ _ _ _ _ H). reflexivity.
Qed.

(** C9 (a read that fails, a reply outside 2xx included, leaves the empty
    list on page 1): evaluated at a "500 Internal Server Error" reply whose
    body is a JSON array. [response.ok] is false, the facade resolves with
    the array, and the catalog and the admin user list show it. *)
Theorem failed_read_with_list_body_is_shown :
  Api.ok (Sample.server_error (LArray [Sample.product 1])) = false
  /\ Products.products
       (snd (Products.fetchProducts
               (Api.always_replies (Sample.server_error (LArray [Sample.product 1])))
               None 1 (Products.initial []) tt)) = [Sample.product 1]
  /\ Users.users
       (snd (Users.fetchUsers
               (Api.always_replies (Sample.server_error (PArray [Sample.user 1])))
               None 1 Users.initial tt)) = [Sample.user 1].
Proof. repeat split. Qed.

End ListFacts.

(* ================================================================== *)
(** * Bulk actions of the admin pages *)
(* ================================================================== *)

Module LoopFacts.

Section Loop.
Variables (X World A : Type).
Variable step : X -> World -> World * Promise A.

(** A loop whose steps all resolve runs on into what follows it. *)
Lemma for_await_app (pre rest : list X) (w w1 : World) :
  for_await step pre w = (w1, Normal tt) ->
  for_await step (pre ++ rest) w = for_await step rest w1.
Proof.
  revert w. induction pre as [|x pre IH]; intros w H; simpl in *.
  - now injection H as ->.
  - destruct (step x w) as [w' [v|e]]; simpl in *; [now apply IH|discriminate].
Qed.

(** The first rejection ends the loop: the steps after it do not run. *)
Lemma for_await_stops (pre post : list X) (x : X) (w w1 w2 : World) (e : Error) :
  for_await step pre w = (w1, Normal tt) ->
  step x w1 = (w2, Rejected e) ->
  for_await step (pre ++ x :: post) w = (w2, Throw e).
Proof.
  intros Hpre Hx. rewrite (for_await_app pre (x :: post) w w1 Hpre).
  simpl. now rewrite Hx.
Qed.

(** A property of the world that every resolved step of the loop keeps
    (or moves along [f]) holds at its end. *)
Lemma for_await_fold (R : World -> list X -> Prop) (pre : list X) (w w1 : World) :
  R w [] ->
  (forall x wa wb v done, In x pre -> R wa done -> step x wa = (wb, Resolved v) ->
                          R wb (done ++ [x])%list) ->
  for_await step pre w = (w1, Normal tt) ->
  R w1 pre.
Proof.
  intros H0 Hstep.
  enough (G : forall done todo wa, (done ++ todo)%list = pre -> R wa done ->
                for_await step todo wa = (w1, Normal tt) -> R w1 pre).
  { intros H. exact (G [] pre w eq_refl H0 H). }
  intros done todo. revert done. induction todo as [|x todo IH]; intros done wa E HR H.
  - simpl in H. injection H as ->. rewrite app_nil_r in E. now subst.
  - simpl in H. destruct (step x wa) as [wb [v|e]] eqn:Es; simpl in H; [|discriminate].
    apply (IH (done ++ [x])%list wb).
    + now rewrite <- app_assoc.
    + apply (Hstep x wa wb v done); trivial. subst pre. apply in_or_app. right. now left.
    + exact H.
Qed.
End Loop.

End LoopFacts.

Module AdminFacts.

Import ProductsAdmin.

Section Recorded.
Variable World : Type.
Variable fetch : Api.Fetch (Paginated Product) World.
Variable auth_token : option string.

Lemma del_recording (id : Z) (w : World) (log : list (Api.Request (Paginated Product))) :
  Api.del (Api.recording fetch) auth_token (delete_url id) (w, log) =
    ((fst (Api.del fetch auth_token (delete_url id) w),
      (log ++ [delete_request auth_token id])%list),
     snd (Api.del fetch auth_token (delete_url id) w)).
Proof.
  unfold Api.del, Api.call, Api.recording, delete_request. cbn [fst snd].
  destruct (fetch _ w). reflexivity.
Qed.

(** The recorded run of a loop of deletes that all resolve. *)
Lemma deletes_recorded (pre : list Z) :
  forall (w w1 : World) log,
    for_await (fun id => Api.del fetch auth_token (delete_url id)) pre w = (w1, Normal tt) ->
    for_await (fun id => Api.del (Api.recording fetch) auth_token (delete_url id)) pre (w, log)
      = ((w1, (log ++ map (delete_request auth_token) pre)%list), Normal tt).
Proof.
  induction pre as [|x pre IH]; intros w w1 log H; simpl in H |- *.
  - injection H as ->. now rewrite app_nil_r.
  - rewrite del_recording.
    destruct (Api.del fetch auth_token (delete_url x) w) as [w' [v|e]]; simpl in H |- *;
      [|discriminate].
    rewrite (IH w' w1 _ H). now rewrite <- app_assoc.
Qed.
End Recorded.

(** X30. Bulk delete with a delete that rejects (no reply arrives, or
    the body of the reply does not parse). The selection is
    [pre ++ x :: post]: the deletes of [pre] (the first k-1 ids) resolve
    one after the other and the delete of [x] (the k-th) rejects with
    [e]. Then [handleBulkDelete]
    - has sent the delete requests of [pre ++ [x]], in the order of the
      selection, and no other request (none for [post], none that undoes a
      delete, no refresh);
    - leaves the page as it was but for one banner of type error, whose
      text is the message of [e], or "Failed to delete products" when [e]
      has none;
    - and, on a backend where a delete that resolves removes its entity
      and one that rejects removes nothing, leaves removed exactly the
      entities of [pre]. *)
Theorem bulk_delete_stops_at_first_failure :
  forall (World : Type) (fetch : Api.Fetch (Paginated Product) World)
         (auth_token : option string) (present : World -> Z -> bool)
         (st : State) (pre post : list Z) (x : Z) (w w1 w2 : World) (e : Error),
    selectedProducts st = (pre ++ x :: post)%list ->
    for_await (fun id => Api.del fetch auth_token (delete_url id)) pre w = (w1, Normal tt) ->
    Api.del fetch auth_token (delete_url x) w1 = (w2, Rejected e) ->
    let failed :=
      setMessage (Some (mkMessage msg_error
                          (or_string (Js.message e) "Failed to delete products"))) st in
    handleBulkDelete fetch auth_token true st w = (w2, failed)
    /\ handleBulkDelete (Api.recording fetch) auth_token true st (w, [])
       = ((w2, map (delete_request auth_token) (pre ++ [x])), failed)
    /\ ((forall id wa wb v, In id pre ->
           Api.del fetch auth_token (delete_url id) wa = (wb, Resolved v) ->
           forall i, present wb i = present wa i && negb (i =? id)) ->
        (forall wa wb e', Api.del fetch auth_token (delete_url x) wa = (wb, Rejected e') ->
           forall i, present wb i = present wa i) ->
        forall i, present w2 i = present w i && negb (existsb (Z.eqb i) pre)).
Proof.
  intros World fetch auth_token present st pre post x w w1 w2 e
         Hsel Hpre Hx failed.
  assert (Hlen : (List.length (selectedProducts st) =? 0)%nat = false).
  { rewrite Hsel, length_app. simpl. apply Nat.eqb_neq. lia. }
  split; [|split].
  - unfold handleBulkDelete. rewrite Hlen, Hsel. cbn [negb].
    now rewrite (LoopFacts.for_await_stops _ _ _ _ pre post x w w1 w2 e Hpre Hx).
  - unfold handleBulkDelete. rewrite Hlen, Hsel. cbn [negb].
    rewrite (LoopFacts.for_await_stops _ _ _ _ pre post x (w, [])
               (w1, map (delete_request auth_token) pre)
               (w2, map (delete_request auth_token) (pre ++ [x])) e).
    + reflexivity.
    + apply (deletes_recorded World fetch auth_token pre w w1 [] Hpre).
    + rewrite del_recording, Hx. cbn [fst snd]. now rewrite map_app.
  - intros Hok Hfail i. rewrite (Hfail w1 w2 e Hx i).
    apply (LoopFacts.for_await_fold _ _ _
             (fun id => Api.del fetch auth_token (delete_url id))
             (fun wa done => present wa i = present w i && negb (existsb (Z.eqb i) done))
             pre w w1); trivial.
    + simpl. now rewrite andb_true_r.
    + intros y wa wb v done Hin HR Hy. rewrite (Hok y wa wb v Hin Hy i), HR.
      rewrite existsb_app. simpl. rewrite orb_false_r, negb_orb. now rewrite andb_assoc.
Qed.

(** The sample backend removes what a resolved delete names and nothing
    when the request is lost. *)
Lemma shop_delete_removes (id : Z) (wa wb : Sample.Shop) (v : Paginated Product) :
  In id [1] ->
  Api.del Sample.shop None (delete_url id) wa = (wb, Resolved v) ->
  forall i, Sample.in_shop wb i = Sample.in_shop wa i && negb (i =? id).
Proof.
  intros [<-|[]] H i. destruct wa as [[b1 b2] b3].
  vm_compute in H. injection H as <- _. unfold Sample.in_shop.
  destruct (i =? 1); simpl; [now rewrite andb_false_r|now rewrite andb_true_r].
Qed.

Lemma shop_loss_keeps (wa wb : Sample.Shop) (e : Error) :
  Api.del Sample.shop None (delete_url 2) wa = (wb, Rejected e) ->
  forall i, Sample.in_shop wb i = Sample.in_shop wa i.
Proof.
  intros H i. destruct wa as [[b1 b2] b3]. vm_compute in H. now injection H as <- _.
Qed.

Lemma bulk_delete_stops_at_first_failure_witness :
  handleBulkDelete (Api.recording Sample.shop) None true Sample.admin_page
    ((true, true, true), [])
  = (((false, true, true), [delete_request None 1; delete_request None 2]),
     setMessage (Some (mkMessage msg_error "Failed to fetch")) Sample.admin_page)
  /\ (forall i, Sample.in_shop (false, true, true) i
                = Sample.in_shop (true, true, true) i && negb (existsb (Z.eqb i) [1])).
Proof.
  pose proof (bulk_delete_stops_at_first_failure Sample.Shop Sample.shop None
                Sample.in_shop Sample.admin_page [1] [3] 2
                (true, true, true) (false, true, true) (false, true, true)
                (mkError "TypeError" "Failed to fetch")
                eq_refl eq_refl eq_refl) as H.
  exact (conj (proj1 (proj2 H))
              (proj2 (proj2 H) shop_delete_removes shop_loss_keeps)).
Defined.

(** When every delete resolves, the page asks for its current page again
    and reports success. *)
Lemma bulk_delete_all_resolve (World : Type) (fetch : Api.Fetch (Paginated Product) World)
    auth_token st w w1 :
  selectedProducts st <> [] ->
  for_await (fun id => Api.del fetch auth_token (delete_url id)) (selectedProducts st) w
    = (w1, Normal tt) ->
  handleBulkDelete fetch auth_token true st w =
    (fst (fetchProducts fetch auth_token (currentPage st) st w1),
     setMessage (Some (mkMessage msg_success "Products deleted successfully!"))
       (snd (fetchProducts fetch auth_token (currentPage st) st w1))).
Proof.
  intros Hne H. unfold handleBulkDelete.
  destruct (selectedProducts st) as [|y l] eqn:E; [congruence|].
  cbn [List.length Nat.eqb negb]. rewrite H.
  destruct (fetchProducts fetch auth_token (currentPage st) st w1). reflexivity.
Qed.

Example bulk_delete_sample_success :
  handleBulkDelete (Api.recording Sample.shop) None true
    (setSelectedProducts [1; 3] Sample.admin_page) ((true, true, true), [])
  = (((false, true, false),
      [delete_request None 1; delete_request None 3;
       Api.mkRequest (Api.API_BASE ++ "/admin/products?page=1&per_page=10") "GET" [] None]),
     mkState [Sample.admin_product 2] false "" "all" "all" 1 1%float []
       (Some (mkMessage msg_success "Products deleted successfully!"))).
Proof. vm_compute. reflexivity. Qed.

(** A reply outside 2xx whose body parses does not end the loop: the
    facade resolves on it. *)
Lemma bulk_delete_goes_on_after_non_2xx (World : Type)
    (fetch : Api.Fetch (Paginated Product) World) auth_token (x : Z) (rest : list Z)
    (w w1 : World) (res : Api.Response (Paginated Product)) (v : Paginated Product) :
  fetch (delete_request auth_token x) w = (w1, Api.Replied res) ->
  Api.json res = Resolved v ->
  for_await (fun id => Api.del fetch auth_token (delete_url id)) (x :: rest) w =
  for_await (fun id => Api.del fetch auth_token (delete_url id)) rest w1.
Proof.
  intros H Hj. simpl. unfold Api.del at 1.
  fold (delete_request auth_token x).
  rewrite (ApiFacts.call_replied _ _ _ _ _ _ _ H), Hj. reflexivity.
Qed.

(** C6. A delete that the server refuses does not stop the bulk delete.
    Products 1, 2 and 3 are selected, and the delete of product 2 is
    answered with an error object as body and removes nothing. Whatever
    the status of that reply (a 500, say), the page goes on to delete
    product 3, asks for the list again and reports success, although
    product 2 is still there: the loop sees a failure only when [api.del]
    rejects, and [api.del] never looks at the status. *)
Theorem bulk_delete_ignores_refused_delete :
  forall (status : Z) (statusText : string),
    handleBulkDelete (Api.recording (Samples.refusing_shop status statusText)) None true
      Sample.admin_page ((true, true, true), [])
    = (((false, true, false),
        [delete_request None 1; delete_request None 2; delete_request None 3;
         Api.mkRequest (Api.API_BASE ++ "/admin/products?page=1&per_page=10") "GET" [] None]),
       mkState [Sample.admin_product 2] false "" "all" "all" 1 1%float []
         (Some (mkMessage msg_success "Products deleted successfully!"))).
Proof. intros status statusText. reflexivity. Qed.

End AdminFacts.

Module NotificationFacts.

Import NotificationsAdmin.

(** The notification list runs the same loop over its string ids. *)
Lemma notifications_bulk_delete_stops (World : Type)
    (fetch : Api.Fetch (Listing Notification) World) (auth_token : option string)
    (st : State) (pre post : list string) (x : string) (w w1 w2 : World) (e : Error) :
  selectedNotifications st = (pre ++ x :: post)%list ->
  for_await (fun id => Api.del fetch auth_token (delete_url id)) pre w = (w1, Normal tt) ->
  Api.del fetch auth_token (delete_url x) w1 = (w2, Rejected e) ->
  handleBulkDelete fetch auth_token true st w =
    (w2, setMessage (Some (mkMessage msg_error
                             (or_string (Js.message e) "Failed to delete notifications"))) st).
Proof.
  intros Hsel Hpre Hx.
  assert (Hlen : (List.length (selectedNotifications st) =? 0)%nat = false).
  { rewrite Hsel, length_app. simpl. apply Nat.eqb_neq. lia. }
  unfold handleBulkDelete. rewrite Hlen, Hsel. cbn [negb].
  now rewrite (LoopFacts.for_await_stops _ _ _ _ pre post x w w1 w2 e Hpre Hx).
Qed.

End NotificationFacts.

(* ================================================================== *)
(** * The default address *)
(* ================================================================== *)

Module ProfileFacts.

Import Profile.

Lemma mark_default_ids (target : Z) (l : list Address) :
  map id (mark_default target l) = map id l.
Proof. unfold mark_default. rewrite map_map. reflexivity. Qed.

(** After the update an address is the default exactly when it has the
    id. *)
Lemma mark_default_flag (target : Z) (l : list Address) (a : Address) :
  In a (mark_default target l) -> is_default a = (id a =? target).
Proof.
  unfold mark_default. rewrite in_map_iff. intros [b [<- _]]. reflexivity.
Qed.

Lemma mark_default_idempotent (target : Z) (l : list Address) :
  mark_default target (mark_default target l) = mark_default target l.
Proof. unfold mark_default. rewrite map_map. reflexivity. Qed.

(** The defaults of the updated list are the addresses with the id. *)
Lemma defaults_mark_default (target : Z) (l : list Address) :
  defaults (mark_default target l) =
    List.length (filter (fun i => i =? target) (map id l)).
Proof.
  unfold defaults, mark_default.
  induction l as [|a l IH]; simpl; [reflexivity|].
  destruct (id a =? target); simpl; now rewrite IH.
Qed.

Lemma no_occurrence (target : Z) (ids : list Z) :
  ~ In target ids -> filter (fun i => i =? target) ids = [].
Proof.
  induction ids as [|j ids IH]; intros Hnotin; [reflexivity|]. simpl.
  destruct (Z.eqb_spec j target) as [->|_].
  - exfalso. apply Hnotin. now left.
  - apply IH. intros H. apply Hnotin. now right.
Qed.

Lemma one_occurrence (target : Z) (ids : list Z) :
  NoDup ids -> In target ids ->
  List.length (filter (fun i => i =? target) ids) = 1%nat.
Proof.
  induction 1 as [|i ids Hnotin Hnd IH]; intros Hin; [destruct Hin|].
  simpl. destruct (Z.eqb_spec i target) as [->|Hne].
  - simpl. now rewrite (no_occurrence target ids Hnotin).
  - destruct Hin as [->|Hin]; [congruence|]. now apply IH.
Qed.

(** Without the assumption on ids the count is the number of addresses
    that carry the id. *)
Example two_addresses_one_id :
  defaults (mark_default 1 [Sample.address 1 false; Sample.address 1 false]) = 2%nat.
Proof. reflexivity. Qed.

(** C5. After [handleSetDefault] has succeeded once for an id, and after
    it has succeeded a second time for the same id, the default addresses
    of the list are the addresses with that id, and the second run changes
    nothing; in a list whose addresses have distinct ids, one of them the
    id, exactly one address is the default both times. *)
Theorem set_default_leaves_one_default :
  forall (Json : Type) (target : Z) (st : State) (v1 v2 : Json),
    let once := handleSetDefault_then target (addresses st) (Resolved v1) st in
    let twice := handleSetDefault_then target (addresses once) (Resolved v2) once in
    (forall a, In a (addresses once) -> (is_default a = true <-> id a = target))
    /\ (forall a, In a (addresses twice) -> (is_default a = true <-> id a = target))
    /\ addresses twice = addresses once
    /\ (NoDup (map id (addresses st)) -> In target (map id (addresses st)) ->
        defaults (addresses once) = 1%nat /\ defaults (addresses twice) = 1%nat).
Proof.
  intros Json target st v1 v2 once twice.
  assert (E1 : addresses once = mark_default target (addresses st)) by reflexivity.
  assert (E2 : addresses twice = mark_default target (addresses st)).
  { change (addresses twice) with (mark_default target (addresses once)).
    rewrite E1. apply mark_default_idempotent. }
  assert (F : forall a, In a (mark_default target (addresses st)) ->
                        (is_default a = true <-> id a = target)).
  { intros a Ha. rewrite (mark_default_flag target _ a Ha). apply Z.eqb_eq. }
  rewrite E2, E1. repeat (split; [first [reflexivity | exact F]|]).
  intros Hnd Hin.
  rewrite defaults_mark_default, (one_occurrence target _ Hnd Hin). split; reflexivity.
Qed.

Lemma set_default_leaves_one_default_witness :
  let once := handleSetDefault_then 2 (addresses Sample.profile_page) (Resolved tt)
                Sample.profile_page in
  let twice := handleSetDefault_then 2 (addresses once) (Resolved tt) once in
  addresses once =
    [Sample.address 1 false; Sample.address 2 true; Sample.address 3 false]
  /\ defaults (addresses once) = 1%nat /\ defaults (addresses twice) = 1%nat.
Proof.
  split; [reflexivity|].
  apply (set_default_leaves_one_default unit 2 Sample.profile_page tt tt).
  - simpl. repeat constructor; simpl; intuition discriminate.
  - simpl. right. left. reflexivity.
Defined.

(** A second click made before the page has rendered the first result
    works on the list the first one saw, and ends with the same list. *)
Lemma set_default_stale_closure {Json} (target : Z) (st : State) (v1 v2 : Json) :
  let once := handleSetDefault_then target (addresses st) (Resolved v1) st in
  addresses (handleSetDefault_then target (addresses st) (Resolved v2) once)
    = addresses once.
Proof. reflexivity. Qed.

(** A rejected request leaves the list as it was, under an error banner. *)
Lemma set_default_rejected {Json} (target : Z) (st : State) (e : Error) :
  handleSetDefault_then (Json := Json) target (addresses st) (Rejected e) st =
    mkState (addresses st) false
      (Some (mkMessage msg_error (or_string (Js.message e) "Failed to set default address"))).
Proof. reflexivity. Qed.

(** Through the facade, with the dialog confirmed. *)
Lemma handleSetDefault_resolved (Json World : Type) (fetch : Api.Fetch Json World)
    auth_token empty_object target st w w' v :
  Api.post fetch auth_token (set_default_url target) empty_object w = (w', Resolved v) ->
  addresses (snd (handleSetDefault fetch auth_token empty_object true target st w))
    = mark_default target (addresses st).
Proof. intros H. unfold handleSetDefault. cbn [negb]. rewrite H. reflexivity. Qed.

(** Declining the dialog leaves everything as it was. *)
Lemma handleSetDefault_declined (Json World : Type) (fetch : Api.Fetch Json World)
    auth_token empty_object target st w :
  handleSetDefault fetch auth_token empty_object false target st w = (w, st).
Proof. reflexivity. Qed.

End ProfileFacts.

(* ================================================================== *)
(** * The facade and the hook, for every request *)
(* ================================================================== *)

Module FacadeFacts.

Section Recorded.
Variable Json : Type.
Variable World : Type.
Variable fetch : Api.Fetch Json World.
Variable auth_token : option string.

(** A call through the recording network is the call itself, with its
    request added to the log. *)
Lemma call_recording (req : Api.Request Json) (w : World) (log : list (Api.Request Json)) :
  Api.call (Api.recording fetch) req (w, log) =
    ((fst (Api.call fetch req w), (log ++ [req])%list), snd (Api.call fetch req w)).
Proof.
  unfold Api.call, Api.recording. cbn [fst snd]. destruct (fetch req w). reflexivity.
Qed.

Lemma get_recording (u : string) (w : World) (log : list (Api.Request Json)) :
  Api.get (Api.recording fetch) auth_token u (w, log) =
    ((fst (Api.get fetch auth_token u w),
      (log ++ [Api.mkRequest (Api.API_BASE ++ u) "GET"
                 (Api.getAuthHeader auth_token) None])%list),
     snd (Api.get fetch auth_token u w)).
Proof. apply call_recording. Qed.

Lemma post_recording (u : string) (data : Json) (w : World) (log : list (Api.Request Json)) :
  Api.post (Api.recording fetch) auth_token u data (w, log) =
    ((fst (Api.post fetch auth_token u data w),
      (log ++ [Api.mkRequest (Api.API_BASE ++ u) "POST"
                 (Api.json_headers auth_token) (Some data)])%list),
     snd (Api.post fetch auth_token u data w)).
Proof. apply call_recording. Qed.

Lemma put_recording (u : string) (data : Json) (w : World) (log : list (Api.Request Json)) :
  Api.put (Api.recording fetch) auth_token u data (w, log) =
    ((fst (Api.put fetch auth_token u data w),
      (log ++ [Api.mkRequest (Api.API_BASE ++ u) "PUT"
                 (Api.json_headers auth_token) (Some data)])%list),
     snd (Api.put fetch auth_token u data w)).
Proof. apply call_recording. Qed.

Lemma patch_recording (u : string) (data : Json) (w : World) (log : list (Api.Request Json)) :
  Api.patch (Api.recording fetch) auth_token u data (w, log) =
    ((fst (Api.patch fetch auth_token u data w),
      (log ++ [Api.mkRequest (Api.API_BASE ++ u) "PATCH"
                 (Api.json_headers auth_token) (Some data)])%list),
     snd (Api.patch fetch auth_token u data w)).
Proof. apply call_recording. Qed.

Lemma delete_recording (u : string) (w : World) (log : list (Api.Request Json)) :
  Api.del (Api.recording fetch) auth_token u (w, log) =
    ((fst (Api.del fetch auth_token u w),
      (log ++ [Api.mkRequest (Api.API_BASE ++ u) "DELETE"
                 (Api.getAuthHeader auth_token) None])%list),
     snd (Api.del fetch auth_token u w)).
Proof. apply call_recording. Qed.

(** The [Authorization] header is there exactly for a non-empty token. *)
Lemma auth_header_iff (v : string) :
  In ("Authorization", v) (Api.getAuthHeader auth_token) <->
  exists token, auth_token = Some token /\ token <> "" /\ v = "Bearer " ++ token.
Proof.
  unfold Api.getAuthHeader. destruct auth_token as [token|].
  - unfold truthy_string. destruct (String.eqb_spec token "") as [E|E]; simpl.
    + split; [tauto|]. intros (t & Ht & Hne & _). injection Ht as <-. contradiction.
    + split.
      * intros [H|[]]. injection H as <-. now exists token.
      * intros (t & Ht & _ & ->). injection Ht as <-. now left.
  - simpl. split; [tauto|]. intros (t & Ht & _). discriminate.
Qed.

Lemma auth_in_json_headers (v : string) :
  In ("Authorization", v) (Api.json_headers auth_token) <->
  In ("Authorization", v) (Api.getAuthHeader auth_token).
Proof.
  unfold Api.json_headers. rewrite in_app_iff. simpl. split.
  - intros [H|[H|[]]]; [exact H|discriminate].
  - now left.
Qed.
End Recorded.

(** X1. Each of [get], [post], [put], [patch] and [del] hands [fetch]
    exactly one request, whatever comes back (there is no retry after a
    failure): its URL is the base followed by the path, it has a body
    exactly for [post], [put] and [patch], and it carries a [Bearer]
    header exactly when the stored token is a non-empty string. *)
Theorem every_method_sends_one_request :
  forall (Json World : Type) (fetch : Api.Fetch Json World) (auth_token : option string)
         (u : string) (data : Json),
    let auth := Api.getAuthHeader auth_token in
    let json := Api.json_headers auth_token in
    Observed.sends_only (fun W f => Api.get f auth_token u) fetch
      (Api.mkRequest (Api.API_BASE ++ u) "GET" auth None)
    /\ Observed.sends_only (fun W f => Api.post f auth_token u data) fetch
         (Api.mkRequest (Api.API_BASE ++ u) "POST" json (Some data))
    /\ Observed.sends_only (fun W f => Api.put f auth_token u data) fetch
         (Api.mkRequest (Api.API_BASE ++ u) "PUT" json (Some data))
    /\ Observed.sends_only (fun W f => Api.patch f auth_token u data) fetch
         (Api.mkRequest (Api.API_BASE ++ u) "PATCH" json (Some data))
    /\ Observed.sends_only (fun W f => Api.del f auth_token u) fetch
         (Api.mkRequest (Api.API_BASE ++ u) "DELETE" auth None)
    /\ (forall headers v, headers = auth \/ headers = json ->
          (In ("Authorization", v) headers <->
           exists token, auth_token = Some token /\ token <> ""
                         /\ v = "Bearer " ++ token)).
Proof.
  intros Json World fetch auth_token u data auth json.
  split; [intros w log; apply get_recording|].
  split; [intros w log; apply post_recording|].
  split; [intros w log; apply put_recording|].
  split; [intros w log; apply patch_recording|].
  split; [intros w log; apply delete_recording|].
  intros headers v Hh. split.
  - intros H. apply auth_header_iff. destruct Hh as [->| ->]; [exact H|].
    now apply auth_in_json_headers.
  - intros H. destruct Hh as [->| ->]; [|apply auth_in_json_headers];
      now apply auth_header_iff.
Qed.

End FacadeFacts.

Module HookFacts.


End HookFacts.

(* ================================================================== *)
(** * The cart page *)
(* ================================================================== *)

Module CartPageFacts.

Import CartPage.

(** X3. After [fetchCart] the page can always be rendered, with one
    exception: the cart on the page is the reply as it came, and that
    reply has a truthy [subtotal]. (Whenever the page fills in the totals
    itself, or falls back to the empty cart, nothing it reads is
    missing.) *)
Theorem fetchCart_then_renders :
  forall (result : Promise (Item Cart.Cart)) (st : Cart.State),
    let st' := Cart.fetchCart_then result st in
    (exists view, render st' = Normal view /\ view <> Skeleton)
    \/ (exists response cartData,
          result = Resolved response /\ unwrap response = Normal cartData
          /\ truthy_field (Cart.subtotal cartData) = true
          /\ Cart.cart st' = Some cartData).
Proof.
  intros result st st'. subst st'. unfold Cart.fetchCart_then.
  destruct result as [response|e]; simpl.
  2:{ left. eexists. split; [reflexivity|discriminate]. }
  destruct (unwrap response) as [cartData|e] eqn:Eu; simpl.
  2:{ left. eexists. split; [reflexivity|discriminate]. }
  destruct (truthy_field (Cart.subtotal cartData)) eqn:Et; simpl.
  - right. exists response, cartData. repeat split; trivial.
  - left. destruct (Cart.items cartData) as [items|]; simpl.
    + unfold render. simpl. destruct (List.length items =? 0)%nat.
      * eexists. split; [reflexivity|discriminate].
      * eexists. split; [reflexivity|discriminate].
    + eexists. split; [reflexivity|discriminate].
Qed.

(** The exception happens: a reply with a subtotal and items but no tax. *)
Example render_fails_on_partial_totals :
  exists e,
    render (Cart.fetchCart_then
              (Resolved (IBare (Cart.mkCart (Some [Sample.item 1 10%float])
                                  (Some 10%float) None None)))
              Cart.initial)
    = Throw e.
Proof. eexists. reflexivity. Qed.

Section Recorded.
Variable World : Type.
Variable fetch : Api.Fetch Body World.
Variable auth_token : option string.

Lemma fetchCart_recording (st : State) (w : World) (log : list (Api.Request Body)) :
  fetchCart (Api.recording fetch) auth_token st (w, log) =
    ((fst (fetchCart fetch auth_token st w), (log ++ [get_cart auth_token])%list),
     snd (fetchCart fetch auth_token st w)).
Proof.
  unfold fetchCart. rewrite FacadeFacts.get_recording.
  destruct (Api.get fetch auth_token "/cart" w). reflexivity.
Qed.

Lemma fetchCart_page (st : State) (w : World) :
  Cart.loading (page (snd (fetchCart fetch auth_token st w))) = false
  /\ toasts (snd (fetchCart fetch auth_token st w)) = toasts st
  /\ promoApplied (snd (fetchCart fetch auth_token st w)) = promoApplied st
  /\ promoError (snd (fetchCart fetch auth_token st w)) = promoError st
  /\ promoSuccess (snd (fetchCart fetch auth_token st w)) = promoSuccess st.
Proof.
  unfold fetchCart. destruct (Api.get fetch auth_token "/cart" w) as [w' r]. simpl.
  repeat split.
Qed.
End Recorded.

(** X4. The quantity buttons of a cart line. A quantity below 1 is
    dropped: no request, no toast, no change. Otherwise the page sends
    one [PUT] with that quantity; when it resolves, a [GET /cart] follows
    and the success toast is shown; when it rejects, nothing follows, the
    cart on the page stays as it was and the failure toast is shown. *)
Theorem quantity_change_trace :
  forall (World : Type) (fetch : Api.Fetch Body World) (auth_token : option string)
         (item : Cart.CartItem) (newQuantity : Z) (st : State) (w : World)
         (log : list (Api.Request Body)),
    let path := "/cart/" ++ toString (Cart.id item) in
    let put := Api.mkRequest (Api.API_BASE ++ path) "PUT" (Api.json_headers auth_token)
                 (Some (QuantityUpdate newQuantity)) in
    let after := handleQuantityChange (Api.recording fetch) auth_token item newQuantity
                   st (w, log) in
    if newQuantity <? 1 then after = ((w, log), st)
    else
      match snd (Api.put fetch auth_token path (QuantityUpdate newQuantity) w) with
      | Resolved _ =>
          snd (fst after) = (log ++ [put; get_cart auth_token])%list
          /\ Cart.loading (page (snd after)) = false
          /\ toasts (snd after)
             = (toasts st ++ [mkToastCall "Item Quantity Updated"
                                ("Quantity updated to " ++ toString newQuantity)
                                Toasts.toast_success])%list
      | Rejected _ =>
          snd (fst after) = (log ++ [put])%list
          /\ page (snd after) = page st
          /\ toasts (snd after)
             = (toasts st ++ [mkToastCall "Update Failed" "Could not update quantity"
                                Toasts.toast_error])%list
      end.
Proof.
  intros World fetch auth_token item newQuantity st w log path put after.
  subst after. unfold handleQuantityChange, updateQuantity.
  destruct (newQuantity <? 1) eqn:Eq.
  - destruct (1 <=? newQuantity) eqn:E1; [lia|reflexivity].
  - assert (E1 : (1 <=? newQuantity) = true) by lia. rewrite E1.
    fold path. rewrite FacadeFacts.put_recording. fold put.
    destruct (Api.put fetch auth_token path (QuantityUpdate newQuantity) w) as [w1 [v|e]];
      cbn [fst snd await].
    + rewrite fetchCart_recording.
      destruct (fetchCart_page World fetch auth_token st w1) as (Hl & Ht & _).
      destruct (fetchCart fetch auth_token st w1) as [w2 st2]. cbn [fst snd] in *.
      split; [now rewrite <- app_assoc|]. split; [exact Hl|]. simpl. now rewrite Ht.
    + repeat split.
Qed.

(** X5. Removing a line: one [DELETE]; when it resolves, a [GET /cart]
    follows and the success toast is shown; when it rejects, nothing
    follows, the cart on the page stays as it was (the line is still
    there) and the failure toast is shown. *)
Theorem remove_item_trace :
  forall (World : Type) (fetch : Api.Fetch Body World) (auth_token : option string)
         (item : Cart.CartItem) (st : State) (w : World) (log : list (Api.Request Body)),
    let path := "/cart/" ++ toString (Cart.id item) in
    let delete := Api.mkRequest (Api.API_BASE ++ path) "DELETE"
                    (Api.getAuthHeader auth_token) None in
    let after := handleRemove (Api.recording fetch) auth_token item st (w, log) in
    match snd (Api.del fetch auth_token path w) with
    | Resolved _ =>
        snd (fst after) = (log ++ [delete; get_cart auth_token])%list
        /\ Cart.loading (page (snd after)) = false
        /\ toasts (snd after)
           = (toasts st ++ [mkToastCall "Item Removed" "Item removed from cart"
                              Toasts.toast_success])%list
    | Rejected _ =>
        snd (fst after) = (log ++ [delete])%list
        /\ page (snd after) = page st
        /\ toasts (snd after)
           = (toasts st ++ [mkToastCall "Removal Failed" "Could not remove item"
                              Toasts.toast_error])%list
    end.
Proof.
  intros World fetch auth_token item st w log path delete after.
  subst after. unfold handleRemove, removeItem.
  fold path. rewrite FacadeFacts.delete_recording. fold delete.
  destruct (Api.del fetch auth_token path w) as [w1 [v|e]]; cbn [fst snd await].
  - rewrite fetchCart_recording.
    destruct (fetchCart_page World fetch auth_token st w1) as (Hl & Ht & _).
    destruct (fetchCart fetch auth_token st w1) as [w2 st2]. cbn [fst snd] in *.
    split; [now rewrite <- app_assoc|]. split; [exact Hl|]. simpl. now rewrite Ht.
  - repeat split.
Qed.


End CartPageFacts.

(* ================================================================== *)
(** * Toasts *)
(* ================================================================== *)

Module ToastFacts.

Import Toasts.




(** Two toasts in a row: the second outlives the timer of the first. *)
Example second_toast_outlives_first_timer :
  let p := showToast 0 "Item Removed" "Item removed from cart" toast_success None initial in
  let p := showToast 2000 "Update Failed" "Could not update quantity" toast_error None p in
  visible 3500 p = Some (mkToast "Update Failed" "Could not update quantity" toast_error 3000)
  /\ visible 5000 p = None.
Proof. split; reflexivity. Qed.

(** A duration past the 32-bit range: the toast is gone at once. *)
Example overlong_toast_is_taken_down_at_once :
  visible 0 (showToast 0 "Item Removed" "Item removed from cart" toast_success
               (Some 3000000000) initial) = None.
Proof. reflexivity. Qed.

End ToastFacts.

(* ================================================================== *)
(** * Checkout *)
(* ================================================================== *)

Module CheckoutFacts.

Import Checkout.


(** X9. The body of an order. Billing and shipping address are always
    the same. A saved address is sent by its id alone, a new one by its
    fields alone, never both; and whenever the shipping step let the
    customer continue, the order names an address one way or the other. *)
Theorem order_names_one_address :
  forall (st : State),
    let order := orderData st in
    billing_address order = shipping_address order
    /\ billing_address_id order = shipping_address_id order
    /\ payment_method order = paymentMethod st
    /\ (billing_address_id order = None \/ billing_address order = None)
    /\ (useNewAddress st = true ->
        billing_address order = Some (FromForm (newAddress st))
        /\ billing_address_id order = None)
    /\ (useNewAddress st = false -> truthy_id (selectedAddress st) = true ->
        billing_address_id order = selectedAddress st)
    /\ (can_continue st = true ->
        billing_address order <> None \/ billing_address_id order <> None).
Proof.
  intros st order. subst order. unfold orderData, can_continue.
  destruct (useNewAddress st); simpl.
  - repeat split; intros; try discriminate; try (now left); left; discriminate.
  - destruct (truthy_id (selectedAddress st)) eqn:Et; simpl.
    + repeat split; intros; try discriminate; try (now right).
      all: right; destruct (selectedAddress st); discriminate.
    + repeat split; intros; try discriminate; now left.
Qed.

(** X10. After the reply to the order [isProcessing] is false again. The
    order counts as placed only for a reply with a truthy [id], and then
    the redirect is due 3000 ms later; a rejection shows an error; a reply
    without an [id] (an error body) changes nothing else: no confirmation
    and no error message either. *)
Theorem order_reply_outcomes :
  forall (t : Z) (result : Promise OrderReply) (st : State),
    let st' := handlePlaceOrder_then t result st in
    isProcessing st' = false
    /\ match result with
       | Resolved (OObject (Some id)) =>
           if id =? 0 then st' = setIsProcessing false st
           else orderPlaced st' = true /\ redirect st' = Some (t + 3000)
                /\ cardErrors st' = cardErrors st
       | Resolved (OObject None) => st' = setIsProcessing false st
       | Resolved ONull =>
           orderPlaced st' = orderPlaced st /\ cardErrors st' <> ""
       | Rejected e =>
           orderPlaced st' = orderPlaced st
           /\ cardErrors st'
              = or_string (message e) "Failed to process payment. Please try again."
       end.
Proof.
  intros t result st st'. subst st'. split; [reflexivity|].
  unfold handlePlaceOrder_then.
  destruct result as [[|[id|]]|e]; simpl.
  - split; [reflexivity|discriminate].
  - destruct (id =? 0); simpl; [reflexivity|repeat split].
  - reflexivity.
  - split; reflexivity.
Qed.

End CheckoutFacts.

(* ================================================================== *)
(** * The cart badge *)
(* ================================================================== *)

Module BadgeFacts.

(** X11. The two readers of [GET /cart] that count the lines of the cart
    agree on a bare cart and differ on an enveloped one: the souvenir
    page unwraps [data] and counts its items, the header reads the reply
    itself and shows 0. Both show 0 when the request fails. *)
Theorem badge_counts_differ_on_envelope :
  forall (c : Cart.Cart) (e : Error) (count : Z) (st : Souvenirs.State),
    Header.fetchCart_then (Resolved (IBare c)) count = Header.items_length c
    /\ Souvenirs.cartCount (Souvenirs.fetchCartCount_then (Resolved (IBare c)) st)
       = Header.items_length c
    /\ Header.fetchCart_then (Resolved (IWrapped c)) count = 0
    /\ Souvenirs.cartCount (Souvenirs.fetchCartCount_then (Resolved (IWrapped c)) st)
       = Header.items_length c
    /\ Header.fetchCart_then (Rejected e) count = 0
    /\ Souvenirs.cartCount (Souvenirs.fetchCartCount_then (Rejected e) st) = 0.
Proof. intros c e count st. repeat split. Qed.

End BadgeFacts.

(* ================================================================== *)
(** * The souvenir page *)
(* ================================================================== *)

Module SouvenirFacts.

Import Souvenirs.

Section Sorting.
Variable A : Type.
Variable after : A -> A -> bool.

Lemma insert_permutation (x : A) (l : list A) : Permutation (insert after x l) (x :: l).
Proof.
  induction l as [|y l IH]; simpl; [reflexivity|].
  destruct (after x y); [|reflexivity].
  rewrite IH. apply perm_swap.
Qed.

Lemma sort_permutation (l : list A) : Permutation (sort after l) l.
Proof.
  induction l as [|x l IH]; simpl; [reflexivity|].
  rewrite insert_permutation. now apply perm_skip.
Qed.

Lemma filter_filter (f g : A -> bool) (l : list A) :
  filter g (filter f l) = filter (fun x => f x && g x) l.
Proof.
  induction l as [|x l IH]; simpl; [reflexivity|].
  destruct (f x); simpl; [|exact IH]. rewrite IH. reflexivity.
Qed.
End Sorting.

Section Text.
Variable toLowerCase : string -> string.
Variable localeCompare : string -> string -> Z.

Lemma applyFilters_sorted_matches filters searchTerm items :
  applyFilters toLowerCase localeCompare filters searchTerm items
  = sort (after localeCompare (sortBy filters))
      (filter (Observed.souvenir_matches toLowerCase filters searchTerm) items).
Proof.
  unfold applyFilters, Observed.souvenir_matches. cbv zeta.
  rewrite !filter_filter. f_equal. apply filter_ext. intros item.
  now rewrite !andb_assoc.
Qed.
End Text.

(** X12. The souvenirs on the page are exactly the fetched ones that
    pass the filters that are set (category, customizable, seasonal,
    search term in name or description), each as often as it was fetched:
    whatever the order chosen, sorting neither drops nor repeats an
    item. *)
Theorem shown_souvenirs_are_the_matches :
  forall (toLowerCase : string -> string) (localeCompare : string -> string -> Z)
         (filters : FilterOptions) (searchTerm : string) (items : list Souvenir),
    Permutation (applyFilters toLowerCase localeCompare filters searchTerm items)
      (filter (Observed.souvenir_matches toLowerCase filters searchTerm) items).
Proof.
  intros. rewrite applyFilters_sorted_matches. apply sort_permutation.
Qed.

(** The comparator of the featured order puts an unfeatured item behind a
    featured one, and nothing else. *)
Lemma behind_spec (a b : Souvenir) :
  featured_after a b = negb (is_featured a) && is_featured b.
Proof. unfold featured_after. now destruct (is_featured a), (is_featured b). Qed.

Lemma insert_featured (x : Souvenir) (l : list Souvenir) :
  is_featured x = true -> insert featured_after x l = x :: l.
Proof.
  intros Hx. destruct l as [|y l]; simpl; [reflexivity|].
  now rewrite behind_spec, Hx.
Qed.

Lemma insert_unfeatured (x : Souvenir) (front back : list Souvenir) :
  is_featured x = false ->
  Forall (fun y => is_featured y = true) front ->
  Forall (fun y => is_featured y = false) back ->
  insert featured_after x (front ++ back) = (front ++ x :: back)%list.
Proof.
  intros Hx Hf Hb. induction Hf as [|y front Hy Hf IH]; simpl.
  - destruct Hb as [|y back Hy Hb]; simpl; [reflexivity|].
    now rewrite behind_spec, Hx, Hy.
  - now rewrite behind_spec, Hx, Hy, IH.
Qed.

Lemma sort_featured_first (l : list Souvenir) :
  sort featured_after l
  = (filter is_featured l ++ filter (fun item => negb (is_featured item)) l)%list.
Proof.
  induction l as [|x l IH]; simpl; [reflexivity|]. rewrite IH.
  destruct (is_featured x) eqn:Hx; simpl.
  - now apply insert_featured.
  - apply insert_unfeatured; trivial.
    + apply Forall_forall. intros y Hy. now apply filter_In in Hy.
    + apply Forall_forall. intros y Hy. apply filter_In in Hy.
      now apply negb_true_iff.
Qed.

(** X13. In the featured order (the default, and the order of any sort
    key the page does not know) the featured matches come first and the
    others after them, both in the order the server listed them. *)
Theorem featured_first_in_listed_order :
  forall (toLowerCase : string -> string) (localeCompare : string -> string -> Z)
         (filters : FilterOptions) (searchTerm : string) (items : list Souvenir),
    ~ In (sortBy filters) ["price_asc"; "price_desc"; "name_asc"] ->
    let matches := filter (Observed.souvenir_matches toLowerCase filters searchTerm) items in
    applyFilters toLowerCase localeCompare filters searchTerm items
    = (filter is_featured matches
       ++ filter (fun item => negb (is_featured item)) matches)%list.
Proof.
  intros toLowerCase localeCompare filters searchTerm items Hsort matches.
  rewrite applyFilters_sorted_matches. fold matches.
  rewrite <- sort_featured_first. f_equal.
  unfold after.
  destruct (String.eqb_spec (sortBy filters) "price_asc") as [E|_];
    [exfalso; apply Hsort; rewrite E; simpl; tauto|].
  destruct (String.eqb_spec (sortBy filters) "price_desc") as [E|_];
    [exfalso; apply Hsort; rewrite E; simpl; tauto|].
  destruct (String.eqb_spec (sortBy filters) "name_asc") as [E|_];
    [exfalso; apply Hsort; rewrite E; simpl; tauto|].
  reflexivity.
Qed.

Lemma featured_first_in_listed_order_witness :
  applyFilters Samples.toLowerCase Samples.localeCompare (filters initial) "" Samples.shelf
  = [Samples.souvenir 2 "Clay mug" 10%float true; Samples.souvenir 4 "Tea towel" 8%float true;
     Samples.souvenir 1 "Magnet" 4%float false; Samples.souvenir 3 "Postcard" 2%float false].
Proof.
  apply (featured_first_in_listed_order Samples.toLowerCase Samples.localeCompare
           (filters initial) "" Samples.shelf).
  simpl. intros [H|[H|[H|[]]]]; discriminate.
Defined.

End SouvenirFacts.

(* ================================================================== *)
(** * The catalog page: reset, sort and scroll *)
(* ================================================================== *)

Module CatalogFacts.

Import Products Catalog.

Lemma run_timers_idle (t : Z) (p : Page) : timer p = None -> run_timers t p = p.
Proof. intros H. unfold run_timers. now rewrite H. Qed.

(** A timer set while the page was loading does nothing when it runs. *)
Lemma run_timers_seen_loading (t : Z) (st : State) (tm : Timer) (log : list string) :
  loading (seen tm) = true ->
  state (run_timers t (mkPage st (Some tm) log)) = st
  /\ requests (run_timers t (mkPage st (Some tm) log)) = log.
Proof.
  intros H. unfold run_timers, fire. cbn [timer state requests].
  destruct (due tm <=? t); [rewrite H|]; split; reflexivity.
Qed.

(** X14. [resetFilters], with no timer pending: the one request it sends
    is built from the filters that are being discarded, not from the
    defaults; the page then holds the default filters and an empty URL
    query; and no later timer sends a request with the defaults, because
    the timer the reset arms was set while the page was loading. *)
Theorem reset_fetches_with_discarded_filters :
  forall (p : Page) (t t' : Z),
    timer (run_timers t p) = None ->
    let before := run_timers t p in
    let after := run_timers t' (resetFilters t p) in
    requests after = (requests before ++ [products_url (filters (state before)) 1])%list
    /\ filters (state after) = resetFilters_value
    /\ searchParams (state after) = URLSearchParams.empty
    /\ loading (state after) = true.
Proof.
  intros p t t' Hidle before after. subst after. unfold resetFilters. fold before.
  fold before in Hidle. rewrite Hidle. unfold debounce_effect.
  destruct (deps_eqb _ _).
  - rewrite run_timers_idle by reflexivity. repeat split.
  - match goal with |- context [run_timers t' (mkPage ?st (Some ?tm) ?log)] =>
      destruct (run_timers_seen_loading t' st tm log eq_refl) as [Hs Hr] end.
    rewrite Hs, Hr. repeat split.
Qed.

Lemma reset_fetches_with_discarded_filters_witness :
  let before := run_timers 1000 Samples.filtered_page in
  let after := run_timers 5000 (resetFilters 1000 Samples.filtered_page) in
  requests after = (requests before ++ [products_url (filters (state before)) 1])%list
  /\ filters (state after) = resetFilters_value
  /\ searchParams (state after) = URLSearchParams.empty
  /\ loading (state after) = true.
Proof.
  apply (reset_fetches_with_discarded_filters Samples.filtered_page 1000 5000).
  reflexivity.
Defined.

(** The request of the reset in the sample still asks for the category
    that was typed. *)
Example reset_sample_request :
  requests (run_timers 5000 (resetFilters 1000 Samples.filtered_page))
  = [ "/products?sort_field=created&sort_direction=at&page=1&per_page=12";
      "/products?category=mug&sort_field=created&sort_direction=at&page=1&per_page=12";
      "/products?category=mug&sort_field=created&sort_direction=at&page=1&per_page=12" ].
Proof. reflexivity. Qed.

(** X15. Choosing another sort order, with no timer pending, stores the
    key and sends nothing, then or later: the sort key is not a dependency
    of the debounce effect, and the handler itself does not fetch. *)
Theorem sort_change_sends_nothing :
  forall (p : Page) (t t' : Z) (value : string),
    timer (run_timers t p) = None ->
    let after := run_timers t' (edit t (handleSortChange value) p) in
    requests after = requests (run_timers t p)
    /\ products (state after) = products (state (run_timers t p))
    /\ sortBy (filters (state after)) = value.
Proof.
  intros p t t' value Hidle after. subst after. unfold edit.
  rewrite Hidle. unfold debounce_effect. cbn [filters setFilters].
  rewrite DebounceFacts.deps_eqb_sort.
  rewrite run_timers_idle by reflexivity. repeat split.
Qed.

Lemma sort_change_sends_nothing_witness :
  let after := run_timers 5000 (edit 1000 (handleSortChange "price_asc") Samples.filtered_page) in
  requests after = requests (run_timers 1000 Samples.filtered_page)
  /\ products (state after) = products (state (run_timers 1000 Samples.filtered_page))
  /\ sortBy (filters (state after)) = "price_asc".
Proof.
  apply (sort_change_sends_nothing Samples.filtered_page 1000 5000 "price_asc").
  reflexivity.
Defined.

(** A text without an underscore is one part, and splits off in front. *)
Lemma split_underscore_front (a rest : string) :
  split_underscore a = [a] ->
  split_underscore (a ++ String "_"%char rest) = a :: split_underscore rest.
Proof.
  induction a as [|c a IH]; intros H; [reflexivity|].
  cbn [split_underscore String.append] in H |- *.
  destruct (Ascii.eqb c "_"); [discriminate|].
  destruct (split_underscore a) as [|h tl] eqn:Ea.
  - injection H as H. subst a. discriminate Ea.
  - injection H as H1 H2. subst. now rewrite IH.
Qed.

Lemma get_append_other (k name value : string) (params : URLSearchParams.t) :
  (name =? k)%string = false ->
  URLSearchParams.get k (URLSearchParams.append name value params)
  = URLSearchParams.get k params.
Proof.
  intros H. unfold URLSearchParams.append.
  induction params as [|[k' v'] params IH]; simpl; [now rewrite H|].
  now destruct (k' =? k)%string.
Qed.

Lemma get_append_new (k value : string) (params : URLSearchParams.t) :
  URLSearchParams.get k params = None ->
  URLSearchParams.get k (URLSearchParams.append k value params) = Some value.
Proof.
  unfold URLSearchParams.append.
  induction params as [|[k' v'] params IH]; simpl; [now rewrite String.eqb_refl|].
  destruct (k' =? k)%string; [discriminate|exact IH].
Qed.

Lemma get_when_other (k name value : string) (b : bool) (params : URLSearchParams.t) :
  (name =? k)%string = false ->
  URLSearchParams.get k (URLSearchParams.when b (URLSearchParams.append name value) params)
  = URLSearchParams.get k params.
Proof. intros H. destruct b; [now apply get_append_other|reflexivity]. Qed.

(** X16. The sort parameters of the query are the first two parts of
    the sort key at its underscores: the field is the text before the
    first underscore and the direction the text after it, up to a second
    underscore if there is one. (So the default key, whose field has an
    underscore in it, does not ask for the direction it names.) *)
Theorem sort_parameters_are_first_two_parts :
  forall (filters : FilterOptions) (page : Z) (field direction : string),
    split_underscore field = [field] ->
    split_underscore direction = [direction] ->
    (sortBy filters = field ++ "_" ++ direction
     \/ exists rest, sortBy filters = field ++ "_" ++ direction ++ "_" ++ rest) ->
    URLSearchParams.get "sort_field" (query_params filters page) = Some field
    /\ URLSearchParams.get "sort_direction" (query_params filters page) = Some direction.
Proof.
  intros filters page field direction Hf Hd Hs. unfold query_params.
  assert (E : exists tl, split_underscore (sortBy filters) = field :: direction :: tl).
  { destruct Hs as [Hs|[rest Hs]]; rewrite Hs; cbn [String.append].
    - rewrite (split_underscore_front field _ Hf), Hd. now exists [].
    - rewrite (split_underscore_front field _ Hf), (split_underscore_front direction _ Hd).
      now eexists. }
  destruct E as [tl ->]. cbn [nth_error or_undefined].
  split.
  - rewrite !get_append_other by reflexivity.
    rewrite get_append_new; [reflexivity|].
    now rewrite !get_when_other by reflexivity.
  - rewrite !get_append_other by reflexivity.
    rewrite get_append_new; [reflexivity|].
    rewrite get_append_other by reflexivity.
    now rewrite !get_when_other by reflexivity.
Qed.

Lemma sort_parameters_are_first_two_parts_witness :
  URLSearchParams.get "sort_field" (query_params resetFilters_value 1) = Some "created"
  /\ URLSearchParams.get "sort_direction" (query_params resetFilters_value 1) = Some "at".
Proof.
  apply (sort_parameters_are_first_two_parts resetFilters_value 1 "created" "at");
    [reflexivity|reflexivity|].
  right. exists "desc". reflexivity.
Defined.

(** X17. The page an intersection asks for. A request goes out only while
    more pages are expected, nothing is loading and the list is not
    empty; its page [n] is at least 1 and satisfies
    [12 * (n - 1) <= length < 12 * n]: the page after the last full dozen
    of products on the page. *)
Theorem intersection_asks_page_after_full_dozens :
  forall (st : State) (page : Z),
    intersection_request st = Some page ->
    hasMore st = true /\ loading st = false /\ products st <> []
    /\ 1 <= page
    /\ 12 * (page - 1) <= Z.of_nat (List.length (products st)) < 12 * page.
Proof.
  intros st page. unfold intersection_request.
  destruct (hasMore st), (loading st); cbn [negb orb]; try discriminate.
  destruct (products st) as [|x l] eqn:E; [discriminate|].
  remember (Z.of_nat (List.length (x :: l))) as n eqn:En.
  assert (Hn : 0 <= n) by (rewrite En; apply Nat2Z.is_nonneg).
  intros H. injection H as <-.
  pose proof (Z.div_mod n 12) as Hd. pose proof (Z.mod_pos_bound n 12) as Hm.
  repeat split; try discriminate; lia.
Qed.

Lemma intersection_asks_page_after_full_dozens_witness :
  hasMore (setHasMore true (state Sample.loaded_page)) = true
  /\ loading (setHasMore true (state Sample.loaded_page)) = false
  /\ products (setHasMore true (state Sample.loaded_page)) <> []
  /\ 1 <= 1
  /\ 12 * (1 - 1)
     <= Z.of_nat (List.length (products (setHasMore true (state Sample.loaded_page))))
     < 12 * 1.
Proof.
  apply (intersection_asks_page_after_full_dozens
           (setHasMore true (state Sample.loaded_page)) 1).
  reflexivity.
Defined.

Lemma setLoading_same (st : State) : loading st = false -> setLoading false st = st.
Proof. intros H. destruct st. simpl in H. subst. reflexivity. Qed.

Lemma intersection_request_idle (st : State) (page : Z) :
  intersection_request st = Some page -> loading st = false.
Proof.
  unfold intersection_request. destruct (hasMore st), (loading st); simpl; try discriminate.
  reflexivity.
Qed.

(** X18. A scroll request for a later page that fails changes nothing at
    all: the list and [hasMore] stay (and [loading] was not set for it),
    so the next intersection of the last card asks for the very same page
    again. *)
Theorem failed_page_is_asked_again :
  forall (st : State) (page : Z) (e : Error),
    intersection_request st = Some page ->
    page <> 1 ->
    fetchProducts_then page (Rejected e) st = st
    /\ intersection_request (fetchProducts_then page (Rejected e) st) = Some page.
Proof.
  intros st page e Hreq Hpage.
  assert (E : fetchProducts_then page (Rejected e) st = st).
  { unfold fetchProducts_then. simpl. destruct (page =? 1) eqn:Ep; [lia|].
    apply setLoading_same. exact (intersection_request_idle st page Hreq). }
  now rewrite E.
Qed.

Lemma failed_page_is_asked_again_witness :
  fetchProducts_then 2 (Rejected (mkError "TypeError" "Failed to fetch"))
    (state Samples.first_dozen) = state Samples.first_dozen
  /\ intersection_request
       (fetchProducts_then 2 (Rejected (mkError "TypeError" "Failed to fetch"))
          (state Samples.first_dozen)) = Some 2.
Proof.
  apply (failed_page_is_asked_again (state Samples.first_dozen) 2
           (mkError "TypeError" "Failed to fetch")).
  - reflexivity.
  - discriminate.
Defined.

Lemma scroll_deps_eqb_refl (st : State) : scroll_deps_eqb st st = true.
Proof.
  unfold scroll_deps_eqb. now rewrite !Bool.eqb_reflx, Nat.eqb_refl.
Qed.

Lemma catalog_rendered (step : Page -> Page) (w : Watched) :
  catalog (rendered step w) = step (catalog w).
Proof. reflexivity. Qed.

Lemma passed_idle (t : Z) (w : Watched) : timer (catalog w) = None -> passed t w = w.
Proof.
  intros H. unfold passed, rendered. rewrite (run_timers_idle t _ H).
  unfold scroll_effect. rewrite scroll_deps_eqb_refl. now destruct w.
Qed.

Lemma intersect_idle (t : Z) (w : Watched) (seen : State) :
  timer (catalog w) = None ->
  observer w = Some seen ->
  intersect t w
  = mkWatched
      (mkPage (state (catalog w)) None
         (requests (catalog w)
          ++ [products_url (filters seen)
                (Z.of_nat (List.length (products seen)) / 12 + 1)])%list)
      (Some seen).
Proof.
  intros Hidle Hobs. unfold intersect. rewrite (passed_idle t w Hidle), Hobs, Hidle.
  reflexivity.
Qed.

(** X19. Nothing marks a scroll request as being in flight: [loading]
    stays false while it is out and the observer stays as it is, so a
    second intersection of the last card before the reply sends the same
    request again, and when both replies arrive the products of that page
    are on the list twice. The request is the one of the render that
    installed the observer: the page after the products of that render,
    with the filters of that render. *)
Theorem scroll_request_is_not_guarded :
  forall (w : Watched) (t t' : Z) (seen : State) (data : list Product)
         (meta : option Meta),
    timer (catalog w) = None ->
    observer w = Some seen ->
    let page := Z.of_nat (List.length (products seen)) / 12 + 1 in
    page <> 1 ->
    let url := products_url (filters seen) page in
    let asked := intersect t' (intersect t w) in
    let reply := Resolved (LObject (Some data) meta) in
    let shown := responded t' page reply (responded t' page reply asked) in
    requests (catalog asked) = (requests (catalog w) ++ [url; url])%list
    /\ state (catalog asked) = state (catalog w)
    /\ observer asked = Some seen
    /\ products (state (catalog shown)) = (products (state (catalog w)) ++ data ++ data)%list.
Proof.
  intros w t t' seen data meta Hidle Hobs page Hpage url asked reply shown.
  assert (Ea : asked = mkWatched (mkPage (state (catalog w)) None
                                    (requests (catalog w) ++ [url; url])%list)
                         (Some seen)).
  { subst asked url page. rewrite (intersect_idle t w seen Hidle Hobs).
    rewrite (intersect_idle t' _ seen); [|reflexivity|reflexivity].
    cbn [catalog state requests]. now rewrite <- app_assoc. }
  rewrite Ea. cbn [catalog state requests observer].
  split; [reflexivity|]. split; [reflexivity|]. split; [reflexivity|].
  subst shown. unfold responded. rewrite !catalog_rendered.
  rewrite Ea. unfold passed. rewrite !catalog_rendered. cbn [catalog].
  unfold respond. rewrite run_timers_idle by reflexivity. cbn [state timer requests].
  rewrite run_timers_idle by reflexivity. cbn [state timer requests].
  rewrite run_timers_idle by reflexivity. cbn [state timer requests].
  rewrite run_timers_idle by reflexivity. cbn [state timer requests].
  subst reply. unfold fetchProducts_then. simpl.
  destruct (page =? 1) eqn:Ep; [lia|]. simpl. now rewrite <- app_assoc.
Qed.

Lemma scroll_request_is_not_guarded_witness :
  let seen := state (catalog Samples.watched_dozen) in
  let url := products_url (filters seen) 2 in
  let asked := intersect 1200 (intersect 1000 Samples.watched_dozen) in
  let reply := Resolved (LObject (Some [Sample.product 13]) None) in
  let shown := responded 1200 2 reply (responded 1200 2 reply asked) in
  requests (catalog asked) = (requests (catalog Samples.watched_dozen) ++ [url; url])%list
  /\ state (catalog asked) = state (catalog Samples.watched_dozen)
  /\ observer asked = Some seen
  /\ products (state (catalog shown))
     = (products (state (catalog Samples.watched_dozen))
        ++ [Sample.product 13] ++ [Sample.product 13])%list.
Proof.
  apply (scroll_request_is_not_guarded Samples.watched_dozen 1000 1200
           (state (catalog Samples.watched_dozen)) [Sample.product 13] None).
  - reflexivity.
  - reflexivity.
  - discriminate.
Defined.

(** The closure of the observer is not renewed by a change of the sort
    order: the page holds the new key, the scroll request still asks for
    the old order. *)
Example scroll_request_after_sort_change :
  let w := intersect 1200 (edited 1000 (handleSortChange "price_asc") Samples.watched_dozen) in
  sortBy (filters (state (catalog w))) = "price_asc"
  /\ requests (catalog w)
     = [ "/products?sort_field=created&sort_direction=at&page=1&per_page=12";
         "/products?sort_field=created&sort_direction=at&page=2&per_page=12" ].
Proof. split; reflexivity. Qed.

End CatalogFacts.

(* ================================================================== *)
(** * The admin lists: filters, status changes, selection *)
(* ================================================================== *)

Module UsersFacts.

Import Users UsersActions.

(** X20. [resetFilters] of the user list clears the three filters on the
    page, but the one request it sends is built from the filters as they
    were: a search term that was set is still in its query. *)
Theorem users_reset_asks_with_old_filters :
  forall (World : Type) (fetch : Api.Fetch (Paginated User) World)
         (auth_token : option string) (st : State) (w : World)
         (log : list (Api.Request (Paginated User))),
    let after := resetFilters (Api.recording fetch) auth_token st (w, log) in
    snd (fst after)
      = (log ++ [Api.mkRequest (Api.API_BASE ++ users_url st 1) "GET"
                   (Api.getAuthHeader auth_token) None])%list
    /\ searchTerm (snd after) = ""
    /\ statusFilter (snd after) = "all"
    /\ dateRange (snd after) = ("", "")
    /\ (searchTerm st <> "" ->
        URLSearchParams.get "search" (query_params st 1) = Some (searchTerm st)).
Proof.
  intros World fetch auth_token st w log after. subst after.
  unfold resetFilters, fetchUsers_from. rewrite FacadeFacts.get_recording.
  destruct (Api.get fetch auth_token (users_url st 1) w) as [w' r]. cbn [fst snd].
  split; [reflexivity|].
  assert (K : forall page result s,
             searchTerm (fetchUsers_then page result s) = searchTerm s
             /\ statusFilter (fetchUsers_then page result s) = statusFilter s
             /\ dateRange (fetchUsers_then page result s) = dateRange s).
  { intros page result s. unfold fetchUsers_then.
    destruct result as [response|e]; simpl; [|repeat split].
    destruct (items_of_unwrapped response); simpl; [|repeat split].
    destruct (outer_meta response); simpl; repeat split. }
  destruct (K 1 r (setLoading true (setDateRange ("", "")
              (setStatusFilter "all" (setSearchTerm "" st))))) as (K1 & K2 & K3).
  rewrite K1, K2, K3. repeat split.
  intros Hne. unfold query_params.
  rewrite !CatalogFacts.get_when_other by reflexivity.
  unfold truthy_string. destruct (String.eqb_spec (searchTerm st) ""); [contradiction|].
  reflexivity.
Qed.

(** X21. Suspending or reactivating a user: one [PATCH], to [activate]
    for a suspended user and to [suspend] otherwise, with an empty object
    as its body. When it resolves the current page is fetched again; when
    it rejects nothing follows and the page does not change at all: no
    banner tells the administrator. *)
Theorem suspend_user_trace :
  forall (World : Type) (fetch : Api.Fetch (Paginated User) World)
         (auth_token : option string) (userId : Z) (currentStatus : bool)
         (st : State) (w : World) (log : list (Api.Request (Paginated User))),
    let path := if currentStatus then activate_url userId else suspend_url userId in
    let patch := Api.mkRequest (Api.API_BASE ++ path) "PATCH"
                   (Api.json_headers auth_token) (Some (PObject None None)) in
    let after := handleSuspendUser (Api.recording fetch) auth_token userId currentStatus
                   st (w, log) in
    match snd (Api.patch fetch auth_token path (PObject None None) w) with
    | Resolved _ =>
        snd (fst after)
          = (log ++ [patch;
                     Api.mkRequest (Api.API_BASE ++ users_url st (currentPage st)) "GET"
                       (Api.getAuthHeader auth_token) None])%list
        /\ loading (snd after) = false
    | Rejected _ =>
        snd (fst after) = (log ++ [patch])%list /\ snd after = st
    end.
Proof.
  intros World fetch auth_token userId currentStatus st w log path patch after.
  subst after. unfold handleSuspendUser.
  assert (E : (if currentStatus
               then Api.patch (Api.recording fetch) auth_token (activate_url userId)
                      (PObject None None) (w, log)
               else Api.patch (Api.recording fetch) auth_token (suspend_url userId)
                      (PObject None None) (w, log))
              = Api.patch (Api.recording fetch) auth_token path (PObject None None) (w, log)).
  { subst path. now destruct currentStatus. }
  rewrite E, FacadeFacts.patch_recording. fold patch.
  destruct (Api.patch fetch auth_token path (PObject None None) w) as [w1 [v|e]];
    cbn [fst snd await].
  - unfold fetchUsers_from. rewrite FacadeFacts.get_recording.
    destruct (Api.get fetch auth_token _ w1) as [w2 r]. cbn [fst snd].
    split; [now rewrite <- app_assoc|reflexivity].
  - split; reflexivity.
Qed.

End UsersFacts.

Module SelectionFacts.

Import ProductsAdmin ProductsAdminActions.

Lemma in_selection_filter (productId x : Z) (prev : list Z) :
  In x (filter (fun id => negb (id =? productId)) prev) <-> In x prev /\ x <> productId.
Proof.
  rewrite filter_In, negb_true_iff, Z.eqb_neq. reflexivity.
Qed.

Lemma existsb_eqb_in (productId : Z) (prev : list Z) :
  existsb (Z.eqb productId) prev = true <-> In productId prev.
Proof.
  rewrite existsb_exists. split.
  - intros (x & Hx & E). apply Z.eqb_eq in E. now subst.
  - intros H. exists productId. split; [exact H|apply Z.eqb_refl].
Qed.

(** X22. A click on a product's checkbox flips the membership of that
    product in the selection and of no other; a selection without
    repetitions stays without repetitions, so that a bulk action visits
    each selected product once. *)
Theorem checkbox_flips_one_membership :
  forall (productId : Z) (st : State),
    NoDup (selectedProducts st) ->
    let st' := toggleProductSelection productId st in
    NoDup (selectedProducts st')
    /\ (In productId (selectedProducts st') <-> ~ In productId (selectedProducts st))
    /\ (forall x, x <> productId ->
          (In x (selectedProducts st') <-> In x (selectedProducts st)))
    /\ products st' = products st.
Proof.
  intros productId st Hnd st'. subst st'. unfold toggleProductSelection.
  cbn [selectedProducts setSelectedProducts products].
  destruct (existsb (Z.eqb productId) (selectedProducts st)) eqn:E.
  - apply existsb_eqb_in in E. split; [now apply NoDup_filter|].
    split; [|split; [|reflexivity]].
    + rewrite in_selection_filter. tauto.
    + intros x Hx. rewrite in_selection_filter. tauto.
  - assert (Hn : ~ In productId (selectedProducts st)).
    { intros H. apply existsb_eqb_in in H. congruence. }
    split; [|split; [|split; [|reflexivity]]].
    + apply NoDup_app; [exact Hnd|repeat constructor; simpl; tauto|].
      intros x Hx [<-|[]]. contradiction.
    + rewrite in_app_iff. simpl. tauto.
    + intros x Hx. rewrite in_app_iff. simpl. split; [|tauto].
      intros [H|[H|[]]]; [exact H|]. now contradiction Hx.
Qed.

Lemma checkbox_flips_one_membership_witness :
  let st' := toggleProductSelection 2 Sample.admin_page in
  NoDup (selectedProducts st')
  /\ (In 2 (selectedProducts st') <-> ~ In 2 (selectedProducts Sample.admin_page))
  /\ (forall x, x <> 2 ->
        (In x (selectedProducts st') <-> In x (selectedProducts Sample.admin_page)))
  /\ products st' = products Sample.admin_page.
Proof.
  apply (checkbox_flips_one_membership 2 Sample.admin_page).
  simpl. repeat constructor; simpl; intros H; decompose [or] H; discriminate || tauto.
Defined.

(** X23. The select-all checkbox compares two lengths. On a page whose
    products have distinct ids, with a selection without repetitions
    taken from them, that is the right test: the click clears the
    selection exactly when every product of the page is selected, and
    selects every product otherwise. *)
Theorem select_all_by_length_is_sound :
  forall (st : State),
    NoDup (map id (products st)) ->
    NoDup (selectedProducts st) ->
    incl (selectedProducts st) (map id (products st)) ->
    let st' := toggleSelectAll st in
    (incl (map id (products st)) (selectedProducts st) /\ selectedProducts st' = [])
    \/ (~ incl (map id (products st)) (selectedProducts st)
        /\ selectedProducts st' = map id (products st)).
Proof.
  intros st Hids Hsel Hincl st'. subst st'. unfold toggleSelectAll.
  destruct (Nat.eqb_spec (List.length (selectedProducts st)) (List.length (products st)))
    as [E|E].
  - left. split; [|reflexivity].
    apply NoDup_length_incl; trivial. rewrite length_map. lia.
  - right. split; [|reflexivity]. intros H. apply E.
    pose proof (NoDup_incl_length Hsel Hincl) as H1.
    pose proof (NoDup_incl_length Hids H) as H2.
    rewrite length_map in H1, H2. lia.
Qed.

Lemma select_all_by_length_is_sound_witness :
  let st' := toggleSelectAll Sample.admin_page in
  (incl (map id (products Sample.admin_page)) (selectedProducts Sample.admin_page)
   /\ selectedProducts st' = [])
  \/ (~ incl (map id (products Sample.admin_page)) (selectedProducts Sample.admin_page)
      /\ selectedProducts st' = map id (products Sample.admin_page)).
Proof.
  apply (select_all_by_length_is_sound Sample.admin_page).
  - simpl. repeat constructor; simpl; intros H; decompose [or] H; discriminate || tauto.
  - simpl. repeat constructor; simpl; intros H; decompose [or] H; discriminate || tauto.
  - intros x H. exact H.
Defined.

(** X24. A refresh of the product list clears the selection only when it
    goes through. When the request fails (or the reply is [null]) the
    list is emptied and the page count reset, but the selection stays: the
    bulk buttons still hold the ids of products that are no longer
    shown. *)
Theorem failed_refresh_keeps_selection :
  forall (page : Z) (result : Promise (Paginated Product)) (st : State),
    let st' := fetchProducts_then page result st in
    loading st' = false
    /\ match result with
       | Resolved PNull | Rejected _ =>
           products st' = [] /\ selectedProducts st' = selectedProducts st
           /\ currentPage st' = currentPage st /\ message st' = message st
       | Resolved response =>
           items_of_unwrapped response = Normal (products st')
           /\ selectedProducts st' = [] /\ currentPage st' = page
       end.
Proof.
  intros page result st st'. subst st'. split; [reflexivity|].
  destruct result as [[|items|[[items|[items|]]|] meta]|e]; simpl; repeat split.
Qed.

Section Recorded.
Variable World : Type.
Variable fetch : Api.Fetch (Paginated Product) World.
Variable auth_token : option string.

Lemma toggle_recording (id : Z) (w : World) (log : list (Api.Request (Paginated Product))) :
  Api.patch (Api.recording fetch) auth_token (toggle_url id) (PObject None None) (w, log) =
    ((fst (Api.patch fetch auth_token (toggle_url id) (PObject None None) w),
      (log ++ [toggle_request auth_token id])%list),
     snd (Api.patch fetch auth_token (toggle_url id) (PObject None None) w)).
Proof. apply FacadeFacts.patch_recording. Qed.

(** The recorded run of a loop of toggles that all resolve. *)
Lemma toggles_recorded (pre : list Z) :
  forall (w w1 : World) log,
    for_await (fun id => Api.patch fetch auth_token (toggle_url id) (PObject None None))
      pre w = (w1, Normal tt) ->
    for_await (fun id => Api.patch (Api.recording fetch) auth_token (toggle_url id)
                           (PObject None None)) pre (w, log)
      = ((w1, (log ++ map (toggle_request auth_token) pre)%list), Normal tt).
Proof.
  induction pre as [|x pre IH]; intros w w1 log H; simpl in H |- *.
  - injection H as ->. now rewrite app_nil_r.
  - rewrite toggle_recording.
    destruct (Api.patch fetch auth_token (toggle_url x) (PObject None None) w)
      as [w' [v|e]]; simpl in H |- *; [|discriminate].
    rewrite (IH w' w1 _ H). now rewrite <- app_assoc.
Qed.
End Recorded.

(** X25. The bulk toggle of the featured flag. The selection is
    [pre ++ x :: post]: the toggles of [pre] resolve one after the other
    and the toggle of [x] rejects with [e]. Then the page has sent the
    toggles of [pre ++ [x]], in that order, and nothing else (none for
    [post], no refresh); it shows one error banner and is otherwise as it
    was, selection included; and on a backend where a toggle that
    resolves flips the flag of its product and one that rejects changes
    nothing, the products of [pre] are left flipped: running the action
    again on the same selection flips them back. *)
Theorem bulk_toggle_stops_at_first_failure :
  forall (World : Type) (fetch : Api.Fetch (Paginated Product) World)
         (auth_token : option string) (featured : World -> Z -> bool)
         (st : State) (pre post : list Z) (x : Z) (w w1 w2 : World) (e : Error),
    let toggle := fun id => Api.patch fetch auth_token (toggle_url id) (PObject None None) in
    selectedProducts st = (pre ++ x :: post)%list ->
    for_await toggle pre w = (w1, Normal tt) ->
    toggle x w1 = (w2, Rejected e) ->
    let failed :=
      setMessage (Some (mkMessage msg_error
                          (or_string (Js.message e) "Failed to update featured status"))) st in
    handleBulkFeaturedToggle (Api.recording fetch) auth_token st (w, [])
      = ((w2, map (toggle_request auth_token) (pre ++ [x])), failed)
    /\ ((forall id wa wb v, In id pre -> toggle id wa = (wb, Resolved v) ->
           forall i, featured wb i = xorb (featured wa i) (i =? id)) ->
        (forall wa wb e', toggle x wa = (wb, Rejected e') ->
           forall i, featured wb i = featured wa i) ->
        forall i, featured w2 i
                  = xorb (featured w i) (Nat.odd (count_occ Z.eq_dec pre i))).
Proof.
  intros World fetch auth_token featured st pre post x w w1 w2 e toggle
         Hsel Hpre Hx failed.
  assert (Hlen : (List.length (selectedProducts st) =? 0)%nat = false).
  { rewrite Hsel, length_app. simpl. apply Nat.eqb_neq. lia. }
  split.
  - unfold handleBulkFeaturedToggle. rewrite Hlen, Hsel.
    rewrite (LoopFacts.for_await_stops _ _ _ _ pre post x (w, [])
               (w1, map (toggle_request auth_token) pre)
               (w2, map (toggle_request auth_token) (pre ++ [x])) e).
    + reflexivity.
    + apply (toggles_recorded World fetch auth_token pre w w1 [] Hpre).
    + rewrite toggle_recording. fold (toggle x w1). rewrite Hx. cbn [fst snd].
      now rewrite map_app.
  - intros Hok Hfail i. rewrite (Hfail w1 w2 e Hx i).
    apply (LoopFacts.for_await_fold _ _ _ toggle
             (fun wa done => featured wa i
                             = xorb (featured w i) (Nat.odd (count_occ Z.eq_dec done i)))
             pre w w1); trivial.
    + simpl. now rewrite xorb_false_r.
    + intros y wa wb v done Hin HR Hy. rewrite (Hok y wa wb v Hin Hy i), HR.
      rewrite count_occ_app. simpl. rewrite xorb_assoc. f_equal.
      destruct (Z.eq_dec y i) as [->|Hne].
      * rewrite Z.eqb_refl, Nat.add_1_r, Nat.odd_succ, <- Nat.negb_odd.
        now destruct (Nat.odd _).
      * assert (E : (i =? y) = false) by (apply Z.eqb_neq; congruence).
        now rewrite E, Nat.add_0_r, xorb_false_r.
Qed.

Lemma bulk_toggle_stops_at_first_failure_witness :
  let failed :=
    setMessage (Some (mkMessage msg_error
                        (or_string "Failed to fetch" "Failed to update featured status")))
      Sample.admin_page in
  handleBulkFeaturedToggle (Api.recording Samples.featured_shop) None Sample.admin_page
    ((false, false, false), [])
    = (((true, false, false), map (toggle_request None) ([1] ++ [2])), failed)
  /\ ((forall id wa wb v, In id [1] ->
         Api.patch Samples.featured_shop None (toggle_url id) (PObject None None) wa
           = (wb, Resolved v) ->
         forall i, Samples.featured_in wb i = xorb (Samples.featured_in wa i) (i =? id)) ->
      (forall wa wb e',
         Api.patch Samples.featured_shop None (toggle_url 2) (PObject None None) wa
           = (wb, Rejected e') ->
         forall i, Samples.featured_in wb i = Samples.featured_in wa i) ->
      forall i, Samples.featured_in (true, false, false) i
                = xorb (Samples.featured_in (false, false, false) i)
                    (Nat.odd (count_occ Z.eq_dec [1] i))).
Proof.
  apply (bulk_toggle_stops_at_first_failure _ Samples.featured_shop None Samples.featured_in
           Sample.admin_page [1] [3] 2 (false, false, false) (true, false, false)
           (true, false, false) (mkError "TypeError" "Failed to fetch"));
    reflexivity.
Defined.

End SelectionFacts.

(* ================================================================== *)
(** * The profile page *)
(* ================================================================== *)

Module ProfilePageFacts.

Import Profile ProfileActions.

Lemma no_default_left (target : Z) (l : list Address) :
  (forall a, In a l -> is_default a = true -> id a = target) ->
  defaults (filter (fun addr => negb (id addr =? target)) l) = 0%nat.
Proof.
  intros H. unfold defaults. induction l as [|a l IH]; simpl; [reflexivity|].
  assert (IH' := IH (fun b Hb => H b (or_intror Hb))).
  destruct (id a =? target) eqn:E; simpl; [exact IH'|].
  destruct (is_default a) eqn:Ed; simpl; [|exact IH'].
  apply Z.eqb_neq in E. contradiction E. apply H; [now left|exact Ed].
Qed.

(** X26. Deleting an address. Declined in the dialog: no request and no
    change. Otherwise one [DELETE] goes out and [saving] ends false. When
    it resolves, the addresses with that id leave the list and all
    others stay; no other address is made the default, so deleting the
    default one leaves the list without a default. When it rejects the
    list stays as it was and an error banner is shown. *)
Theorem delete_address_outcomes :
  forall (Json World : Type) (fetch : Api.Fetch Json World) (auth_token : option string)
         (confirmed : bool) (target : Z) (st : State) (w : World)
         (log : list (Api.Request Json)),
    let after := handleDeleteAddress (Api.recording fetch) auth_token confirmed target
                   st (w, log) in
    let st' := snd after in
    if confirmed then
      snd (fst after)
        = (log ++ [Api.mkRequest (Api.API_BASE ++ address_url target) "DELETE"
                     (Api.getAuthHeader auth_token) None])%list
      /\ saving st' = false
      /\ match snd (Api.del fetch auth_token (address_url target) w) with
         | Resolved _ =>
             (forall a, In a (addresses st') <-> In a (addresses st) /\ id a <> target)
             /\ ((forall a, In a (addresses st) -> is_default a = true -> id a = target) ->
                 defaults (addresses st') = 0%nat)
             /\ message st' = Some (mkMessage msg_success "Address deleted successfully!")
         | Rejected e =>
             addresses st' = addresses st
             /\ message st' = Some (mkMessage msg_error
                                      (or_string (Js.message e) "Failed to delete address"))
         end
    else after = ((w, log), st).
Proof.
  intros Json World fetch auth_token confirmed target st w log after st'.
  subst st' after. unfold handleDeleteAddress.
  destruct confirmed; cbn [negb]; [|reflexivity].
  rewrite FacadeFacts.delete_recording.
  destruct (Api.del fetch auth_token (address_url target) w) as [w1 [v|e]]; cbn [fst snd].
  - split; [reflexivity|]. split; [reflexivity|]. simpl. split; [|split; [|reflexivity]].
    + intros a. rewrite filter_In, negb_true_iff, Z.eqb_neq. reflexivity.
    + apply no_default_left.
  - repeat split.
Qed.

(** X27. Changing the password. When the new password and its
    confirmation differ nothing is sent: the page shows "New passwords do
    not match" and changes nothing else. When they agree the three fields
    are posted; a reply that resolves empties the three fields, a
    rejection keeps them as typed; [saving] ends false either way. *)
Theorem password_change_outcomes :
  forall (Json : Type) (result : Promise Json) (p : Page),
    let started := handleChangePassword_start p in
    if (new (password p) =? confirm (password p))%string then
      snd started = Some (mkPasswordChange (current (password p)) (new (password p))
                            (new (password p)))
      /\ saving (base (fst started)) = true
      /\ let p' := handleChangePassword_then result (fst started) in
         saving (base p') = false
         /\ match result with
            | Resolved _ => password p' = mkPassword "" "" ""
            | Rejected _ => password p' = password p
            end
    else
      snd started = None
      /\ fst started
         = setBase (setMessage (Some (mkMessage msg_error "New passwords do not match"))
                      (base p)) p.
Proof.
  intros Json result p started. subst started. unfold handleChangePassword_start.
  destruct (String.eqb_spec (new (password p)) (confirm (password p))) as [E|E];
    cbn [negb fst snd].
  - rewrite <- E. split; [reflexivity|]. split; [reflexivity|].
    destruct result as [v|e]; simpl; split; reflexivity.
  - split; reflexivity.
Qed.

(** X28. [fetchProfileData] is all or nothing. The profile, the addresses
    and the orders are stored only when all three requests resolve and
    none of the replies is [null]; if any one of them fails none of the
    three is stored, and the page shows "Failed to load profile data".
    [loading] ends false either way. *)
Theorem profile_data_all_or_nothing :
  forall (userResult : Promise (Item User)) (addressResult : Promise (Listing Address))
         (orderResult : Promise (Listing Order)) (p : Page),
    let p' := fetchProfileData_then userResult addressResult orderResult p in
    loading p' = false
    /\ ((exists userResponse addressResponse orderResponse userData,
           userResult = Resolved userResponse /\ addressResult = Resolved addressResponse
           /\ orderResult = Resolved orderResponse
           /\ unwrap userResponse = Normal userData
           /\ user p' = Some userData /\ editingUser p' = Some userData
           /\ items_of addressResponse = Normal (addresses (base p'))
           /\ items_of orderResponse = Normal (orders p')
           /\ message (base p') = message (base p))
        \/ p' = setLoading false
                  (setBase (setMessage (Some (mkMessage msg_error
                                                "Failed to load profile data"))
                              (base p)) p)).
Proof.
  intros userResult addressResult orderResult p p'. subst p'.
  split; [reflexivity|]. unfold fetchProfileData_then, all3.
  destruct userResult as [userResponse|e]; cbn [await bind try_catch]; [|now right].
  destruct addressResult as [addressResponse|e]; cbn [await bind try_catch]; [|now right].
  destruct orderResult as [orderResponse|e]; cbn [await bind try_catch]; [|now right].
  destruct (unwrap userResponse) as [userData|e] eqn:Eu; cbn [bind try_catch];
    [|now right].
  destruct (items_of addressResponse) as [addressData|e] eqn:Ea; cbn [bind try_catch];
    [|now right].
  destruct (items_of orderResponse) as [orderData|e] eqn:Eo; cbn [bind try_catch];
    [|now right].
  left. exists userResponse, addressResponse, orderResponse, userData.
  rewrite Ea, Eo. simpl. repeat split. exact Eu.
Qed.

End ProfilePageFacts.

(* ================================================================== *)
(** * The product page *)
(* ================================================================== *)

Module WishlistFacts.

Import ProductDetail.

(** X29. The wishlist button never changes [isInWishlist]: a product
    that is on a wishlist stays marked so, and one that is not stays
    unmarked (the page only says "Removed from wishlist"). A request goes
    out only for a logged-in customer, a loaded product and a product
    already marked, and it is the one that creates a wishlist. *)
Theorem wishlist_button_never_flips :
  forall (World : Type) (fetch : Api.Fetch Body World) (auth_token : option string)
         (user confirmed : bool) (st : State) (w : World) (log : list (Api.Request Body)),
    let after := handleToggleWishlist (Api.recording fetch) auth_token user confirmed
                   st (w, log) in
    isInWishlist (snd after) = isInWishlist st
    /\ product (snd after) = product st
    /\ (if user && isInWishlist st
           && match product st with Some _ => true | None => false end
        then snd (fst after)
             = (log ++ [Api.mkRequest (Api.API_BASE ++ "/wishlists") "POST"
                          (Api.json_headers auth_token)
                          (Some (WishlistName "My Wishlist"))])%list
        else fst after = (w, log)).
Proof.
  intros World fetch auth_token user confirmed st w log after. subst after.
  unfold handleToggleWishlist.
  destruct user; cbn [negb andb].
  2:{ destruct confirmed; repeat split. }
  destruct (product st) as [prod|] eqn:Ep; [|rewrite andb_false_r; repeat split; now rewrite ?Ep].
  destruct (isInWishlist st) eqn:Ei; cbn [andb].
  - rewrite FacadeFacts.post_recording.
    destruct (Api.post fetch auth_token "/wishlists" (WishlistName "My Wishlist") w)
      as [w1 [v|e]]; cbn [fst snd await]; simpl; repeat split; now rewrite ?Ep, ?Ei.
  - simpl. repeat split; now rewrite ?Ep, ?Ei.
Qed.

End WishlistFacts.
